(** * The project knowledge-graph engine (project_index.ts)

    A shallow embedding of the [KnowledgeGraphManager] class: the
    entity/relation store persisted in memory.json, the status/priority
    convention layer, node search, the task dependency resolver with its
    critical-path estimate, resource allocation, the project health
    score, the project overview and the search for related projects;
    and, of the session tools built on the class, the listings of
    [startsession] and the callbacks that [endsession] runs on task
    updates and on new tasks.

    Conventions of the embedding.
    - Every method of the class reloads the graph from the file, works on
      its private copy, and writes the whole graph back.  The file is the
      only state, so a method is a function from the file content to a
      result and a new file content (the [M] monad below); a [throw]
      leaves the file as it was at that point.
    - JavaScript strings are [string]s of bytes; [toLowerCase] and [trim]
      act on the ASCII letters and blanks.
    - JavaScript arrays are lists; a [Map] or [Set] iterated in insertion
      order is an association list or a list of keys.
    - Doubles that the code keeps finite are exact rationals ([Q]); where
      NaN or an infinity can arise ([parseInt], division by a parsed
      value) the type [number] carries them.  Levels and the depth bound
      of the dependency resolver are integers ([Z]).
    - Recursion of the source that is bounded by its data
      ([addDependencies], [findPaths], [findConnections]) is cut by a
      fuel counter; the lemmas [getTaskDependencies_total] and
      [findConnections_total] and their parts show the counter never
      decides an outcome. *)

From Stdlib Require Import List String Ascii ZArith QArith Qround Bool Lia Arith.
Import ListNotations.
Local Close Scope Q_scope.
Local Open Scope string_scope.
Local Open Scope list_scope.

(* ================================================================== *)
(** * JavaScript runtime primitives used by the engine *)
(* ================================================================== *)

Module JS.

(** ** Strings *)

Definition lower_ascii (c : ascii) : ascii :=
  let n := nat_of_ascii c in
  if andb (65 <=? n)%nat (n <=? 90)%nat then ascii_of_nat (n + 32) else c.

(** [String.prototype.toLowerCase]. *)
Fixpoint toLowerCase (s : string) : string :=
  match s with
  | EmptyString => EmptyString
  | String c s' => String (lower_ascii c) (toLowerCase s')
  end.

(** [s.startsWith(p)]. *)
Definition startsWith (s p : string) : bool := String.prefix p s.

(** [s.includes(sub)]: [sub] occurs in [s] at some position. *)
Fixpoint includes (s sub : string) : bool :=
  orb (String.prefix sub s)
      (match s with
       | EmptyString => false
       | String _ s' => includes s' sub
       end).

(** [s.split(sep)] for a one-character separator: the pieces between
    the separators, in order; never empty. *)
Fixpoint split (sep : ascii) (s : string) : list string :=
  match s with
  | EmptyString => [EmptyString]
  | String c s' =>
      if Ascii.eqb c sep then EmptyString :: split sep s'
      else match split sep s' with
           | [] => [String c EmptyString]
           | p :: ps => String c p :: ps
           end
  end.

(** [s.split(sep, limit)]: the first [limit] pieces only. *)
Definition split_limit (sep : ascii) (limit : nat) (s : string) : list string :=
  firstn limit (split sep s).

Definition is_space (c : ascii) : bool :=
  let n := nat_of_ascii c in
  orb (n =? 32)%nat (andb (9 <=? n)%nat (n <=? 13)%nat).

Fixpoint trimStart (s : string) : string :=
  match s with
  | EmptyString => EmptyString
  | String c s' => if is_space c then trimStart s' else s
  end.

Fixpoint trimEnd (s : string) : string :=
  match s with
  | EmptyString => EmptyString
  | String c s' =>
      match trimEnd s' with
      | EmptyString => if is_space c then EmptyString else String c EmptyString
      | t => String c t
      end
  end.

(** [String.prototype.trim]. *)
Definition trim (s : string) : string := trimEnd (trimStart s).

(** [arr.join(sep)]. *)
Definition join (sep : string) (l : list string) : string := String.concat sep l.

(** Truthiness of a [string | undefined]: [undefined] and the empty
    string are falsy. *)
Definition truthy (o : option string) : bool :=
  match o with
  | Some (String _ _) => true
  | _ => false
  end.

(** [o || d] on a [string | undefined]. *)
Definition or_else (o : option string) (d : string) : string :=
  match o with
  | Some (String c s) => String c s
  | _ => d
  end.

(** [arr.includes(x)] on an array of strings. *)
Definition array_includes (l : list string) (x : string) : bool :=
  existsb (String.eqb x) l.

End JS.

(* ================================================================== *)
(** * Data model *)
(* ================================================================== *)

(** [interface Entity]. *)
Module Entity.
Record t : Type := mk {
  name : string;
  entityType : string;
  observations : list string;
  embedding : option (list Q)
}.
End Entity.

(** [interface Relation]. *)
Module Relation.
Record t : Type := mk {
  from : string;
  to : string;
  relationType : string;
  observations : option (list string)
}.
End Relation.

(** [interface KnowledgeGraph]. *)
Record KnowledgeGraph : Type := mkGraph {
  entities : list Entity.t;
  relations : list Relation.t
}.

Definition validEntityTypes : list string :=
  [ "project"; "task"; "milestone"; "resource"; "teamMember"; "note";
    "document"; "issue"; "risk"; "decision"; "dependency"; "component";
    "stakeholder"; "change"; "status"; "priority" ].

Definition VALID_RELATION_TYPES : list string :=
  [ "part_of"; "depends_on"; "assigned_to"; "created_by"; "modified_by";
    "related_to"; "blocks"; "manages"; "contributes_to"; "documents";
    "scheduled_for"; "responsible_for"; "reports_to"; "categorized_as";
    "required_for"; "discovered_in"; "resolved_by"; "impacted_by";
    "stakeholder_of"; "prioritized_as"; "has_status"; "has_priority";
    "precedes" ].

Definition VALID_STATUS_VALUES : list string :=
  [ "active"; "completed"; "pending"; "blocked"; "cancelled" ].

Definition VALID_PRIORITY_VALUES : list string := [ "high"; "low" ].

Definition isValidEntityType (type : string) : bool :=
  JS.array_includes validEntityTypes type.

(* ================================================================== *)
(** * The persisted file and the effect of a method *)
(* ================================================================== *)

(** Outcome of a call: a value, or a thrown [Error] with its message. *)
Inductive result (A : Type) : Type :=
| Ok (a : A)
| Throw (msg : string).
Arguments Ok {A} a.
Arguments Throw {A} msg.

(** Content of memory.json: [None] when the file is missing or does not
    parse. *)
Definition Store : Type := option KnowledgeGraph.

(** A method: from the file content to its outcome and the new content. *)
Definition M (A : Type) : Type := Store -> result A * Store.

Definition ret {A} (a : A) : M A := fun st => (Ok a, st).

Definition throw {A} (msg : string) : M A := fun st => (Throw msg, st).

Definition bind {A B} (c : M A) (k : A -> M B) : M B :=
  fun st =>
    match c st with
    | (Ok a, st') => k a st'
    | (Throw msg, st') => (Throw msg, st')
    end.

Declare Scope kg_scope.
Delimit Scope kg_scope with kg.
Notation "x <- c ;; k" := (bind c (fun x => k))
  (at level 61, c at next level, right associativity) : kg_scope.
Notation "c ;;; k" := (bind c (fun _ => k))
  (at level 61, right associativity) : kg_scope.
Local Open Scope kg_scope.

Definition emptyGraph : KnowledgeGraph := mkGraph [] [].

(** [loadGraph]: the parsed file, or an empty graph when reading or
    parsing fails. *)
Definition loadGraph : M KnowledgeGraph :=
  fun st =>
    match st with
    | Some g => (Ok g, st)
    | None => (Ok emptyGraph, st)
    end.

(** [saveGraph]: overwrite the file with the whole graph. *)
Definition saveGraph (graph : KnowledgeGraph) : M unit :=
  fun _ => (Ok tt, Some graph).

(** The graph a later call will load. *)
Definition stored (st : Store) : KnowledgeGraph :=
  match st with
  | Some g => g
  | None => emptyGraph
  end.

(** A [for (const x of xs)] loop whose body may throw, over a pure
    check: the first throw ends the loop. *)
Fixpoint for_of {A} (xs : list A) (body : A -> result unit) : result unit :=
  match xs with
  | [] => Ok tt
  | x :: xs' =>
      match body x with
      | Ok _ => for_of xs' body
      | Throw msg => Throw msg
      end
  end.

Definition lift {A} (r : result A) : M A := fun st => (r, st).

(** [graph.entities.some(e => e.name === n)]. *)
Definition hasEntity (graph : KnowledgeGraph) (n : string) : bool :=
  existsb (fun e => String.eqb (Entity.name e) n) (entities graph).

(** [graph.entities.find(e => e.name === n)]. *)
Definition findEntity (graph : KnowledgeGraph) (n : string) : option Entity.t :=
  find (fun e => String.eqb (Entity.name e) n) (entities graph).

(** [graph.entities.find(e => e.name === n && e.entityType === ty)]. *)
Definition findTyped (graph : KnowledgeGraph) (n ty : string) : option Entity.t :=
  find (fun e => andb (String.eqb (Entity.name e) n)
                      (String.eqb (Entity.entityType e) ty))
       (entities graph).

(** The (from, to, relationType) triple of two relations coincide. *)
Definition sameTriple (r rel : Relation.t) : bool :=
  andb (String.eqb (Relation.from r) (Relation.from rel))
       (andb (String.eqb (Relation.to r) (Relation.to rel))
             (String.eqb (Relation.relationType r) (Relation.relationType rel))).

(* ================================================================== *)
(** * Graph store: creation *)
(* ================================================================== *)

Definition validateEntityType (type : string) : result unit :=
  if isValidEntityType type then Ok tt
  else Throw ("Invalid entity type: " ++ type ++ ". Valid types are: "
              ++ JS.join ", " validEntityTypes).

Definition createEntities (batch : list Entity.t) : M KnowledgeGraph :=
  graph <- loadGraph ;;
  lift (for_of batch (fun entity =>
          if hasEntity graph (Entity.name entity)
          then Throw ("Entity with name " ++ Entity.name entity ++ " already exists")
          else validateEntityType (Entity.entityType entity))) ;;;
  let graph' := mkGraph (entities graph ++ batch) (relations graph) in
  saveGraph graph' ;;;
  ret graph'.

Definition createRelations (batch : list Relation.t) : M KnowledgeGraph :=
  graph <- loadGraph ;;
  lift (for_of batch (fun relation =>
          if negb (hasEntity graph (Relation.from relation))
          then Throw ("Entity '" ++ Relation.from relation ++ "' not found")
          else if negb (hasEntity graph (Relation.to relation))
          then Throw ("Entity '" ++ Relation.to relation ++ "' not found")
          else if negb (JS.array_includes VALID_RELATION_TYPES
                          (Relation.relationType relation))
          then Throw ("Invalid relation type: " ++ Relation.relationType relation
                      ++ ". Valid types are: " ++ JS.join ", " VALID_RELATION_TYPES)
          else if existsb (fun r => sameTriple r relation) (relations graph)
          then Throw ("Relation from '" ++ Relation.from relation ++ "' to '"
                      ++ Relation.to relation ++ "' with type '"
                      ++ Relation.relationType relation ++ "' already exists")
          else Ok tt)) ;;;
  let graph' := mkGraph (entities graph) (relations graph ++ batch) in
  saveGraph graph' ;;;
  ret graph'.

(* ================================================================== *)
(** * Status / priority index *)
(* ================================================================== *)

(** One pass of the initialisation loop: push the synthetic entity
    unless one with that name and type is already in the array. *)
Definition ensureValueEntity (kind : string) (ents : list Entity.t) (value : string)
  : list Entity.t :=
  let valueName := (kind ++ ":" ++ value)%string in
  if existsb (fun e => andb (String.eqb (Entity.name e) valueName)
                            (String.eqb (Entity.entityType e) kind)) ents
  then ents
  else ents ++ [Entity.mk valueName kind [("A " ++ value ++ " " ++ kind ++ " value")%string] None].

Definition initializeStatusAndPriority : M unit :=
  graph <- loadGraph ;;
  let ents1 := fold_left (ensureValueEntity "status") VALID_STATUS_VALUES (entities graph) in
  let ents2 := fold_left (ensureValueEntity "priority") VALID_PRIORITY_VALUES ents1 in
  saveGraph (mkGraph ents2 (relations graph)).

(** A [string | null] result that can also come out [undefined]
    ([split(':')[1]] on a name without a colon). *)
Inductive lookup_result : Type :=
| Null
| Undefined
| Value (s : string).

(** [r.from === entityName && r.relationType === kind]. *)
Definition isKindOf (kind entityName : string) (r : Relation.t) : bool :=
  andb (String.eqb (Relation.from r) entityName)
       (String.eqb (Relation.relationType r) kind).

Definition getEntityValue (kind entityName : string) : M lookup_result :=
  graph <- loadGraph ;;
  match find (isKindOf kind entityName) (relations graph) with
  | Some valueRelation =>
      match nth_error (JS.split ":" (Relation.to valueRelation)) 1 with
      | Some v => ret (Value v)
      | None => ret Undefined
      end
  | None => ret Null
  end.

Definition getEntityStatus (entityName : string) : M lookup_result :=
  getEntityValue "has_status" entityName.

Definition getEntityPriority (entityName : string) : M lookup_result :=
  getEntityValue "has_priority" entityName.

Definition setEntityStatus (entityName statusValue : string) : M unit :=
  if negb (JS.array_includes VALID_STATUS_VALUES statusValue)
  then throw ("Invalid status value: " ++ statusValue ++ ". Valid values are: "
              ++ JS.join ", " VALID_STATUS_VALUES)
  else
    graph <- loadGraph ;;
    let kept := filter (fun r => negb (isKindOf "has_status" entityName r))
                       (relations graph) in
    saveGraph (mkGraph (entities graph)
                 (kept ++ [Relation.mk entityName ("status:" ++ statusValue)%string
                             "has_status" None])).

Definition setEntityPriority (entityName priorityValue : string) : M unit :=
  if negb (JS.array_includes VALID_PRIORITY_VALUES priorityValue)
  then throw ("Invalid priority value: " ++ priorityValue ++ ". Valid values are: "
              ++ JS.join ", " VALID_PRIORITY_VALUES)
  else
    graph <- loadGraph ;;
    let kept := filter (fun r => negb (isKindOf "has_priority" entityName r))
                       (relations graph) in
    saveGraph (mkGraph (entities graph)
                 (kept ++ [Relation.mk entityName ("priority:" ++ priorityValue)%string
                             "has_priority" None])).

(* ================================================================== *)
(** * Graph store: observations and deletion *)
(* ================================================================== *)

(** Mutate in place the first element satisfying [p] (the object that
    [Array.prototype.find] returns). *)
Fixpoint updateFirst {A} (p : A -> bool) (f : A -> A) (l : list A) : list A :=
  match l with
  | [] => []
  | x :: l' => if p x then f x :: l' else x :: updateFirst p f l'
  end.

Definition withObservations (e : Entity.t) (obs : list string) : Entity.t :=
  Entity.mk (Entity.name e) (Entity.entityType e) obs (Entity.embedding e).

Definition addObservations (entityName : string) (obs : list string) : M KnowledgeGraph :=
  graph <- loadGraph ;;
  match findEntity graph entityName with
  | None => throw ("Entity '" ++ entityName ++ "' not found")
  | Some _ =>
      let graph' :=
        mkGraph (updateFirst (fun e => String.eqb (Entity.name e) entityName)
                   (fun e => withObservations e (Entity.observations e ++ obs))
                   (entities graph))
                (relations graph) in
      saveGraph graph' ;;;
      ret graph'
  end.

Definition deleteEntities (entityNames : list string) : M unit :=
  graph <- loadGraph ;;
  saveGraph
    (mkGraph
       (filter (fun e => negb (JS.array_includes entityNames (Entity.name e)))
               (entities graph))
       (filter (fun r => andb (negb (JS.array_includes entityNames (Relation.from r)))
                              (negb (JS.array_includes entityNames (Relation.to r))))
               (relations graph))).

Definition deleteObservations (deletions : list (string * list string)) : M unit :=
  graph <- loadGraph ;;
  saveGraph
    (mkGraph
       (fold_left
          (fun ents (deletion : string * list string) =>
             let (entityName, obs) := deletion in
             updateFirst (fun e => String.eqb (Entity.name e) entityName)
               (fun e => withObservations e
                           (filter (fun o => negb (JS.array_includes obs o))
                                   (Entity.observations e)))
               ents)
          deletions (entities graph))
       (relations graph)).

Definition deleteRelations (batch : list Relation.t) : M unit :=
  graph <- loadGraph ;;
  saveGraph
    (mkGraph (entities graph)
       (filter (fun r => negb (existsb (fun rel => sameTriple r rel) batch))
               (relations graph))).

Definition readGraph : M KnowledgeGraph := loadGraph.

(* ================================================================== *)
(** * Graph store: search *)
(* ================================================================== *)

(** The entity filter of [searchNodes]. *)
Definition entityMatches (lowerQuery : string) (entity : Entity.t) : bool :=
  orb (JS.includes (JS.toLowerCase (Entity.name entity)) lowerQuery)
      (orb (JS.includes (JS.toLowerCase (Entity.entityType entity)) lowerQuery)
           (existsb (fun o => JS.includes (JS.toLowerCase o) lowerQuery)
                    (Entity.observations entity))).

(** The filter of the additional relations of [searchNodes]. *)
Definition relationMatches (lowerQuery : string) (relation : Relation.t) : bool :=
  orb (JS.includes (JS.toLowerCase (Relation.relationType relation)) lowerQuery)
      (match Relation.observations relation with
       | Some obs => existsb (fun o => JS.includes (JS.toLowerCase o) lowerQuery) obs
       | None => false
       end).

(** The three accumulators of the merge loop: [allRelations],
    [matchingEntities] and the [Set] [matchingEntityNames]. *)
Record SearchAcc : Type := mkAcc {
  allRelations : list Relation.t;
  matchingEntities : list Entity.t;
  matchingEntityNames : list string
}.

(** Add the entity named [n] when the name set lacks it and the graph
    has it. *)
Definition addEndpoint (graph : KnowledgeGraph) (n : string) (acc : SearchAcc) : SearchAcc :=
  if negb (JS.array_includes (matchingEntityNames acc) n) then
    match findEntity graph n with
    | Some e => mkAcc (allRelations acc) (matchingEntities acc ++ [e])
                      (matchingEntityNames acc ++ [n])
    | None => acc
    end
  else acc.

(** Body of the merge loop for one additional relation. *)
Definition mergeRelation (graph : KnowledgeGraph) (acc : SearchAcc) (relation : Relation.t)
  : SearchAcc :=
  if negb (existsb (fun r => sameTriple r relation) (allRelations acc)) then
    let acc1 := mkAcc (allRelations acc ++ [relation]) (matchingEntities acc)
                      (matchingEntityNames acc) in
    let acc2 := addEndpoint graph (Relation.from relation) acc1 in
    addEndpoint graph (Relation.to relation) acc2
  else acc.

(** [searchNodes] on a loaded graph, with the two filters as given. *)
Definition searchGraph (matchE : Entity.t -> bool) (matchR : Relation.t -> bool)
    (graph : KnowledgeGraph) : KnowledgeGraph :=
  let matching := filter matchE (entities graph) in
  let names := map Entity.name matching in
  let matchingRelations :=
    filter (fun relation => andb (JS.array_includes names (Relation.from relation))
                                 (JS.array_includes names (Relation.to relation)))
           (relations graph) in
  let additionalRelations := filter matchR (relations graph) in
  let acc := fold_left (mergeRelation graph) additionalRelations
               (mkAcc matchingRelations matching names) in
  mkGraph (matchingEntities acc) (allRelations acc).

Definition searchNodes (query : string) : M KnowledgeGraph :=
  graph <- loadGraph ;;
  let lowerQuery := JS.toLowerCase query in
  ret (searchGraph (entityMatches lowerQuery) (relationMatches lowerQuery) graph).

Definition openNodes (names : list string) : M KnowledgeGraph :=
  graph <- loadGraph ;;
  ret (mkGraph
         (filter (fun e => JS.array_includes names (Entity.name e)) (entities graph))
         (filter (fun r => andb (JS.array_includes names (Relation.from r))
                                (JS.array_includes names (Relation.to r)))
                 (relations graph))).

(* ================================================================== *)
(** * Semi-structured observation fields *)
(* ================================================================== *)

(** [obs.find(o => o.startsWith(key))?.split(':', 2)[1]?.trim()]. *)
Definition field (key : string) (obs : list string) : option string :=
  match find (fun o => JS.startsWith o key) obs with
  | Some o =>
      match nth_error (JS.split_limit ":" 2 o) 1 with
      | Some v => Some (JS.trim v)
      | None => None
      end
  | None => None
  end.

(** [field === value] for a [string | undefined] field. *)
Definition fieldIs (key value : string) (e : Entity.t) : bool :=
  match field key (Entity.observations e) with
  | Some v => String.eqb v value
  | None => false
  end.

(** Stable insertion sort under a comparator, standing for
    [Array.prototype.sort(cmp)]: an element goes before the first one it
    compares strictly below.  For a consistent comparator this is the
    order every stable sort gives. *)
Fixpoint insertSorted {A} (cmp : A -> A -> Z) (x : A) (l : list A) : list A :=
  match l with
  | [] => [x]
  | y :: l' => if (cmp x y <? 0)%Z then x :: l else y :: insertSorted cmp x l'
  end.

Definition sortBy {A} (cmp : A -> A -> Z) (l : list A) : list A :=
  fold_left (fun sorted x => insertSorted cmp x sorted) l [].

(* ================================================================== *)
(** * Dependency resolver *)
(* ================================================================== *)

Inductive Direction : Type := DependsOn | DependedOnBy.

(** [interface DependencyNode].  The two arrays hold references to nodes
    of the map; a node is created once per task name and never replaced,
    and the arrays are only ever read through [d.task.name], so a
    reference is represented by the name under which the node is
    stored. *)
Module DependencyNode.
Record t : Type := mk {
  task : Entity.t;
  dependsOn : list string;
  dependedOnBy : list string;
  level : Z
}.
End DependencyNode.

(** [Map<string, DependencyNode>], in insertion order. *)
Definition DependencyMap : Type := list (string * DependencyNode.t).

Fixpoint map_get {V} (m : list (string * V)) (k : string) : option V :=
  match m with
  | [] => None
  | (k', v) :: m' => if String.eqb k' k then Some v else map_get m' k
  end.

Definition map_has {V} (m : list (string * V)) (k : string) : bool :=
  match map_get m k with
  | Some _ => true
  | None => false
  end.

(** [Map.prototype.set]: a present key keeps its position. *)
Fixpoint map_set {V} (m : list (string * V)) (k : string) (v : V) : list (string * V) :=
  match m with
  | [] => [(k, v)]
  | (k', v') :: m' =>
      if String.eqb k' k then (k', v) :: m' else (k', v') :: map_set m' k v
  end.

(** Mutation of the node stored under [k], if any. *)
Fixpoint map_update {V} (m : list (string * V)) (k : string) (f : V -> V)
  : list (string * V) :=
  match m with
  | [] => []
  | (k', v') :: m' =>
      if String.eqb k' k then (k', f v') :: m' else (k', v') :: map_update m' k f
  end.

Definition pushDependsOn (n : string) (node : DependencyNode.t) : DependencyNode.t :=
  DependencyNode.mk (DependencyNode.task node)
    (DependencyNode.dependsOn node ++ [n])
    (DependencyNode.dependedOnBy node) (DependencyNode.level node).

Definition pushDependedOnBy (n : string) (node : DependencyNode.t) : DependencyNode.t :=
  DependencyNode.mk (DependencyNode.task node)
    (DependencyNode.dependsOn node)
    (DependencyNode.dependedOnBy node ++ [n]) (DependencyNode.level node).

Definition setLevel (l : Z) (node : DependencyNode.t) : DependencyNode.t :=
  DependencyNode.mk (DependencyNode.task node)
    (DependencyNode.dependsOn node) (DependencyNode.dependedOnBy node) l.

(** [node.dependsOn.some(d => d.task.name === n)] for the node stored
    under [k]. *)
Definition listsDependsOn (m : DependencyMap) (k n : string) : bool :=
  match map_get m k with
  | Some node => existsb (String.eqb n) (DependencyNode.dependsOn node)
  | None => false
  end.

Definition listsDependedOnBy (m : DependencyMap) (k n : string) : bool :=
  match map_get m k with
  | Some node => existsb (String.eqb n) (DependencyNode.dependedOnBy node)
  | None => false
  end.

(** Message of the [TypeError] raised by reading a property of
    [undefined]. *)
Definition TypeError_undefined (prop : string) : string :=
  "Cannot read properties of undefined (reading '" ++ prop ++ "')".

(** A computation that may throw and whose recursion is cut by a fuel
    counter: [None] when the counter ran out. *)
Definition R (A : Type) : Type := option (result A).

Definition bindR {A B} (c : R A) (k : A -> R B) : R B :=
  match c with
  | Some (Ok a) => k a
  | Some (Throw msg) => Some (Throw msg)
  | None => None
  end.

Notation "x <~ c ;; k" := (bindR c (fun x => k))
  (at level 61, c at next level, right associativity) : kg_scope.

(** A [for ... of] loop threading a state through a body in [R]. *)
Fixpoint foldR {A S} (body : S -> A -> R S) (xs : list A) (s : S) : R S :=
  match xs with
  | [] => Some (Ok s)
  | x :: xs' => s' <~ body s x ;; foldR body xs' s'
  end.

Section AddDependencies.

Variable graph : KnowledgeGraph.
Variable depth : Z.

(** Body of the loop over [graph.relations] in direction
    ['dependsOn'], with [rec] the recursive call. *)
Definition visitDependency
    (rec : Entity.t -> Z -> Direction -> DependencyMap -> R DependencyMap)
    (taskEntity : Entity.t) (currentLevel : Z)
    (m : DependencyMap) (relation : Relation.t) : R DependencyMap :=
  if andb (String.eqb (Relation.relationType relation) "depends_on")
          (String.eqb (Relation.from relation) (Entity.name taskEntity))
  then
    match findTyped graph (Relation.to relation) "task" with
    | Some dependencyTask =>
        if negb (listsDependsOn m (Entity.name taskEntity) (Entity.name dependencyTask))
        then
          m1 <~ rec dependencyTask (currentLevel + 1)%Z DependsOn m ;;
          match map_get m1 (Entity.name dependencyTask) with
          | None => Some (Throw (TypeError_undefined "dependedOnBy"))
          | Some _ =>
              let m2 := map_update m1 (Entity.name taskEntity)
                          (pushDependsOn (Entity.name dependencyTask)) in
              if negb (listsDependedOnBy m2 (Entity.name dependencyTask)
                         (Entity.name taskEntity))
              then Some (Ok (map_update m2 (Entity.name dependencyTask)
                               (pushDependedOnBy (Entity.name taskEntity))))
              else Some (Ok m2)
          end
        else Some (Ok m)
    | None => Some (Ok m)
    end
  else Some (Ok m).

(** Body of the loop in direction ['dependedOnBy']. *)
Definition visitDependent
    (rec : Entity.t -> Z -> Direction -> DependencyMap -> R DependencyMap)
    (taskEntity : Entity.t) (currentLevel : Z)
    (m : DependencyMap) (relation : Relation.t) : R DependencyMap :=
  if andb (String.eqb (Relation.relationType relation) "depends_on")
          (String.eqb (Relation.to relation) (Entity.name taskEntity))
  then
    match findTyped graph (Relation.from relation) "task" with
    | Some dependentTask =>
        if negb (listsDependedOnBy m (Entity.name taskEntity) (Entity.name dependentTask))
        then
          m1 <~ rec dependentTask (currentLevel + 1)%Z DependedOnBy m ;;
          match map_get m1 (Entity.name dependentTask) with
          | None => Some (Throw (TypeError_undefined "dependsOn"))
          | Some _ =>
              let m2 := map_update m1 (Entity.name taskEntity)
                          (pushDependedOnBy (Entity.name dependentTask)) in
              if negb (listsDependsOn m2 (Entity.name dependentTask)
                         (Entity.name taskEntity))
              then Some (Ok (map_update m2 (Entity.name dependentTask)
                               (pushDependsOn (Entity.name taskEntity))))
              else Some (Ok m2)
          end
        else Some (Ok m)
    | None => Some (Ok m)
    end
  else Some (Ok m).

(** Node creation and level update at the head of [addDependencies]. *)
Definition enterNode (taskEntity : Entity.t) (currentLevel : Z)
    (direction : Direction) (m : DependencyMap) : DependencyMap :=
  let m0 :=
    if negb (map_has m (Entity.name taskEntity))
    then map_set m (Entity.name taskEntity)
           (DependencyNode.mk taskEntity [] []
              (match direction with DependsOn => currentLevel | DependedOnBy => 0%Z end))
    else m in
  match direction, map_get m0 (Entity.name taskEntity) with
  | DependsOn, Some node =>
      if (currentLevel <? DependencyNode.level node)%Z
      then map_update m0 (Entity.name taskEntity) (setLevel currentLevel)
      else m0
  | _, _ => m0
  end.

(** The recursive helper [addDependencies]; [fuel] bounds the nesting
    of calls. *)
Fixpoint addDependencies (fuel : nat) (taskEntity : Entity.t) (currentLevel : Z)
    (direction : Direction) (m : DependencyMap) : R DependencyMap :=
  match fuel with
  | O => None
  | S fuel' =>
      if (currentLevel >? depth)%Z then Some (Ok m)
      else
        let m1 := enterNode taskEntity currentLevel direction m in
        match direction with
        | DependsOn =>
            foldR (visitDependency (addDependencies fuel') taskEntity currentLevel)
                  (relations graph) m1
        | DependedOnBy =>
            foldR (visitDependent (addDependencies fuel') taskEntity currentLevel)
                  (relations graph) m1
        end
  end.

(** Nesting of [addDependencies] never exceeds [depth + 2] calls. *)
Definition enoughFuel : nat := Z.to_nat depth + 2.

End AddDependencies.

(** An element of [serializableDependencies]. *)
Module Dependency.
Record t : Type := mk {
  task : Entity.t;
  level : Z;
  dependsOn : list string;
  dependedOnBy : list string;
  status : string;
  dueDate : option string;
  assignee : option string
}.
End Dependency.

(** [getTaskAssignee]: the first [assigned_to] relation of the task that
    leads to a team member. *)
Fixpoint getTaskAssigneeIn (graph : KnowledgeGraph) (taskName : string)
    (rels : list Relation.t) : option string :=
  match rels with
  | [] => None
  | relation :: rels' =>
      if andb (String.eqb (Relation.relationType relation) "assigned_to")
              (String.eqb (Relation.from relation) taskName)
      then match findTyped graph (Relation.to relation) "teamMember" with
           | Some teamMember => Some (Entity.name teamMember)
           | None => getTaskAssigneeIn graph taskName rels'
           end
      else getTaskAssigneeIn graph taskName rels'
  end.

Definition getTaskAssignee (graph : KnowledgeGraph) (taskName : string) : option string :=
  getTaskAssigneeIn graph taskName (relations graph).

Definition serialize (graph : KnowledgeGraph) (node : DependencyNode.t) : Dependency.t :=
  let task := DependencyNode.task node in
  Dependency.mk task (DependencyNode.level node)
    (DependencyNode.dependsOn node) (DependencyNode.dependedOnBy node)
    (JS.or_else (field "Status:" (Entity.observations task)) "not_started")
    (field "DueDate:" (Entity.observations task))
    (getTaskAssignee graph (Entity.name task)).

(** ** Critical path *)

(** [adjacencyList.get(k) || []]. *)
Definition adjacent {V} (adj : list (string * list V)) (k : string) : list V :=
  match map_get adj k with
  | Some l => l
  | None => []
  end.

(** The adjacency list: every task starts with no successor, then each
    task is appended to the successors of what it depends on. *)
Definition buildAdjacency (dependencies : list Dependency.t) : list (string * list string) :=
  let init :=
    fold_left (fun adj dep => map_set adj (Entity.name (Dependency.task dep)) [])
              dependencies [] in
  fold_left
    (fun adj dep =>
       fold_left
         (fun adj' dependsOn =>
            map_set adj' dependsOn
              (adjacent adj' dependsOn ++ [Entity.name (Dependency.task dep)]))
         (Dependency.dependsOn dep) adj)
    dependencies init.

(** Fold of a body that may run out of fuel. *)
Fixpoint foldO {A S} (body : S -> A -> option S) (xs : list A) (s : S) : option S :=
  match xs with
  | [] => Some s
  | x :: xs' =>
      match body s x with
      | Some s' => foldO body xs' s'
      | None => None
      end
  end.

Section FindPaths.

Variable adjacencyList : list (string * list string).
Variable endNodes : list string.

(** [findPaths(current, path)], with [allPaths] threaded through. *)
Fixpoint findPaths (fuel : nat) (current : string) (path : list string)
    (allPaths : list (list string)) : option (list (list string)) :=
  match fuel with
  | O => None
  | S fuel' =>
      let newPath := path ++ [current] in
      if JS.array_includes endNodes current then Some (allPaths ++ [newPath])
      else
        foldO (fun acc next =>
                 if negb (JS.array_includes path next)
                 then findPaths fuel' next newPath acc
                 else Some acc)
              (adjacent adjacencyList current) allPaths
  end.

End FindPaths.

(** [calculateCriticalPath]; the [graph] argument of the source is not
    used by it.  A path repeats no node more than twice, so twice the
    number of tasks, plus two, bounds the nesting of [findPaths]. *)
Definition calculateCriticalPath (dependencies : list Dependency.t) : option (list string) :=
  let adjacencyList := buildAdjacency dependencies in
  let startNodes :=
    map (fun dep => Entity.name (Dependency.task dep))
        (filter (fun dep => (List.length (Dependency.dependsOn dep) =? 0)%nat) dependencies) in
  let endNodes :=
    map (fun dep => Entity.name (Dependency.task dep))
        (filter (fun dep => (List.length (Dependency.dependedOnBy dep) =? 0)%nat) dependencies) in
  match foldO (fun acc start =>
                 findPaths adjacencyList endNodes (2 * List.length dependencies + 2) start [] acc)
              startNodes [] with
  | None => None
  | Some allPaths =>
      match sortBy (fun a b => (Z.of_nat (List.length b) - Z.of_nat (List.length a))%Z) allPaths with
      | longest :: _ => Some longest
      | [] => Some []
      end
  end.

(** The value returned by [getTaskDependencies]. *)
Module TaskDependencies.
Record summary : Type := mkSummary {
  totalDependencies : Z;
  maxDepth : Z;
  blockedBy : nat
}.
Record t : Type := mk {
  task : Entity.t;
  projectName : option string;
  dependencies : list Dependency.t;
  criticalPath : list string;
  summary_ : summary
}.
End TaskDependencies.

(** The project of a task: target of its first [part_of] relation that
    is a project. *)
Fixpoint projectOf (graph : KnowledgeGraph) (taskName : string) (rels : list Relation.t)
  : option string :=
  match rels with
  | [] => None
  | relation :: rels' =>
      if andb (String.eqb (Relation.relationType relation) "part_of")
              (String.eqb (Relation.from relation) taskName)
      then match findTyped graph (Relation.to relation) "project" with
           | Some project => Some (Entity.name project)
           | None => projectOf graph taskName rels'
           end
      else projectOf graph taskName rels'
  end.

(** The dependency map of a task: expansion in both directions from an
    empty map. *)
Definition buildDependencyMap (graph : KnowledgeGraph) (depth : Z) (fuel : nat)
    (task : Entity.t) : R DependencyMap :=
  m <~ addDependencies graph depth fuel task 0%Z DependsOn [] ;;
  addDependencies graph depth fuel task 0%Z DependedOnBy m.

(** What [getTaskDependencies] computes from the dependency map. *)
Definition reportDependencies (graph : KnowledgeGraph) (taskName : string) (depth : Z)
    (task : Entity.t) (m : DependencyMap) : R TaskDependencies.t :=
  let serializableDependencies :=
    sortBy (fun a b => (Dependency.level a - Dependency.level b)%Z)
           (map (fun kv => serialize graph (snd kv)) m) in
  match calculateCriticalPath serializableDependencies with
  | None => None
  | Some criticalPath =>
      Some (Ok (TaskDependencies.mk task
                  (projectOf graph taskName (relations graph))
                  serializableDependencies
                  criticalPath
                  (TaskDependencies.mkSummary
                     (Z.of_nat (List.length serializableDependencies) - 1)%Z
                     depth
                     (List.length
                        (filter
                           (fun d =>
                              andb (negb (String.eqb
                                            (Entity.name (Dependency.task d)) taskName))
                                   (andb (negb (String.eqb (Dependency.status d) "completed"))
                                         (negb (fieldIs "Status:" "completed" task))))
                           serializableDependencies)))))
  end.

(** [getTaskDependencies(taskName, depth)] on a loaded graph. *)
Definition taskDependenciesOf (graph : KnowledgeGraph) (taskName : string) (depth : Z)
  : R TaskDependencies.t :=
  match findTyped graph taskName "task" with
  | None => Some (Throw ("Task '" ++ taskName ++ "' not found"))
  | Some task =>
      m <~ buildDependencyMap graph depth (enoughFuel depth) task ;;
      reportDependencies graph taskName depth task m
  end.

(** [getTaskDependencies]: reads the file and leaves it untouched.
    [None] stands for a run cut by the fuel bounds. *)
Definition getTaskDependencies (taskName : string) (depth : Z) (st : Store)
  : R TaskDependencies.t :=
  taskDependenciesOf (stored st) taskName depth.

(** The default value of the [depth] parameter. *)
Definition defaultDepth : Z := 2.

(* ================================================================== *)
(** * Numbers with NaN, infinities and signed zero *)
(* ================================================================== *)

(** The part of IEEE arithmetic the usage formula needs: the special
    values are exact, finite values are exact rationals (the rounding
    error of a double is not modelled). *)
Module Num.

Inductive number : Type :=
| NaN
| Inf (negative : bool)
| Zero (negative : bool)
| Fin (q : Q).   (* finite and non-zero *)

Definition ofQ (q : Q) : number :=
  if Qeq_bool q 0%Q then Zero false else Fin q.

Definition ofNat (n : nat) : number := ofQ (inject_Z (Z.of_nat n)).

Definition negQ (q : Q) : bool := negb (Qle_bool 0%Q q).

(** [a / b]. *)
Definition div (a b : number) : number :=
  match a, b with
  | NaN, _ | _, NaN => NaN
  | Inf _, Inf _ => NaN
  | Inf s, Zero t => Inf (xorb s t)
  | Inf s, Fin q => Inf (xorb s (negQ q))
  | Zero _, Zero _ => NaN
  | Zero s, Inf t => Zero (xorb s t)
  | Zero s, Fin q => Zero (xorb s (negQ q))
  | Fin p, Inf t => Zero (xorb (negQ p) t)
  | Fin p, Zero t => Inf (xorb (negQ p) t)
  | Fin p, Fin q => Fin (p / q)%Q
  end.

(** [a * b]. *)
Definition mul (a b : number) : number :=
  match a, b with
  | NaN, _ | _, NaN => NaN
  | Inf _, Zero _ | Zero _, Inf _ => NaN
  | Inf s, Inf t => Inf (xorb s t)
  | Inf s, Fin q => Inf (xorb s (negQ q))
  | Fin p, Inf t => Inf (xorb (negQ p) t)
  | Zero s, Zero t => Zero (xorb s t)
  | Zero s, Fin q => Zero (xorb s (negQ q))
  | Fin p, Zero t => Zero (xorb (negQ p) t)
  | Fin p, Fin q => Fin (p * q)%Q
  end.

(** [Math.round]: nearest integer, halves upwards; the sign of a zero
    result is that of the argument. *)
Definition round (a : number) : number :=
  match a with
  | Fin q =>
      let z := Qfloor (q + (1 # 2))%Q in
      if (z =? 0)%Z then Zero (negQ q) else Fin (inject_Z z)
  | _ => a
  end.

(** The finite value of a number that is neither NaN nor infinite. *)
Definition value (a : number) : Q :=
  match a with
  | Fin q => q
  | _ => 0%Q
  end.

(** [a < b]; false when either is NaN. *)
Definition ltb (a b : number) : bool :=
  match a, b with
  | NaN, _ | _, NaN => false
  | Inf s, Inf t => andb s (negb t)
  | Inf s, _ => s
  | _, Inf t => negb t
  | _, _ => negb (Qle_bool (value b) (value a))
  end.

(** [Math.min(a, b)]: NaN when either is; [-0] is below [+0]. *)
Definition min (a b : number) : number :=
  match a, b with
  | NaN, _ | _, NaN => NaN
  | Zero s, Zero t => Zero (orb s t)
  | _, _ => if ltb b a then b else a
  end.

(** Sign of [a - b] as a sort comparator sees it: [-1], [0] or [1],
    with a NaN difference counted as [0]. *)
Definition cmpSub (a b : number) : Z :=
  if ltb a b then (-1)%Z else if ltb b a then 1%Z else 0%Z.

Definition isDigit (radix : nat) (c : ascii) : option nat :=
  let n := nat_of_ascii c in
  let d :=
    if andb (48 <=? n)%nat (n <=? 57)%nat then Some (n - 48)%nat
    else if andb (97 <=? n)%nat (n <=? 122)%nat then Some (n - 87)%nat
    else if andb (65 <=? n)%nat (n <=? 90)%nat then Some (n - 55)%nat
    else None in
  match d with
  | Some v => if (v <? radix)%nat then Some v else None
  | None => None
  end.

(** The longest prefix of digits of [s] in [radix], read as a numeral;
    [None] when [s] does not start with a digit. *)
Fixpoint digits (radix : nat) (s : string) (acc : option N) : option N :=
  match s with
  | EmptyString => acc
  | String c s' =>
      match isDigit radix c with
      | Some d =>
          digits radix s'
            (Some (match acc with
                   | Some a => (a * N.of_nat radix + N.of_nat d)%N
                   | None => N.of_nat d
                   end))
      | None => acc
      end
  end.

(** [parseInt(s)] without a radix argument: leading blanks, an
    optional sign, an optional [0x] prefix, then digits; NaN when no
    digit follows. *)
Definition parseInt (s : string) : number :=
  let s1 := JS.trimStart s in
  let (negative, s2) :=
    match s1 with
    | String "-" r => (true, r)
    | String "+" r => (false, r)
    | _ => (false, s1)
    end in
  let (radix, s3) :=
    match s2 with
    | String "0" (String "x" r) => (16%nat, r)
    | String "0" (String "X" r) => (16%nat, r)
    | _ => (10%nat, s2)
    end in
  match digits radix s3 None with
  | None => NaN
  | Some 0%N => Zero negative
  | Some n =>
      Fin (inject_Z (if negative then Z.opp (Z.of_N n) else Z.of_N n))
  end.

End Num.

(* ================================================================== *)
(** * Resource allocation and project health *)
(* ================================================================== *)

(** Names every object literal inherits from [Object.prototype]: under
    such a key [tasksByStatus[status]] is not an array of the engine. *)
Definition inheritedKeys : list string :=
  [ "constructor"; "__defineGetter__"; "__defineSetter__"; "hasOwnProperty";
    "__lookupGetter__"; "__lookupSetter__"; "isPrototypeOf";
    "propertyIsEnumerable"; "toString"; "valueOf"; "__proto__";
    "toLocaleString" ].

(** The grouping loop [tasksByStatus[status].push(task)], the object
    being kept as an association list in insertion order. *)
Definition groupByStatus (tasks : list Entity.t) : result (list (string * list Entity.t)) :=
  fold_left
    (fun acc task =>
       match acc with
       | Throw msg => Throw msg
       | Ok groups =>
           let status := JS.or_else (field "Status:" (Entity.observations task))
                                    "not_started" in
           if JS.array_includes inheritedKeys status
           then Throw "tasksByStatus[status].push is not a function"
           else Ok (map_set groups status (adjacent groups status ++ [task]))
       end)
    tasks (Ok []).

(** [graph.entities.filter(e => e.entityType === ty &&
    graph.relations.some(r => r.from === e.name && r.to === projectName
    && r.relationType === 'part_of'))]. *)
Definition partOfProject (graph : KnowledgeGraph) (projectName : string) (e : Entity.t)
  : bool :=
  existsb (fun r => andb (String.eqb (Relation.from r) (Entity.name e))
                         (andb (String.eqb (Relation.to r) projectName)
                               (String.eqb (Relation.relationType r) "part_of")))
          (relations graph).

Definition getProjectEntities (graph : KnowledgeGraph) (projectName entityType : string)
  : list Entity.t :=
  filter (fun e => andb (String.eqb (Entity.entityType e) entityType)
                        (partOfProject graph projectName e))
         (entities graph).

(** The entities reached from [target] backwards along relations of type
    [relationType] whose source is an entity of type [entityType], one
    per relation, in relation order. *)
Fixpoint sourcesOf (graph : KnowledgeGraph) (relationType entityType target : string)
    (rels : list Relation.t) : list Entity.t :=
  match rels with
  | [] => []
  | relation :: rels' =>
      if andb (String.eqb (Relation.relationType relation) relationType)
              (String.eqb (Relation.to relation) target)
      then match findTyped graph (Relation.from relation) entityType with
           | Some e => e :: sourcesOf graph relationType entityType target rels'
           | None => sourcesOf graph relationType entityType target rels'
           end
      else sourcesOf graph relationType entityType target rels'
  end.

(** [usagePercentage]. *)
Definition usagePercentageOf (capacity : option string) (totalTasks inProgressTasks : nat)
  : Num.number :=
  match capacity with
  | Some (String c s) =>
      Num.min (Num.ofQ (inject_Z 100))
        (Num.round (Num.mul (Num.div (Num.ofNat inProgressTasks)
                                     (Num.parseInt (String c s)))
                            (Num.ofQ (inject_Z 100))))
  | _ => if (0 <? totalTasks)%nat then Num.ofQ (inject_Z 50) else Num.Zero false
  end.

Module Allocation.
Record info : Type := mkInfo {
  type : option string;
  availability : option string;
  capacity : option string;
  cost : option string
}.
Record usage : Type := mkUsage {
  totalTasks : nat;
  inProgressTasks : nat;
  usagePercentage : Num.number
}.
Record t : Type := mk {
  resource : Entity.t;
  info_ : info;
  usage_ : usage;
  assignedTasks : list Entity.t;
  tasksByStatus : list (string * list Entity.t);
  teamMembers : list Entity.t
}.
Record summary : Type := mkSummary {
  totalResources : nat;
  overallocatedCount : nat;
  underutilizedCount : nat
}.
Record report : Type := mkReport {
  project : Entity.t;
  resources : list t;
  summary_ : summary;
  overallocatedResources : list t;
  underutilizedResources : list t
}.
End Allocation.

Module Health.
Record counts : Type := mkCounts {
  total : nat;
  achieved : nat;   (* completed / reached / resolved / mitigated *)
  adverse : nat;    (* blocked / missed / open / active *)
  rate : Z
}.
Record report : Type := mk {
  project : Entity.t;
  healthScore : Z;
  healthStatus : string;
  tasks : counts;
  milestones : counts;
  issues : counts;
  risks : counts;
  timelineProgress : Z;
  behindSchedule : bool;
  topIssues : list Entity.t;
  recommendations : list string
}.
End Health.

Definition Qltb (a b : Q) : bool := negb (Qle_bool b a).
Definition Qmin (a b : Q) : Q := if Qle_bool a b then a else b.
Definition Qmax (a b : Q) : Q := if Qle_bool a b then b else a.

(** [Math.round] on a finite value. *)
Definition Math_round (q : Q) : Z := Qfloor (q + (1 # 2))%Q.

(** [(a / b) * 100] for counts. *)
Definition percent (a b : nat) : Q :=
  ((inject_Z (Z.of_nat a) / inject_Z (Z.of_nat b)) * inject_Z 100)%Q.

(** The nine factors averaged into the health score. *)
Definition healthFactors (tasks milestones issues risks : list Entity.t)
    (behindSchedule : bool) : list Q :=
  let count (p : Entity.t -> bool) (l : list Entity.t) := List.length (filter p l) in
  let completedTasks := count (fieldIs "Status:" "completed") tasks in
  let blockedTasks := count (fieldIs "Status:" "blocked") tasks in
  let reachedMilestones := count (fieldIs "Status:" "reached") milestones in
  let missedMilestones := count (fieldIs "Status:" "missed") milestones in
  let resolvedIssues := count (fieldIs "Status:" "resolved") issues in
  let openIssues := (List.length issues - resolvedIssues)%nat in
  let mitigatedRisks :=
    count (fun r => orb (fieldIs "Status:" "mitigating" r)
                        (fieldIs "Status:" "avoided" r)) risks in
  let activeRisks :=
    count (fun r => orb (fieldIs "Status:" "identified" r)
                        (fieldIs "Status:" "monitoring" r)) risks in
  let n (l : list Entity.t) := List.length l in
  let c100 := inject_Z 100 in
  let c50 := inject_Z 50 in
  let nonEmpty (l : list Entity.t) := (0 <? n l)%nat in
  [ if nonEmpty tasks then Qmin c100 (percent completedTasks (n tasks)) else c50;
    if nonEmpty tasks
    then Qmax 0%Q (c100 - (inject_Z (Z.of_nat blockedTasks)
                           / inject_Z (Z.of_nat (n tasks))) * inject_Z 200)%Q
    else c50;
    if nonEmpty milestones then Qmin c100 (percent reachedMilestones (n milestones))
    else c50;
    if nonEmpty milestones
    then Qmax 0%Q (c100 - (inject_Z (Z.of_nat missedMilestones)
                           / inject_Z (Z.of_nat (n milestones))) * inject_Z 200)%Q
    else c50;
    if nonEmpty issues then Qmin c100 (percent resolvedIssues (n issues)) else c50;
    if nonEmpty issues then Qmax 0%Q (c100 - percent openIssues (n issues))%Q else c50;
    if nonEmpty risks then Qmin c100 (percent mitigatedRisks (n risks)) else c50;
    if nonEmpty risks then Qmax 0%Q (c100 - percent activeRisks (n risks))%Q else c50;
    if behindSchedule then inject_Z 30 else inject_Z 70 ].

(** [Math.round(healthFactors.reduce((sum, f) => sum + f, 0) /
    healthFactors.length)]. *)
Definition healthScoreOf (factors : list Q) : Z :=
  Math_round (fold_left Qplus factors 0%Q / inject_Z (Z.of_nat (List.length factors)))%Q.

Definition healthStatusOf (healthScore : Z) : string :=
  if (healthScore >=? 80)%Z then "healthy"
  else if (healthScore >=? 60)%Z then "attention_needed"
  else if (healthScore >=? 40)%Z then "at_risk"
  else "critical".

(** [generateHealthRecommendations].  The [metrics] it receives hold the
    entity arrays themselves, so [metrics.tasks.blocked],
    [metrics.issues.open] and [metrics.risks.active] are [undefined] and
    the comparisons on them are false: only the status and
    [behindSchedule] select recommendations. *)
Definition generateHealthRecommendations (healthStatus : string) (behindSchedule : bool)
  : list string :=
  if String.eqb healthStatus "healthy" then
    [ "Continue current management practices";
      "Document successful strategies for future projects" ]
  else if String.eqb healthStatus "attention_needed" then
    if behindSchedule then [ "Review project timeline and adjust as needed" ] else []
  else if String.eqb healthStatus "at_risk" then
    if behindSchedule
    then [ "Reevaluate project scope and timeline - consider adjustments" ] else []
  else if String.eqb healthStatus "critical" then
    [ "Conduct emergency project review with stakeholders";
      "Consider project restructuring or reset";
      "Implement daily status meetings and tight monitoring" ]
  else [].

(** Comparator of the [topIssues] sort. *)
Definition issuePriorityCmp (a b : Entity.t) : Z :=
  let aPriority := JS.or_else (field "Priority:" (Entity.observations a)) "N/A" in
  let bPriority := JS.or_else (field "Priority:" (Entity.observations b)) "N/A" in
  if andb (String.eqb aPriority "high") (negb (String.eqb bPriority "high")) then (-1)%Z
  else if andb (negb (String.eqb aPriority "high")) (String.eqb bPriority "high") then 1%Z
  else if andb (String.eqb aPriority "N/A") (String.eqb bPriority "low") then (-1)%Z
  else if andb (String.eqb aPriority "low") (String.eqb bPriority "N/A") then 1%Z
  else 0%Z.

Section Clock.

(** [new Date(s).getTime()]: milliseconds since the epoch, [None] for
    an invalid date (NaN). *)
Variable Date_parse : string -> option Z.

(** [new Date().getTime()] at the time of the call. *)
Variable now : Z.

(** Comparator of the due-date sort of [assignedTasks]; a NaN
    difference counts as [0]. *)
Definition dueDateCmp (a b : Entity.t) : Z :=
  let aDate := JS.or_else (field "DueDate:" (Entity.observations a)) "" in
  let bDate := JS.or_else (field "DueDate:" (Entity.observations b)) "" in
  if String.eqb aDate "" then 1%Z
  else if String.eqb bDate "" then (-1)%Z
  else match Date_parse aDate, Date_parse bDate with
       | Some ta, Some tb => (ta - tb)%Z
       | _, _ => 0%Z
       end.

(** Body of the loop over the resources of [getResourceAllocation]. *)
Definition allocationOf (graph : KnowledgeGraph) (resource : Entity.t)
  : result Allocation.t :=
  let obs := Entity.observations resource in
  let capacity := field "Capacity:" obs in
  let assignedTasks :=
    sortBy dueDateCmp
      (sourcesOf graph "requires" "task" (Entity.name resource) (relations graph)) in
  match groupByStatus assignedTasks with
  | Throw msg => Throw msg
  | Ok tasksByStatus =>
      let teamMembers :=
        sourcesOf graph "uses" "teamMember" (Entity.name resource) (relations graph) in
      let totalTasks := List.length assignedTasks in
      let inProgressTasks := List.length (adjacent tasksByStatus "in_progress") in
      Ok (Allocation.mk resource
            (Allocation.mkInfo (field "Type:" obs) (field "Availability:" obs)
               capacity (field "Cost:" obs))
            (Allocation.mkUsage totalTasks inProgressTasks
               (usagePercentageOf capacity totalTasks inProgressTasks))
            assignedTasks tasksByStatus teamMembers)
  end.

(** The loop itself: the first throw ends it. *)
Fixpoint allocationsOf (graph : KnowledgeGraph) (resources : list Entity.t)
  : result (list Allocation.t) :=
  match resources with
  | [] => Ok []
  | resource :: rest =>
      match allocationOf graph resource with
      | Throw msg => Throw msg
      | Ok a =>
          match allocationsOf graph rest with
          | Throw msg => Throw msg
          | Ok l => Ok (a :: l)
          end
      end
  end.

Definition usageOf (a : Allocation.t) : Num.number :=
  Allocation.usagePercentage (Allocation.usage_ a).

Definition getResourceAllocation (projectName : string) (resourceName : option string)
  : M Allocation.report :=
  graph <- loadGraph ;;
  match findTyped graph projectName "project" with
  | None => throw ("Project '" ++ projectName ++ "' not found")
  | Some project =>
      let resources :=
        if JS.truthy resourceName
        then filter (fun e => andb (String.eqb (Entity.name e)
                                      (JS.or_else resourceName ""))
                                   (andb (String.eqb (Entity.entityType e) "resource")
                                         (partOfProject graph projectName e)))
                    (entities graph)
        else getProjectEntities graph projectName "resource" in
      if andb (JS.truthy resourceName) (List.length resources =? 0)%nat
      then throw ("Resource '" ++ JS.or_else resourceName "" ++ "' not found in project '"
                  ++ projectName ++ "'")
      else
        allocations <- lift (allocationsOf graph resources) ;;
        let resourceAllocations :=
          sortBy (fun a b => Num.cmpSub (usageOf b) (usageOf a)) allocations in
        let overallocatedResources :=
          filter (fun r => Num.ltb (Num.ofQ (inject_Z 90)) (usageOf r))
                 resourceAllocations in
        let underutilizedResources :=
          filter (fun r => andb (Num.ltb (usageOf r) (Num.ofQ (inject_Z 20)))
                                (0 <? Allocation.totalTasks (Allocation.usage_ r))%nat)
                 resourceAllocations in
        ret (Allocation.mkReport project resourceAllocations
               (Allocation.mkSummary (List.length resources)
                  (List.length overallocatedResources)
                  (List.length underutilizedResources))
               overallocatedResources underutilizedResources)
  end.

(** The timeline block of [getProjectHealth]: [timelineProgress] and
    [behindSchedule]. *)
Definition schedule (project : Entity.t) (taskCompletionRate : Q) : Z * bool :=
  let startDate := field "StartDate:" (Entity.observations project) in
  let endDate := field "EndDate:" (Entity.observations project) in
  if andb (JS.truthy startDate) (JS.truthy endDate) then
    match Date_parse (JS.or_else startDate ""), Date_parse (JS.or_else endDate "") with
    | Some start, Some end_ =>
        if (end_ >? start)%Z then
          let totalDuration := (end_ - start)%Z in
          let elapsed := (now - start)%Z in
          let timeElapsedPercent :=
            Qmin (inject_Z 100)
                 (Qmax 0%Q ((inject_Z elapsed / inject_Z totalDuration)
                            * inject_Z 100)%Q) in
          (Math_round timeElapsedPercent,
           Qltb taskCompletionRate (timeElapsedPercent - inject_Z 15)%Q)
        else (0%Z, false)
    | _, _ => (0%Z, false)
    end
  else (0%Z, false).

Definition countOf (p : Entity.t -> bool) (l : list Entity.t) : nat :=
  List.length (filter p l).

Definition getProjectHealth (projectName : string) : M Health.report :=
  graph <- loadGraph ;;
  match findTyped graph projectName "project" with
  | None => throw ("Project '" ++ projectName ++ "' not found")
  | Some project =>
      let tasks := getProjectEntities graph projectName "task" in
      let milestones := getProjectEntities graph projectName "milestone" in
      let issues := getProjectEntities graph projectName "issue" in
      let risks := getProjectEntities graph projectName "risk" in
      let completedTasks := countOf (fieldIs "Status:" "completed") tasks in
      let blockedTasks := countOf (fieldIs "Status:" "blocked") tasks in
      let taskCompletionRate :=
        if (0 <? List.length tasks)%nat
        then percent completedTasks (List.length tasks) else 0%Q in
      let reachedMilestones := countOf (fieldIs "Status:" "reached") milestones in
      let missedMilestones := countOf (fieldIs "Status:" "missed") milestones in
      let milestoneCompletionRate :=
        if (0 <? List.length milestones)%nat
        then percent reachedMilestones (List.length milestones) else 0%Q in
      let resolvedIssues := countOf (fieldIs "Status:" "resolved") issues in
      let openIssues := (List.length issues - resolvedIssues)%nat in
      let mitigatedRisks :=
        countOf (fun r => orb (fieldIs "Status:" "mitigating" r)
                              (fieldIs "Status:" "avoided" r)) risks in
      let activeRisks :=
        countOf (fun r => orb (fieldIs "Status:" "identified" r)
                              (fieldIs "Status:" "monitoring" r)) risks in
      let (timelineProgress, behindSchedule) := schedule project taskCompletionRate in
      let healthScore :=
        healthScoreOf (healthFactors tasks milestones issues risks behindSchedule) in
      let healthStatus := healthStatusOf healthScore in
      let topIssues :=
        firstn 3
          (sortBy issuePriorityCmp
             (filter (fun i => andb (negb (fieldIs "Status:" "resolved" i))
                                    (negb (fieldIs "Status:" "wont_fix" i)))
                     issues)) in
      ret (Health.mk project healthScore healthStatus
             (Health.mkCounts (List.length tasks) completedTasks blockedTasks
                (Math_round taskCompletionRate))
             (Health.mkCounts (List.length milestones) reachedMilestones missedMilestones
                (Math_round milestoneCompletionRate))
             (Health.mkCounts (List.length issues) resolvedIssues openIssues
                (if (0 <? List.length issues)%nat
                 then Math_round (percent resolvedIssues (List.length issues)) else 0%Z))
             (Health.mkCounts (List.length risks) mitigatedRisks activeRisks
                (if (0 <? List.length risks)%nat
                 then Math_round (percent mitigatedRisks (List.length risks)) else 0%Z))
             timelineProgress behindSchedule topIssues
             (generateHealthRecommendations healthStatus behindSchedule))
  end.

End Clock.

(* ================================================================== *)
(** * Project overview *)
(* ================================================================== *)

(** The loop [if (!groups[k]) groups[k] = []; groups[k].push(x)] over an
    object literal, [k] being the status of [x] or [fallback]: under a
    key inherited from [Object.prototype] the guard finds a value that
    is no array, and the push throws. *)
Definition groupByStatusOr (fallback message : string) (items : list Entity.t)
  : result (list (string * list Entity.t)) :=
  fold_left
    (fun acc item =>
       match acc with
       | Throw msg => Throw msg
       | Ok groups =>
           let status := JS.or_else (field "Status:" (Entity.observations item)) fallback in
           if JS.array_includes inheritedKeys status
           then Throw message
           else Ok (map_set groups status (adjacent groups status ++ [item]))
       end)
    items (Ok []).

(** Body of the loop collecting the team members of a project, each
    name once. *)
Definition addTeamMember (graph : KnowledgeGraph) (projectName : string)
    (teamMembers : list Entity.t) (relation : Relation.t) : list Entity.t :=
  if andb (orb (String.eqb (Relation.relationType relation) "assigned_to")
               (orb (String.eqb (Relation.relationType relation) "manages")
                    (String.eqb (Relation.relationType relation) "contributes_to")))
          (String.eqb (Relation.to relation) projectName)
  then match findTyped graph (Relation.from relation) "teamMember" with
       | Some teamMember =>
           if existsb (fun tm => String.eqb (Entity.name tm) (Entity.name teamMember))
                      teamMembers
           then teamMembers
           else teamMembers ++ [teamMember]
       | None => teamMembers
       end
  else teamMembers.

Module Overview.
Record info : Type := mkInfo {
  description : option string;
  startDate : option string;
  endDate : option string;
  priority : option string;
  status : string;
  goal : option string;
  budget : option string
}.
Record summary : Type := mkSummary {
  taskCount : nat;
  completedTasks : nat;
  taskCompletionRate : Z;
  milestoneCount : nat;
  teamMemberCount : nat;
  issueCount : nat;
  riskCount : nat;
  componentCount : nat
}.
Record t : Type := mk {
  project : Entity.t;
  info_ : info;
  summary_ : summary;
  components : list Entity.t;
  tasks : list Entity.t;
  tasksByStatus : list (string * list Entity.t);
  milestones : list Entity.t;
  upcomingMilestones : list Entity.t;
  teamMembers : list Entity.t;
  issues : list Entity.t;
  issuesByStatus : list (string * list Entity.t);
  risks : list Entity.t;
  resources : list Entity.t;
  stakeholders : list Entity.t
}.
End Overview.

Section OverviewClock.

Variable Date_parse : string -> option Z.
Variable now : Z.

(** Comparator of the milestone sort: the difference of the two times,
    a NaN difference counting as [0]. *)
Definition milestoneDateCmp (a b : Entity.t) : Z :=
  let aDate := JS.or_else (field "Date:" (Entity.observations a)) "" in
  let bDate := JS.or_else (field "Date:" (Entity.observations b)) "" in
  match Date_parse aDate, Date_parse bDate with
  | Some ta, Some tb => (ta - tb)%Z
  | _, _ => 0%Z
  end.

(** [milestoneDate >= today] for a milestone with a non-empty date. *)
Definition isUpcoming (m : Entity.t) : bool :=
  let dateStr := field "Date:" (Entity.observations m) in
  if JS.truthy dateStr then
    match Date_parse (JS.or_else dateStr "") with
    | Some t => (t >=? now)%Z
    | None => false
    end
  else false.

Definition getProjectOverview (projectName : string) : M Overview.t :=
  graph <- loadGraph ;;
  match findTyped graph projectName "project" with
  | None => throw ("Project '" ++ projectName ++ "' not found")
  | Some project =>
      let obs := Entity.observations project in
      let components :=
        filter (fun e =>
                  existsb (fun r => andb (String.eqb (Relation.from r) (Entity.name e))
                                      (andb (String.eqb (Relation.to r) projectName)
                                         (andb (String.eqb (Relation.relationType r) "part_of")
                                               (String.eqb (Entity.entityType e) "component"))))
                          (relations graph))
               (entities graph) in
      let tasks := sourcesOf graph "part_of" "task" projectName (relations graph) in
      tasksByStatus <-
        lift (groupByStatusOr "not_started"
                "tasksByStatus[taskStatus].push is not a function" tasks) ;;
      let milestones :=
        sortBy milestoneDateCmp
          (sourcesOf graph "part_of" "milestone" projectName (relations graph)) in
      let teamMembers :=
        fold_left (addTeamMember graph projectName) (relations graph) [] in
      let issues := sourcesOf graph "part_of" "issue" projectName (relations graph) in
      issuesByStatus <-
        lift (groupByStatusOr "identified"
                "issuesByStatus[issueStatus].push is not a function" issues) ;;
      let risks := sourcesOf graph "part_of" "risk" projectName (relations graph) in
      let resources := sourcesOf graph "part_of" "resource" projectName (relations graph) in
      let stakeholders :=
        sourcesOf graph "stakeholder_of" "stakeholder" projectName (relations graph) in
      let completedTasks := countOf (fieldIs "Status:" "completed") tasks in
      let taskCompletionRate :=
        if (0 <? List.length tasks)%nat
        then percent completedTasks (List.length tasks) else 0%Q in
      ret (Overview.mk project
             (Overview.mkInfo (field "Description:" obs) (field "StartDate:" obs)
                (field "EndDate:" obs) (field "Priority:" obs)
                (JS.or_else (field "Status:" obs) "planning")
                (field "Goal:" obs) (field "Budget:" obs))
             (Overview.mkSummary (List.length tasks) completedTasks
                (Math_round taskCompletionRate) (List.length milestones)
                (List.length teamMembers) (List.length issues) (List.length risks)
                (List.length components))
             components tasks tasksByStatus milestones
             (filter isUpcoming milestones)
             teamMembers issues issuesByStatus risks resources stakeholders)
  end.

End OverviewClock.

(* ================================================================== *)
(** * Related projects *)
(* ================================================================== *)

Module Connection.
Record shared : Type := mkShared {
  teamMembers : list Entity.t;
  dependencies : list Entity.t;
  resources : list Entity.t;
  stakeholders : list Entity.t
}.
Record t : Type := mk {
  project : Entity.t;
  connectionType : string;
  connectionStrength : Q;
  sharedEntities : shared
}.
Record byType : Type := mkByType {
  dependency : nat;
  shared_team : nat;
  shared_resources : nat;
  shared_stakeholders : nat
}.
Record report : Type := mkReport {
  seed : Entity.t;
  relatedProjects : list t;
  totalRelated : nat;
  byConnectionType : byType;
  maxDepth : Z
}.
End Connection.

(** [set.add(x)] on a [Set] of strings kept in insertion order. *)
Definition set_add (s : list string) (x : string) : list string :=
  if JS.array_includes s x then s else s ++ [x].

(** The names of the entities of type [entityType] from which a relation
    accepted by [isLink] leads to [target]: the [Set] filled by the
    first of each pair of loops. *)
Definition linkedNames (graph : KnowledgeGraph) (isLink : string -> bool)
    (entityType target : string) : list string :=
  fold_left
    (fun names relation =>
       if andb (isLink (Relation.relationType relation))
               (String.eqb (Relation.to relation) target)
       then match findTyped graph (Relation.from relation) entityType with
            | Some e => set_add names (Entity.name e)
            | None => names
            end
       else names)
    (relations graph) [].

(** The second loop of a pair: the entities linked to [other], one per
    relation, that the set of the current project holds. *)
Definition sharedWith (graph : KnowledgeGraph) (isLink : string -> bool)
    (entityType current other : string) : list Entity.t :=
  let mine := linkedNames graph isLink entityType current in
  fold_left
    (fun found relation =>
       if andb (isLink (Relation.relationType relation))
               (String.eqb (Relation.to relation) other)
       then match findTyped graph (Relation.from relation) entityType with
            | Some e => if JS.array_includes mine (Entity.name e)
                        then found ++ [e] else found
            | None => found
            end
       else found)
    (relations graph) [].

Definition isTeamLink (relationType : string) : bool :=
  orb (String.eqb relationType "assigned_to")
      (orb (String.eqb relationType "contributes_to")
           (String.eqb relationType "manages")).

(** The [depends_on] relations between the two projects: the other
    project is pushed for one leaving the current project, the seed
    project for one arriving at it. *)
Definition projectDependencies (graph : KnowledgeGraph) (seed otherProject : Entity.t)
    (current : string) : list Entity.t :=
  fold_left
    (fun found relation =>
       if String.eqb (Relation.relationType relation) "depends_on" then
         if andb (String.eqb (Relation.from relation) current)
                 (String.eqb (Relation.to relation) (Entity.name otherProject))
         then found ++ [otherProject]
         else if andb (String.eqb (Relation.from relation) (Entity.name otherProject))
                      (String.eqb (Relation.to relation) current)
         then found ++ [seed]
         else found
       else found)
    (relations graph) [].

(** The connection computed for [otherProject] seen from [current]. *)
Definition connectionOf (graph : KnowledgeGraph) (seed otherProject : Entity.t)
    (current : string) : Connection.t :=
  let other := Entity.name otherProject in
  let sharedTeamMembers := sharedWith graph isTeamLink "teamMember" current other in
  let sharedResources :=
    sharedWith graph (fun ty => String.eqb ty "part_of") "resource" current other in
  let sharedStakeholders :=
    sharedWith graph (fun ty => String.eqb ty "stakeholder_of") "stakeholder"
      current other in
  let dependencies := projectDependencies graph seed otherProject current in
  let count (l : list Entity.t) := inject_Z (Z.of_nat (List.length l)) in
  let connectionStrength :=
    (count sharedTeamMembers * inject_Z 2 + count sharedResources * (3 # 2)
     + count dependencies * inject_Z 3 + count sharedStakeholders * inject_Z 1)%Q in
  let connectionType :=
    if (0 <? List.length dependencies)%nat then "dependency"
    else if (0 <? List.length sharedTeamMembers)%nat then "shared_team"
    else if (0 <? List.length sharedResources)%nat then "shared_resources"
    else if (0 <? List.length sharedStakeholders)%nat then "shared_stakeholders"
    else "related" in
  Connection.mk otherProject connectionType connectionStrength
    (Connection.mkShared sharedTeamMembers dependencies sharedResources
       sharedStakeholders).

(** The two variables the recursion shares: the [Set]
    [processedProjects] and the array [relatedProjects]. *)
Record SearchState : Type := mkState {
  processedProjects : list string;
  related : list Connection.t
}.

Section FindConnections.

Variable graph : KnowledgeGraph.
Variable seed : Entity.t.
Variable depth : Z.

(** [findConnections(currentProjectName, currentDepth)]; [fuel] bounds
    the nesting of calls.  The projects to visit are picked before the
    loop starts. *)
Fixpoint findConnections (fuel : nat) (current : string) (currentDepth : Z)
    (s : SearchState) : option SearchState :=
  match fuel with
  | O => None
  | S fuel' =>
      if (currentDepth >? depth)%Z then Some s
      else
        let otherProjects :=
          filter (fun e => andb (String.eqb (Entity.entityType e) "project")
                             (andb (negb (String.eqb (Entity.name e) current))
                                   (negb (JS.array_includes (processedProjects s)
                                            (Entity.name e)))))
                 (entities graph) in
        foldO
          (fun s otherProject =>
             let processed := set_add (processedProjects s) (Entity.name otherProject) in
             let connection := connectionOf graph seed otherProject current in
             if Qltb 0 (Connection.connectionStrength connection)
             then findConnections fuel' (Entity.name otherProject) (currentDepth + 1)%Z
                    (mkState processed (related s ++ [connection]))
             else Some (mkState processed (related s)))
          otherProjects s
  end.

End FindConnections.

(** Sign of [a - b] for two finite values. *)
Definition Qsign_of_difference (a b : Q) : Z :=
  match Qcompare a b with
  | Lt => (-1)%Z
  | Eq => 0%Z
  | Gt => 1%Z
  end.

(** [findRelatedProjects(projectName, depth)]; [None] stands for a run
    cut by the fuel bound. *)
Definition findRelatedProjects (projectName : string) (depth : Z) (st : Store)
  : option (result Connection.report) :=
  let graph := stored st in
  match findTyped graph projectName "project" with
  | None => Some (Throw ("Project '" ++ projectName ++ "' not found"))
  | Some project =>
      match findConnections graph project depth (Z.to_nat depth + 2) projectName 1%Z
              (mkState [projectName] []) with
      | None => None
      | Some s =>
          let relatedProjects :=
            sortBy (fun a b => Qsign_of_difference (Connection.connectionStrength b)
                                                   (Connection.connectionStrength a))
                   (related s) in
          let count (ty : string) :=
            List.length (filter (fun p => String.eqb (Connection.connectionType p) ty)
                                relatedProjects) in
          Some (Ok (Connection.mkReport project relatedProjects
                      (List.length relatedProjects)
                      (Connection.mkByType (count "dependency") (count "shared_team")
                         (count "shared_resources") (count "shared_stakeholders"))
                      depth))
      end
  end.

(** The default value of the [depth] parameter of
    [findRelatedProjects]. *)
Definition defaultRelatedDepth : Z := 1.

(* ================================================================== *)
(** * Session tools *)
(* ================================================================== *)

(** Of the tools the server builds on the manager, the two listings of
    [startsession] and two of the callbacks of [endsession].
    [endsession] starts the callbacks of one list together
    ([Promise.all]); a callback is given here as it runs on its own,
    which is how it runs when its list holds one element. *)

(** [try { body } catch (error) { console.error(...); return fallback }]:
    a throw ends the body, what the body had written stays written, and
    the handler goes on.  The line on the console is not modelled. *)
Definition try_catch {A} (body : M A) (fallback : A) : M A :=
  fun st =>
    match body st with
    | (Ok a, st') => (Ok a, st')
    | (Throw _, st') => (Ok fallback, st')
    end.

(** [await c;] with the value dropped. *)
Definition await_ {A} (c : M A) : M unit := c ;;; ret tt.

(** A [for ... of] loop pushing the elements that pass an awaited
    test. *)
Fixpoint keepIf (test : Entity.t -> M bool) (l : list Entity.t) : M (list Entity.t) :=
  match l with
  | [] => ret []
  | e :: l' =>
      keep <- test e ;;
      rest <- keepIf test l' ;;
      ret (if keep then e :: rest else rest)
  end.

(** [value === s] for the result of a status or priority lookup. *)
Definition lookupIs (value : lookup_result) (s : string) : bool :=
  match value with
  | Value v => String.eqb v s
  | _ => false
  end.

(** The active projects listed by [startsession]. *)
Definition sessionActiveProjects : M (list Entity.t) :=
  projectsQuery <- searchNodes "entityType:project" ;;
  keepIf (fun project =>
            status <- getEntityStatus (Entity.name project) ;;
            ret (lookupIs status "active"))
         (entities projectsQuery).

(** The high-priority tasks listed by [startsession]. *)
Definition sessionHighPriorityTasks : M (list Entity.t) :=
  taskQuery <- searchNodes "entityType:task" ;;
  keepIf (fun task =>
            status <- getEntityStatus (Entity.name task) ;;
            priority <- getEntityPriority (Entity.name task) ;;
            ret (andb (lookupIs status "active") (lookupIs priority "high")))
         (entities taskQuery).

(** An element of the [taskUpdates] argument of [endsession]. *)
Module TaskUpdate.
Record t : Type := mk {
  name : string;
  status : string;
  progress : option string
}.
End TaskUpdate.

(** The status a task update is mapped to. *)
Definition standardTaskStatus (status : string) : string :=
  if orb (String.eqb status "completed")
         (orb (String.eqb status "done") (String.eqb status "finished"))
  then "completed"
  else if orb (String.eqb status "in_progress")
              (orb (String.eqb status "ongoing") (String.eqb status "started"))
  then "active"
  else if orb (String.eqb status "not_started")
              (orb (String.eqb status "planned") (String.eqb status "upcoming"))
  then "inactive"
  else status.

(** The callback [endsession] runs on each task update. *)
Definition updateTask (sessionId : string) (taskUpdate : TaskUpdate.t) : M unit :=
  try_catch
    (let standardStatus := standardTaskStatus (TaskUpdate.status taskUpdate) in
     setEntityStatus (TaskUpdate.name taskUpdate) standardStatus ;;;
     (if String.eqb standardStatus "completed"
      then await_ (createRelations
                     [Relation.mk sessionId (TaskUpdate.name taskUpdate) "resolves"
                        (Some [])])
      else ret tt) ;;;
     (if JS.truthy (TaskUpdate.progress taskUpdate)
      then await_ (addObservations (TaskUpdate.name taskUpdate)
                     [("Progress: " ++ JS.or_else (TaskUpdate.progress taskUpdate) "")%string])
      else ret tt))
    tt.

(** An element of the [newTasks] argument of [endsession]. *)
Module NewTask.
Record t : Type := mk {
  name : string;
  description : option string;
  priority : option string;
  precedes : option string;
  follows : option string
}.
End NewTask.

(** The entity [endsession] creates for a new task. *)
Definition newTaskEntity (task : NewTask.t) : Entity.t :=
  Entity.mk (NewTask.name task) "task"
    [ if JS.truthy (NewTask.description task)
      then ("Description: " ++ JS.or_else (NewTask.description task) "")%string
      else "No description" ]
    None.

(** The callback [endsession] runs on each new task: the name of the
    task, or [null] after a throw. *)
Definition createNewTask (project : string) (task : NewTask.t) : M (option string) :=
  try_catch
    (createEntities [newTaskEntity task] ;;;
     setEntityPriority (NewTask.name task) (JS.or_else (NewTask.priority task) "N/A") ;;;
     setEntityStatus (NewTask.name task) "active" ;;;
     createRelations [Relation.mk (NewTask.name task) project "part_of" (Some [])] ;;;
     (if JS.truthy (NewTask.precedes task)
      then await_ (createRelations
                     [Relation.mk (NewTask.name task)
                        (JS.or_else (NewTask.precedes task) "") "precedes" (Some [])])
      else ret tt) ;;;
     (if JS.truthy (NewTask.follows task)
      then await_ (createRelations
                     [Relation.mk (JS.or_else (NewTask.follows task) "")
                        (NewTask.name task) "precedes" (Some [])])
      else ret tt) ;;;
     ret (Some (NewTask.name task)))
    None.

(* ================================================================== *)
(** * Sequences of mutating calls *)
(* ================================================================== *)

(** The mutating methods of the manager. *)
Inductive Call : Type :=
| InitializeStatusAndPriority
| CreateEntities (batch : list Entity.t)
| CreateRelations (batch : list Relation.t)
| AddObservations (entityName : string) (obs : list string)
| DeleteEntities (entityNames : list string)
| DeleteObservations (deletions : list (string * list string))
| DeleteRelations (batch : list Relation.t)
| SetEntityStatus (entityName statusValue : string)
| SetEntityPriority (entityName priorityValue : string).

(** File content after a call, whether it returned or threw. *)
Definition perform (c : Call) (st : Store) : Store :=
  match c with
  | InitializeStatusAndPriority => snd (initializeStatusAndPriority st)
  | CreateEntities batch => snd (createEntities batch st)
  | CreateRelations batch => snd (createRelations batch st)
  | AddObservations entityName obs => snd (addObservations entityName obs st)
  | DeleteEntities entityNames => snd (deleteEntities entityNames st)
  | DeleteObservations deletions => snd (deleteObservations deletions st)
  | DeleteRelations batch => snd (deleteRelations batch st)
  | SetEntityStatus entityName v => snd (setEntityStatus entityName v st)
  | SetEntityPriority entityName v => snd (setEntityPriority entityName v st)
  end.

Definition run (calls : list Call) (st : Store) : Store :=
  fold_left (fun s c => perform c s) calls st.

(** The two calls that append a relation without looking at the
    entities. *)
Definition isSetter (c : Call) : bool :=
  match c with
  | SetEntityStatus _ _ | SetEntityPriority _ _ => true
  | _ => false
  end.

(** A file produced by the manager alone, starting without a file. *)
Definition reachable (st : Store) : Prop := exists calls, st = run calls None.

(* ================================================================== *)
(** * Properties the statements below are about *)
(* ================================================================== *)

(** Number of entities of the graph named [n]. *)
Definition countNamed (graph : KnowledgeGraph) (n : string) : nat :=
  List.length (filter (fun e => String.eqb (Entity.name e) n) (entities graph)).

(** Entity names are unique in the graph. *)
Definition uniqueNames (graph : KnowledgeGraph) : Prop :=
  NoDup (map Entity.name (entities graph)).


(** A relation is rejected by the validation loop of [createRelations]
    on [graph]. *)
Definition invalidRelation (graph : KnowledgeGraph) (relation : Relation.t) : Prop :=
  hasEntity graph (Relation.from relation) = false \/
  hasEntity graph (Relation.to relation) = false \/
  JS.array_includes VALID_RELATION_TYPES (Relation.relationType relation) = false \/
  existsb (fun r => sameTriple r relation) (relations graph) = true.

(** Both endpoints of the relation name entities of the graph. *)
Definition endpointsExist (graph : KnowledgeGraph) (relation : Relation.t) : Prop :=
  hasEntity graph (Relation.from relation) = true /\
  hasEntity graph (Relation.to relation) = true.

(** Every relation of the graph has both endpoints among its entities. *)
Definition selfConsistent (graph : KnowledgeGraph) : Prop :=
  forall relation, In relation (relations graph) -> endpointsExist graph relation.

(** An entity named [n] is in the array. *)
Definition listed (ents : list Entity.t) (n : string) : bool :=
  existsb (fun e => String.eqb (Entity.name e) n) ents.

(** Invariant of the merge loop of [searchNodes]: every name of the set
    belongs to a collected entity, and every endpoint of a collected
    relation that names an entity of the graph is collected. *)
Definition searchInvariant (graph : KnowledgeGraph) (acc : SearchAcc) : Prop :=
  (forall n, In n (matchingEntityNames acc) -> listed (matchingEntities acc) n = true) /\
  (forall r n,
      In r (allRelations acc) ->
      n = Relation.from r \/ n = Relation.to r ->
      hasEntity graph n = true ->
      listed (matchingEntities acc) n = true).


(** No relation of the graph has a type outside [VALID_RELATION_TYPES]. *)
Definition validTypes (graph : KnowledgeGraph) : Prop :=
  Forall (fun r => In (Relation.relationType r) VALID_RELATION_TYPES) (relations graph).

(** Nodes of [nodes] not yet on the path. *)
Definition remaining (nodes path : list string) : nat :=
  List.length (filter (fun v => negb (JS.array_includes path v)) nodes).

(** What decreases along the nested calls of [findPaths]: a node may be
    entered a second time right after the first, never a third. *)
Definition pathMeasure (nodes : list string) (current : string) (path : list string) : nat :=
  2 * remaining nodes path + (if JS.array_includes path current then 1 else 0).

(** The entry of a task in the dependency list. *)
Definition entryOf (taskName : string) (deps : list Dependency.t) : option Dependency.t :=
  find (fun d => String.eqb (Entity.name (Dependency.task d)) taskName) deps.

(** A usage percentage that is zero (of either sign). *)
Definition isZero (u : Num.number) : bool :=
  match u with
  | Num.Zero _ => true
  | _ => false
  end.

(** While a task is expanded at depth 0 the dependency map holds its
    node alone, and that node lists nothing but the task itself. *)
Definition aloneIn (taskEntity : Entity.t) (m : DependencyMap) : Prop :=
  (forall k, map_has m k = true -> k = Entity.name taskEntity) /\
  (forall n, listsDependsOn m (Entity.name taskEntity) n = true ->
             n = Entity.name taskEntity).

(** The nodes of a dependency map are stored under the name of their
    task, at a level between 0 and the depth bound; the node of [root]
    is there, at level 0; and no name is stored twice. *)
Definition wellLevelled (depth : Z) (root : string) (m : DependencyMap) : Prop :=
  (forall k node,
      In (k, node) m ->
      Entity.name (DependencyNode.task node) = k /\
      (0 <= DependencyNode.level node <= depth)%Z /\
      (k = root -> DependencyNode.level node = 0%Z)) /\
  map_has m root = true /\
  NoDup (map fst m).

(** Each level is at most every later one. *)
Fixpoint ascending (levels : list Z) : Prop :=
  match levels with
  | [] => True
  | a :: rest => Forall (fun b => (a <= b)%Z) rest /\ ascending rest
  end.

(** In the dependency list, the task [b] lists [a] among what it depends
    on. *)
Definition dependsDirectly (deps : list Dependency.t) (b a : string) : Prop :=
  exists d, In d deps /\ Entity.name (Dependency.task d) = b /\
            In a (Dependency.dependsOn d).

(** Each element of the path is related to the one before it. *)
Fixpoint linkedBy (edge : string -> string -> Prop) (path : list string) : Prop :=
  match path with
  | a :: (b :: _) as rest => edge a b /\ linkedBy edge rest
  | _ => True
  end.

(** Each task of the path depends directly on the one before it. *)
Definition chained (deps : list Dependency.t) (path : list string) : Prop :=
  linkedBy (fun a b => dependsDirectly deps b a) path.

(** A path from one of [starts] to one of [ends] along [edge]. *)
Definition runsBetween (edge : string -> string -> Prop) (starts ends : list string)
    (path : list string) : Prop :=
  linkedBy edge path /\
  (exists s, hd_error path = Some s /\ In s starts) /\
  (exists q e, path = q ++ [e] /\ In e ends).

(** No two relations of the graph have the same endpoints and type. *)
Definition noRepeatedRelation (graph : KnowledgeGraph) : Prop :=
  NoDup (map (fun r => (Relation.from r, Relation.to r, Relation.relationType r))
             (relations graph)).

(** What every reported connection satisfies: its project is a project
    entity of the graph other than the one asked about, and its
    strength is positive. *)
Definition properConnection (graph : KnowledgeGraph) (projectName : string)
    (c : Connection.t) : Prop :=
  In (Connection.project c) (entities graph) /\
  Entity.entityType (Connection.project c) = "project" /\
  Entity.name (Connection.project c) <> projectName /\
  (0 < Connection.connectionStrength c)%Q.

(** Number of reported connections to the project named [n]. *)
Definition timesReported (n : string) (l : list Connection.t) : nat :=
  List.length (filter (fun c => String.eqb (Entity.name (Connection.project c)) n) l).

(** Some entity name, entity observation or relation observation of the
    graph contains [text], letter case aside. *)
Definition mentions (text : string) (graph : KnowledgeGraph) : bool :=
  orb (existsb (fun e => orb (JS.includes (JS.toLowerCase (Entity.name e)) text)
                             (existsb (fun o => JS.includes (JS.toLowerCase o) text)
                                      (Entity.observations e)))
               (entities graph))
      (existsb (fun r => match Relation.observations r with
                         | Some obs => existsb (fun o => JS.includes (JS.toLowerCase o) text) obs
                         | None => false
                         end)
               (relations graph)).

(* ================================================================== *)
(** * Scenarios *)
(* ================================================================== *)

Definition taskNamed (n : string) : Entity.t := Entity.mk n "task" [] None.

Definition dependsOn_ (a b : string) : Relation.t := Relation.mk a b "depends_on" None.

Definition partOf (a b : string) : Relation.t := Relation.mk a b "part_of" None.

(** Two tasks depending on each other. *)
Definition cyclicGraph : KnowledgeGraph :=
  mkGraph [taskNamed "A"; taskNamed "B"] [dependsOn_ "A" "B"; dependsOn_ "B" "A"].


(** The diamond: B and C depend on A, D depends on B and C. *)
Definition diamondGraph : KnowledgeGraph :=
  mkGraph [taskNamed "A"; taskNamed "B"; taskNamed "C"; taskNamed "D"]
          [dependsOn_ "B" "A"; dependsOn_ "C" "A"; dependsOn_ "D" "B"; dependsOn_ "D" "C"].

(** The file right after start-up of the server. *)
Definition initialStore : Store := run [InitializeStatusAndPriority] None.

(** A status set, after start-up, on a name no entity bears. *)
Definition ghostStore : Store :=
  run [InitializeStatusAndPriority; SetEntityStatus "ghost" "active"] None.

(** A project with one resource whose capacity is not a numeral. *)
Definition workshopCalls : list Call :=
  [ InitializeStatusAndPriority;
    CreateEntities [ Entity.mk "P1" "project" [] None;
                     Entity.mk "Lathe" "resource" ["Capacity: lots"] None ];
    CreateRelations [ partOf "Lathe" "P1" ] ].

Definition workshopStore : Store := run workshopCalls None.

(** What a search for "part_of" returns on it. *)
Definition workshopSearch : KnowledgeGraph :=
  searchGraph (entityMatches "part_of") (relationMatches "part_of") (stored workshopStore).

(** A project with one resource of capacity zero. *)
Definition idleCalls : list Call :=
  [ CreateEntities [ Entity.mk "P1" "project" [] None;
                     Entity.mk "Press" "resource" ["Capacity: 0"] None ];
    CreateRelations [ partOf "Press" "P1" ] ].

Definition idleStore : Store := run idleCalls None.

(** A project running through 2024 and holding nothing. *)
Definition plannedStore : Store :=
  run [ CreateEntities
          [ Entity.mk "P2" "project"
              ["StartDate: 2024-01-01"; "EndDate: 2024-12-31"] None ] ] None.

(** A date parser that knows no date, and one that knows two. *)
Definition noDates (_ : string) : option Z := None.

Definition twoDates (s : string) : option Z :=
  if String.eqb s "2024-01-01" then Some 1704067200000%Z
  else if String.eqb s "2024-12-31" then Some 1735603200000%Z
  else None.

(** A project whose only task was linked to it twice in one batch. *)
Definition twiceLinkedStore : Store :=
  run [ CreateEntities [ Entity.mk "P3" "project" [] None;
                         Entity.mk "T1" "task" ["Status: completed"] None ];
        CreateRelations [ partOf "T1" "P3"; partOf "T1" "P3" ] ] None.

(** A project with two tasks, one of them completed. *)
Definition twoTasksStore : Store :=
  run [ CreateEntities [ Entity.mk "P4" "project" [] None;
                         Entity.mk "T1" "task" ["Status: completed"] None;
                         Entity.mk "T2" "task" [] None ];
        CreateRelations [ partOf "T1" "P4"; partOf "T2" "P4" ] ] None.

(** Three projects, each depending on the next and the last on the
    first. *)
Definition threeProjects : KnowledgeGraph :=
  mkGraph [ Entity.mk "P" "project" [] None;
            Entity.mk "A" "project" [] None;
            Entity.mk "B" "project" [] None ]
          [ dependsOn_ "P" "A"; dependsOn_ "A" "B"; dependsOn_ "B" "P" ].

(** A project with one task whose status is the name of a property every
    object inherits. *)
Definition inheritedStatusStore : Store :=
  run [ CreateEntities [ Entity.mk "P5" "project" [] None;
                         Entity.mk "T1" "task" ["Status: constructor"] None ];
        CreateRelations [ partOf "T1" "P5" ] ] None.

(* ================================================================== *)
(** * Basic facts *)
(* ================================================================== *)

Lemma array_includes_In (l : list string) (x : string) :
  JS.array_includes l x = true <-> In x l.
Proof.
  unfold JS.array_includes. rewrite existsb_exists. split.
  - intros [y [Hin Heq]]. apply String.eqb_eq in Heq. now subst.
  - intros Hin. exists x. split; [assumption | apply String.eqb_refl].
Qed.

Lemma array_includes_false (l : list string) (x : string) :
  JS.array_includes l x = false <-> ~ In x l.
Proof.
  rewrite <- array_includes_In. destruct (JS.array_includes l x); split; intros; congruence.
Qed.

Lemma hasEntity_In (graph : KnowledgeGraph) (n : string) :
  hasEntity graph n = true <-> In n (map Entity.name (entities graph)).
Proof.
  unfold hasEntity. rewrite existsb_exists, in_map_iff. split.
  - intros [e [Hin Heq]]. apply String.eqb_eq in Heq. now exists e.
  - intros [e [Heq Hin]]. exists e. split; [assumption | now apply String.eqb_eq].
Qed.

Lemma findEntity_hasEntity (graph : KnowledgeGraph) (n : string) :
  findEntity graph n = None -> hasEntity graph n = false.
Proof.
  unfold findEntity, hasEntity. intros Hnone.
  destruct (existsb _ _) eqn:Hex; [|reflexivity].
  apply existsb_exists in Hex. destruct Hex as [e [Hin Heq]].
  pose proof (find_none _ _ Hnone e Hin) as Hno. cbv beta in Hno. congruence.
Qed.

Lemma findEntity_name (graph : KnowledgeGraph) (n : string) (e : Entity.t) :
  findEntity graph n = Some e -> Entity.name e = n /\ In e (entities graph).
Proof.
  unfold findEntity. intros Hfind. apply find_some in Hfind.
  destruct Hfind as [Hin Heq]. apply String.eqb_eq in Heq. now split.
Qed.

Lemma for_of_Ok {A} (xs : list A) (body : A -> result unit) :
  for_of xs body = Ok tt <-> Forall (fun x => body x = Ok tt) xs.
Proof.
  induction xs as [|x xs IH]; simpl.
  - split; auto.
  - destruct (body x) as [[]|msg] eqn:Hb.
    + rewrite IH. split; intros H.
      * now constructor.
      * now inversion H.
    + split; intros H; [discriminate | inversion H; congruence].
Qed.

Lemma for_of_Throw {A} (xs : list A) (body : A -> result unit) (x : A) :
  In x xs -> (exists msg, body x = Throw msg) -> exists msg, for_of xs body = Throw msg.
Proof.
  induction xs as [|y xs IH]; simpl; [tauto|].
  intros [Heq | Hin] Hthrow.
  - subst y. destruct Hthrow as [msg Hmsg]. rewrite Hmsg. now exists msg.
  - destruct (body y) as [[]|msg']; [now apply IH | now exists msg'].
Qed.

Lemma stored_load (st : Store) : loadGraph st = (Ok (stored st), st).
Proof. now destruct st. Qed.

Lemma filter_length_le {A} (p : A -> bool) (l : list A) :
  (List.length (filter p l) <= List.length l)%nat.
Proof.
  induction l as [|x l IH]; simpl; [lia|]. destruct (p x); simpl; lia.
Qed.



Lemma filter_filter_length {A} (p q : A -> bool) (l : list A) :
  (List.length (filter p (filter q l)) <= List.length (filter p l))%nat.
Proof.
  induction l as [|x l IH]; simpl; [lia|].
  destruct (q x); simpl; destruct (p x); simpl; lia.
Qed.

(* ================================================================== *)
(** * Entity creation *)
(* ================================================================== *)

Lemma countNamed_NoDup (graph : KnowledgeGraph) (n : string) :
  uniqueNames graph -> hasEntity graph n = true -> countNamed graph n = 1%nat.
Proof.
  unfold uniqueNames, countNamed. rewrite hasEntity_In.
  induction (entities graph) as [|e l IH]; simpl; [tauto|].
  intros Hnd Hin. inversion Hnd as [|? ? Hnotin Hnd']; subst.
  destruct (String.eqb (Entity.name e) n) eqn:Heq.
  - apply String.eqb_eq in Heq. subst n. simpl. f_equal.
    destruct (filter _ l) as [|e' l'] eqn:Hf; [reflexivity|].
    exfalso. apply Hnotin.
    assert (Hin' : In e' (filter (fun e0 => String.eqb (Entity.name e0) (Entity.name e)) l))
      by (rewrite Hf; now left).
    apply filter_In in Hin'. destruct Hin' as [Hl He'].
    apply String.eqb_eq in He'. rewrite <- He'. now apply in_map.
  - destruct Hin as [Hin | Hin].
    + apply String.eqb_neq in Heq. congruence.
    + now apply IH.
Qed.

(** What an accepted batch looks like: no name of it was in the graph,
    and the saved graph is the old one followed by the batch. *)
Lemma createEntities_accepted (batch : list Entity.t) (st st' : Store) (g : KnowledgeGraph) :
  createEntities batch st = (Ok g, st') ->
  st' = Some g /\
  g = mkGraph (entities (stored st) ++ batch) (relations (stored st)) /\
  Forall (fun e => hasEntity (stored st) (Entity.name e) = false) batch.
Proof.
  unfold createEntities, bind, lift, saveGraph, ret. rewrite stored_load.
  destruct (for_of batch _) as [[]|msg] eqn:Hloop; [|discriminate].
  intros Heq. inversion Heq; subst. repeat split.
  apply for_of_Ok in Hloop. eapply Forall_impl; [|exact Hloop].
  intros e He. cbv beta in He. destruct (hasEntity (stored st) (Entity.name e));
    [discriminate | reflexivity].
Qed.

(** Uniqueness is kept by every accepted batch whose own names are
    pairwise distinct. *)
Lemma createEntities_keeps_unique (batch : list Entity.t) (st st' : Store)
    (g : KnowledgeGraph) :
  uniqueNames (stored st) ->
  NoDup (map Entity.name batch) ->
  createEntities batch st = (Ok g, st') ->
  uniqueNames g /\ forall e, In e batch -> countNamed g (Entity.name e) = 1%nat.
Proof.
  intros Hu Hb Hrun. apply createEntities_accepted in Hrun.
  destruct Hrun as [_ [Hg Hfresh]].
  assert (Hfresh' : forall n, In n (map Entity.name batch) ->
                             ~ In n (map Entity.name (entities (stored st)))).
  { intros n Hn Hold. apply in_map_iff in Hn. destruct Hn as [e [Hname He]].
    rewrite Forall_forall in Hfresh. specialize (Hfresh e He).
    apply hasEntity_In in Hold. congruence. }
  assert (Hug : uniqueNames g).
  { subst g. unfold uniqueNames in *. simpl. rewrite map_app.
    revert Hu Hfresh'. generalize (map Entity.name (entities (stored st))) as old.
    induction old as [|n old IH]; simpl; intros Hu Hdisj; [assumption|].
    inversion Hu as [|? ? Hnotin Hu']; subst. constructor.
    - rewrite in_app_iff. intros [Hin | Hin]; [tauto|].
      apply (Hdisj n Hin). now left.
    - apply IH; [assumption|]. intros m Hm Hold. apply (Hdisj m Hm). now right. }
  split; [assumption|].
  intros e He. apply countNamed_NoDup; [assumption|].
  apply hasEntity_In. subst g. simpl. rewrite map_app, in_app_iff. right.
  now apply in_map.
Qed.

(** C1 (the code departs from it).  Claim: an accepted batch leaves
    exactly one entity per name, also when the batch itself holds two
    entries with the same name.  On the code: right after start-up
    (seven entities, names unique), the batch of two tasks both named
    "A" is accepted, and the saved graph holds two entities named "A". *)
Theorem createEntities_same_name_twice :
  uniqueNames (stored initialStore) /\
  exists g,
    createEntities [taskNamed "A"; taskNamed "A"] initialStore = (Ok g, Some g) /\
    countNamed g "A" = 2%nat /\
    ~ uniqueNames g.
Proof.
  split.
  - unfold uniqueNames. cbn.
    repeat (constructor;
            [intros H; cbn in H;
             repeat (destruct H as [H | H]; [discriminate|]); exact H|]).
    constructor.
  - eexists. split; [vm_compute; reflexivity|]. split; [reflexivity|].
    intros Hnd. pose proof (countNamed_NoDup _ "A" Hnd eq_refl) as Hone.
    vm_compute in Hone. discriminate.
Qed.

(* ================================================================== *)
(** * Relation creation *)
(* ================================================================== *)

(** What an accepted batch of relations looks like. *)
Lemma createRelations_accepted (batch : list Relation.t) (st st' : Store)
    (g : KnowledgeGraph) :
  createRelations batch st = (Ok g, st') ->
  st' = Some g /\
  g = mkGraph (entities (stored st)) (relations (stored st) ++ batch) /\
  Forall (fun r => endpointsExist (stored st) r /\
                   In (Relation.relationType r) VALID_RELATION_TYPES) batch.
Proof.
  unfold createRelations, bind, lift, saveGraph, ret. rewrite stored_load.
  destruct (for_of batch _) as [[]|msg] eqn:Hloop; [|discriminate].
  intros Heq. inversion Heq; subst. repeat split.
  apply for_of_Ok in Hloop. eapply Forall_impl; [|exact Hloop].
  intros r Hr. cbv beta in Hr. unfold endpointsExist.
  destruct (hasEntity (stored st) (Relation.from r)); [|discriminate].
  destruct (hasEntity (stored st) (Relation.to r)); [|discriminate].
  destruct (JS.array_includes VALID_RELATION_TYPES (Relation.relationType r)) eqn:Hty;
    [|discriminate].
  apply array_includes_In in Hty. auto.
Qed.

(** One relation the validation loop refuses makes the call throw with
    the file untouched. *)
Lemma createRelations_throws (st : Store) (batch : list Relation.t)
    (relation : Relation.t) :
  In relation batch ->
  invalidRelation (stored st) relation ->
  exists msg, createRelations batch st = (Throw msg, st).
Proof.
  intros Hin Hbad.
  unfold createRelations, bind, lift. rewrite stored_load.
  match goal with
  | |- context [for_of batch ?b] =>
      destruct (for_of_Throw batch b relation Hin) as [msg Hmsg]
  end.
  - cbv beta. unfold invalidRelation in Hbad.
    destruct (hasEntity (stored st) (Relation.from relation)) eqn:Hfrom;
      cbn [negb]; [|eauto].
    destruct (hasEntity (stored st) (Relation.to relation)) eqn:Hto;
      cbn [negb]; [|eauto].
    destruct (JS.array_includes VALID_RELATION_TYPES (Relation.relationType relation))
      eqn:Hty; cbn [negb]; [|eauto].
    destruct (existsb (fun r => sameTriple r relation) (relations (stored st))) eqn:Hdup;
      [eauto|].
    destruct Hbad as [H | [H | [H | H]]]; discriminate.
  - rewrite Hmsg. now exists msg.
Qed.

(** C3.  If any relation of the batch names a missing [from] or [to]
    entity, has a type outside [VALID_RELATION_TYPES], or repeats a
    triple of the graph, [createRelations] throws and the file is left
    exactly as it was: nothing of the batch is added or saved. *)
Theorem createRelations_rejects_whole_batch (st : Store) (batch : list Relation.t) :
  (exists relation, In relation batch /\ invalidRelation (stored st) relation) ->
  exists msg, createRelations batch st = (Throw msg, st).
Proof.
  intros [relation [Hin Hbad]]. exact (createRelations_throws st batch relation Hin Hbad).
Qed.

Lemma createRelations_rejects_whole_batch_witness :
  (exists relation,
      In relation [partOf "Lathe" "P1"; partOf "Lathe" "P2"] /\
      invalidRelation (stored workshopStore) relation) /\
  exists msg,
    createRelations [partOf "Lathe" "P1"; partOf "Lathe" "P2"] workshopStore
    = (Throw msg, workshopStore).
Proof.
  assert (H : exists relation,
             In relation [partOf "Lathe" "P1"; partOf "Lathe" "P2"] /\
             invalidRelation (stored workshopStore) relation).
  { exists (partOf "Lathe" "P2"). split.
    - right. left. reflexivity.
    - right. left. vm_compute. reflexivity. }
  split; [exact H|].
  exact (createRelations_rejects_whole_batch workshopStore _ H).
Defined.

(** C4 (the code departs from it).  Claim: every method that appends a
    relation does so only when both endpoints exist.  [createRelations]
    does (lemma [createRelations_accepted]); [setEntityStatus] does not
    look at the entities at all: right after start-up no entity is named
    "ghost", and the call still returns and saves a [has_status]
    relation leaving "ghost". *)
Theorem setEntityStatus_unknown_subject :
  hasEntity (stored initialStore) "ghost" = false /\
  exists g,
    setEntityStatus "ghost" "active" initialStore = (Ok tt, Some g) /\
    relations g = [Relation.mk "ghost" "status:active" "has_status" None] /\
    ~ endpointsExist (stored initialStore)
        (Relation.mk "ghost" "status:active" "has_status" None).
Proof.
  split; [reflexivity|].
  eexists. split; [vm_compute; reflexivity|]. split; [reflexivity|].
  intros [Hfrom _]. vm_compute in Hfrom. discriminate.
Qed.

(** The same holds of [setEntityPriority], and without the start-up
    entities neither endpoint exists. *)
Lemma setEntityPriority_unknown_endpoints :
  exists g,
    setEntityPriority "ghost" "high" None = (Ok tt, Some g) /\
    relations g = [Relation.mk "ghost" "priority:high" "has_priority" None] /\
    hasEntity emptyGraph "ghost" = false /\
    hasEntity emptyGraph "priority:high" = false.
Proof. eexists. split; [vm_compute; reflexivity|]. repeat split. Qed.

(* ================================================================== *)
(** * Status and priority as relations *)
(* ================================================================== *)

Section ReplaceOnWrite.

Variables (kind entityName target : string).
Variable rels : list Relation.t.

Local Notation "'fresh'" := (Relation.mk entityName target kind None).
Local Notation "'kept'" := (filter (fun r => negb (isKindOf kind entityName r)) rels).





End ReplaceOnWrite.







(* ================================================================== *)
(** * Search *)
(* ================================================================== *)

Lemma listed_app (ents : list Entity.t) (e : Entity.t) (n : string) :
  listed (ents ++ [e]) n = orb (listed ents n) (String.eqb (Entity.name e) n).
Proof.
  unfold listed. rewrite existsb_app. simpl. now rewrite orb_false_r.
Qed.

Lemma listed_names (ents : list Entity.t) (n : string) :
  In n (map Entity.name ents) -> listed ents n = true.
Proof.
  intros Hin. apply in_map_iff in Hin. destruct Hin as [e [Hname He]].
  unfold listed. apply existsb_exists. exists e. split; [assumption|].
  now apply String.eqb_eq.
Qed.

(** [addEndpoint] only appends: what was collected stays collected, the
    relations are untouched, the names still belong to collected
    entities, and [n] is collected when the graph has it. *)
Lemma addEndpoint_keeps (graph : KnowledgeGraph) (n m : string) (acc : SearchAcc) :
  listed (matchingEntities acc) m = true ->
  listed (matchingEntities (addEndpoint graph n acc)) m = true.
Proof.
  intros Hm. unfold addEndpoint.
  destruct (negb _); [|assumption].
  destruct (findEntity graph n); [|assumption].
  cbn [matchingEntities]. now rewrite listed_app, Hm.
Qed.

Lemma addEndpoint_relations (graph : KnowledgeGraph) (n : string) (acc : SearchAcc) :
  allRelations (addEndpoint graph n acc) = allRelations acc.
Proof.
  unfold addEndpoint. destruct (negb _); [|reflexivity].
  now destruct (findEntity graph n).
Qed.

Lemma addEndpoint_names (graph : KnowledgeGraph) (n : string) (acc : SearchAcc) :
  (forall m, In m (matchingEntityNames acc) -> listed (matchingEntities acc) m = true) ->
  forall m, In m (matchingEntityNames (addEndpoint graph n acc)) ->
            listed (matchingEntities (addEndpoint graph n acc)) m = true.
Proof.
  intros Hnames m. unfold addEndpoint.
  destruct (negb _); [|apply Hnames].
  destruct (findEntity graph n) as [e|] eqn:Hfind; [|apply Hnames].
  apply findEntity_name in Hfind. destruct Hfind as [Hname _].
  cbn [matchingEntities matchingEntityNames]. intros Hm.
  rewrite listed_app. apply in_app_iff in Hm. destruct Hm as [Hm | [Hm | []]].
  - now rewrite (Hnames m Hm).
  - subst m. rewrite Hname, String.eqb_refl. apply orb_true_r.
Qed.

Lemma addEndpoint_collects (graph : KnowledgeGraph) (n : string) (acc : SearchAcc) :
  (forall m, In m (matchingEntityNames acc) -> listed (matchingEntities acc) m = true) ->
  hasEntity graph n = true ->
  listed (matchingEntities (addEndpoint graph n acc)) n = true.
Proof.
  intros Hnames Hex. unfold addEndpoint.
  destruct (JS.array_includes (matchingEntityNames acc) n) eqn:Hmem; cbn [negb].
  - apply Hnames. now apply array_includes_In.
  - destruct (findEntity graph n) as [e|] eqn:Hfind.
    + apply findEntity_name in Hfind. destruct Hfind as [Hname _].
      cbn [matchingEntities]. rewrite listed_app, Hname, String.eqb_refl.
      apply orb_true_r.
    + apply findEntity_hasEntity in Hfind. congruence.
Qed.

Lemma mergeRelation_invariant (graph : KnowledgeGraph) (acc : SearchAcc)
    (relation : Relation.t) :
  searchInvariant graph acc -> searchInvariant graph (mergeRelation graph acc relation).
Proof.
  intros Hinv. unfold mergeRelation.
  destruct (existsb _ (allRelations acc)); cbn [negb]; [assumption|].
  destruct Hinv as [Hnames Hrels].
  set (acc1 := mkAcc (allRelations acc ++ [relation]) (matchingEntities acc)
                     (matchingEntityNames acc)).
  set (acc2 := addEndpoint graph (Relation.from relation) acc1).
  assert (Hnames1 : forall m, In m (matchingEntityNames acc1) ->
                              listed (matchingEntities acc1) m = true) by exact Hnames.
  assert (Hnames2 : forall m, In m (matchingEntityNames acc2) ->
                              listed (matchingEntities acc2) m = true)
    by (apply addEndpoint_names; exact Hnames1).
  split.
  - apply addEndpoint_names. exact Hnames2.
  - intros r n Hr Hend Hex.
    rewrite addEndpoint_relations in Hr. unfold acc2 in Hr.
    rewrite addEndpoint_relations in Hr. cbn [allRelations acc1] in Hr.
    apply in_app_iff in Hr. destruct Hr as [Hr | [Hr | []]].
    + apply addEndpoint_keeps. apply addEndpoint_keeps. exact (Hrels r n Hr Hend Hex).
    + subst r. destruct Hend as [Hend | Hend]; subst n.
      * apply addEndpoint_keeps. now apply addEndpoint_collects.
      * now apply addEndpoint_collects.
Qed.

Lemma merge_loop_invariant (graph : KnowledgeGraph) (additional : list Relation.t)
    (acc : SearchAcc) :
  searchInvariant graph acc ->
  searchInvariant graph (fold_left (mergeRelation graph) additional acc).
Proof.
  revert acc. induction additional as [|relation rest IH]; intros acc Hinv; simpl.
  - exact Hinv.
  - apply IH. now apply mergeRelation_invariant.
Qed.

(** The search of a graph, whatever the two filters are: an endpoint of
    a returned relation is returned with it if the graph has it. *)
Lemma searchGraph_endpoints (matchE : Entity.t -> bool) (matchR : Relation.t -> bool)
    (graph : KnowledgeGraph) (relation : Relation.t) (n : string) :
  In relation (relations (searchGraph matchE matchR graph)) ->
  n = Relation.from relation \/ n = Relation.to relation ->
  hasEntity graph n = true ->
  hasEntity (searchGraph matchE matchR graph) n = true.
Proof.
  unfold searchGraph. cbn [relations entities hasEntity].
  set (matching := filter matchE (entities graph)).
  set (names := map Entity.name matching).
  set (start := mkAcc _ matching names).
  assert (Hstart : searchInvariant graph start).
  { split; cbn [matchingEntityNames matchingEntities allRelations start].
    - intros m Hm. now apply listed_names.
    - intros r m Hr Hend _. apply filter_In in Hr. destruct Hr as [_ Hboth].
      apply andb_true_iff in Hboth. destruct Hboth as [Hf Ht].
      apply array_includes_In in Hf, Ht. apply listed_names.
      destruct Hend; subst m; assumption. }
  pose proof (merge_loop_invariant graph (filter matchR (relations graph)) start Hstart)
    as [_ Hrels].
  intros Hin Hend Hex. exact (Hrels relation n Hin Hend Hex).
Qed.

Lemma merge_loop_relations (graph : KnowledgeGraph) (additional : list Relation.t)
    (acc : SearchAcc) (r : Relation.t) :
  In r (allRelations (fold_left (mergeRelation graph) additional acc)) ->
  In r (allRelations acc) \/ In r additional.
Proof.
  revert acc. induction additional as [|relation rest IH]; intros acc Hin; simpl in *.
  - now left.
  - apply IH in Hin. destruct Hin as [Hin | Hin]; [|now right; right].
    unfold mergeRelation in Hin. destruct (negb _); [|now left].
    rewrite !addEndpoint_relations in Hin. cbn [allRelations] in Hin.
    apply in_app_iff in Hin. destruct Hin as [Hin | [Hin | []]]; [now left|].
    right. now left.
Qed.

(** Only relations of the graph are returned. *)
Lemma searchGraph_relations (matchE : Entity.t -> bool) (matchR : Relation.t -> bool)
    (graph : KnowledgeGraph) (relation : Relation.t) :
  In relation (relations (searchGraph matchE matchR graph)) ->
  In relation (relations graph).
Proof.
  unfold searchGraph. cbn [relations]. intros Hin.
  apply merge_loop_relations in Hin. cbn [allRelations] in Hin.
  destruct Hin as [Hin | Hin]; apply filter_In in Hin; tauto.
Qed.

(** C5 (as stated it fails: see [searchNodes_dangling_relation]).
    Amended: for every file content and query, an endpoint of a returned
    relation is among the returned entities whenever the stored graph
    has an entity of that name; hence the returned subgraph is
    self-consistent whenever every relation of the stored graph has both
    endpoints among its entities. *)
Theorem searchNodes_endpoints_returned (st : Store) (query : string)
    (result : KnowledgeGraph) :
  fst (searchNodes query st) = Ok result ->
  (forall relation n,
      In relation (relations result) ->
      n = Relation.from relation \/ n = Relation.to relation ->
      hasEntity (stored st) n = true ->
      hasEntity result n = true) /\
  (selfConsistent (stored st) -> selfConsistent result).
Proof.
  unfold searchNodes, bind, ret. rewrite stored_load. cbn [fst].
  intros Heq. injection Heq as Hres. subst result.
  set (lowerQuery := JS.toLowerCase query).
  pose proof (searchGraph_endpoints (entityMatches lowerQuery)
                (relationMatches lowerQuery) (stored st)) as Hends.
  split; [exact Hends|].
  intros Hgraph relation Hin.
  pose proof (searchGraph_relations _ _ _ _ Hin) as Hold.
  destruct (Hgraph relation Hold) as [Hfrom Hto].
  split; eapply Hends; eauto.
Qed.

Lemma searchNodes_endpoints_returned_witness :
  fst (searchNodes "part_of" workshopStore) = Ok workshopSearch /\
  selfConsistent (stored workshopStore) /\
  selfConsistent workshopSearch.
Proof.
  assert (Hrun : fst (searchNodes "part_of" workshopStore) = Ok workshopSearch)
    by reflexivity.
  assert (Hgraph : selfConsistent (stored workshopStore)).
  { intros relation Hin. vm_compute in Hin.
    destruct Hin as [Hin | []]. subst relation. split; reflexivity. }
  split; [exact Hrun|]. split; [exact Hgraph|].
  exact (proj2 (searchNodes_endpoints_returned workshopStore "part_of" workshopSearch Hrun)
               Hgraph).
Defined.

(** C5, the statement as given, fails: after a status was set on the
    unknown name "ghost", the search for "has_status" returns the
    relation leaving "ghost" and no entity of that name. *)
Lemma searchNodes_dangling_relation :
  exists result,
    searchNodes "has_status" ghostStore = (Ok result, ghostStore) /\
    In (Relation.mk "ghost" "status:active" "has_status" None) (relations result) /\
    hasEntity result "ghost" = false /\
    ~ selfConsistent result.
Proof.
  eexists. split; [vm_compute; reflexivity|].
  split; [now left|]. split; [reflexivity|].
  intros Hcons.
  destruct (Hcons (Relation.mk "ghost" "status:active" "has_status" None)) as [Hfrom _].
  - now left.
  - vm_compute in Hfrom. discriminate.
Qed.

(* ================================================================== *)
(** * Where dangling relations come from *)
(* ================================================================== *)

Lemma listed_app_l (ents more : list Entity.t) (n : string) :
  listed ents n = true -> listed (ents ++ more) n = true.
Proof. unfold listed. rewrite existsb_app. now intros ->. Qed.

Lemma ensureValueEntity_keeps (kind : string) (values : list string) :
  forall ents n,
    listed ents n = true ->
    listed (fold_left (ensureValueEntity kind) values ents) n = true.
Proof.
  induction values as [|v values IH]; intros ents n Hn; simpl; [exact Hn|].
  apply IH. unfold ensureValueEntity. destruct (existsb _ ents); [exact Hn|].
  now apply listed_app_l.
Qed.

Lemma updateFirst_names (p : Entity.t -> bool) (f : Entity.t -> Entity.t)
    (l : list Entity.t) :
  (forall e, Entity.name (f e) = Entity.name e) ->
  map Entity.name (updateFirst p f l) = map Entity.name l.
Proof.
  intros Hf. induction l as [|e l IH]; simpl; [reflexivity|].
  destruct (p e); simpl; [now rewrite Hf | now rewrite IH].
Qed.

Lemma listed_names_eq (l l' : list Entity.t) (n : string) :
  map Entity.name l = map Entity.name l' -> listed l n = listed l' n.
Proof.
  unfold listed. revert l'.
  induction l as [|e l IH]; intros [|e' l'] H; simpl in *; try discriminate.
  - reflexivity.
  - injection H as He Hl. now rewrite He, (IH l' Hl).
Qed.

Lemma deleteObservations_names (deletions : list (string * list string)) :
  forall ents,
    map Entity.name
      (fold_left
         (fun ents (deletion : string * list string) =>
            let (entityName, obs) := deletion in
            updateFirst (fun e => String.eqb (Entity.name e) entityName)
              (fun e => withObservations e
                          (filter (fun o => negb (JS.array_includes obs o))
                                  (Entity.observations e)))
              ents)
         deletions ents)
    = map Entity.name ents.
Proof.
  induction deletions as [|[entityName obs] deletions IH]; intros ents; simpl;
    [reflexivity|].
  rewrite IH. now apply updateFirst_names.
Qed.

(** Apart from the two setters, every mutating call keeps each relation
    of the file attached to entities of the file. *)
Lemma perform_selfConsistent (c : Call) (st : Store) :
  isSetter c = false ->
  selfConsistent (stored st) ->
  selfConsistent (stored (perform c st)).
Proof.
  intros Hc Hcons. unfold selfConsistent, endpointsExist in *.
  change hasEntity with (fun g => listed (entities g)) in *. cbv beta in *.
  destruct c; try discriminate; cbn [perform].
  - unfold initializeStatusAndPriority, bind, saveGraph. rewrite stored_load.
    cbn [snd stored relations entities]. intros r Hr.
    destruct (Hcons r Hr) as [Hf Ht].
    split; apply ensureValueEntity_keeps; now apply ensureValueEntity_keeps.
  - destruct (createEntities batch st) as [[g|msg] st'] eqn:Hrun.
    + apply createEntities_accepted in Hrun. destruct Hrun as [-> [-> _]].
      cbn [snd stored relations entities]. intros r Hr.
      destruct (Hcons r Hr) as [Hf Ht]. split; now apply listed_app_l.
    + unfold createEntities, bind, lift in Hrun. rewrite stored_load in Hrun.
      destruct (for_of batch _) as [[]|msg']; inversion Hrun; subst; exact Hcons.
  - destruct (createRelations batch st) as [[g|msg] st'] eqn:Hrun.
    + apply createRelations_accepted in Hrun. destruct Hrun as [-> [-> Hbatch]].
      cbn [snd stored relations entities]. intros r Hr.
      apply in_app_iff in Hr. destruct Hr as [Hr | Hr]; [now apply Hcons|].
      rewrite Forall_forall in Hbatch. destruct (Hbatch r Hr) as [Hends _].
      exact Hends.
    + unfold createRelations, bind, lift in Hrun. rewrite stored_load in Hrun.
      destruct (for_of batch _) as [[]|msg']; inversion Hrun; subst; exact Hcons.
  - unfold addObservations, bind. rewrite stored_load.
    destruct (findEntity (stored st) entityName); [|exact Hcons].
    cbn [snd stored relations entities bind saveGraph ret]. intros r Hr.
    destruct (Hcons r Hr) as [Hf Ht].
    assert (Hnames : map Entity.name
                       (updateFirst (fun e => String.eqb (Entity.name e) entityName)
                          (fun e => withObservations e (Entity.observations e ++ obs))
                          (entities (stored st)))
                     = map Entity.name (entities (stored st)))
      by (now apply updateFirst_names).
    now rewrite !(listed_names_eq _ _ _ Hnames).
  - unfold deleteEntities, bind, saveGraph. rewrite stored_load.
    cbn [snd stored relations entities]. intros r Hr.
    apply filter_In in Hr. destruct Hr as [Hr Hkeep].
    apply andb_true_iff in Hkeep. destruct Hkeep as [Hkf Hkt].
    destruct (Hcons r Hr) as [Hf Ht].
    assert (Hkept : forall n,
               negb (JS.array_includes entityNames n) = true ->
               listed (entities (stored st)) n = true ->
               listed (filter (fun e => negb (JS.array_includes entityNames (Entity.name e)))
                              (entities (stored st))) n = true).
    { intros n Hn Hl. unfold listed in *. apply existsb_exists in Hl.
      destruct Hl as [e [He Heq]]. apply existsb_exists. exists e.
      split; [|exact Heq]. apply filter_In. split; [exact He|].
      apply String.eqb_eq in Heq. now rewrite Heq. }
    split; now apply Hkept.
  - unfold deleteObservations, bind, saveGraph. rewrite stored_load.
    cbn [snd stored relations entities]. intros r Hr.
    destruct (Hcons r Hr) as [Hf Ht].
    now rewrite !(listed_names_eq _ _ _ (deleteObservations_names deletions _)).
  - unfold deleteRelations, bind, saveGraph. rewrite stored_load.
    cbn [snd stored relations entities]. intros r Hr.
    apply filter_In in Hr. now apply Hcons.
Qed.

Lemma run_selfConsistent (calls : list Call) :
  forall st,
    forallb (fun c => negb (isSetter c)) calls = true ->
    selfConsistent (stored st) ->
    selfConsistent (stored (run calls st)).
Proof.
  unfold run. induction calls as [|c calls IH]; intros st Hcalls Hst; simpl; [exact Hst|].
  simpl in Hcalls. apply andb_true_iff in Hcalls. destruct Hcalls as [Hc Hrest].
  apply IH; [exact Hrest|]. apply perform_selfConsistent; [|exact Hst].
  now apply negb_true_iff in Hc.
Qed.

(** A file the manager produced without the two setters has no dangling
    relation, so every search on it returns a self-consistent
    subgraph. *)
Lemma searchNodes_without_setters (calls : list Call) (query : string)
    (result : KnowledgeGraph) :
  forallb (fun c => negb (isSetter c)) calls = true ->
  fst (searchNodes query (run calls None)) = Ok result ->
  selfConsistent result.
Proof.
  intros Hcalls Hrun.
  assert (Hcons : selfConsistent (stored (run calls None)))
    by (apply run_selfConsistent; [exact Hcalls | intros r []]).
  unfold searchNodes, bind, ret in Hrun. rewrite stored_load in Hrun.
  injection Hrun as <-.
  intros relation Hin.
  pose proof (searchGraph_relations _ _ _ _ Hin) as Hold.
  destruct (Hcons relation Hold) as [Hfrom Hto].
  split; eapply searchGraph_endpoints; eauto.
Qed.

(* ================================================================== *)
(** * Dependency resolver: termination *)
(* ================================================================== *)

Lemma foldR_total {A S} (body : S -> A -> R S) (xs : list A) :
  (forall s x, body s x <> None) -> forall s, foldR body xs s <> None.
Proof.
  intros Hbody. induction xs as [|x xs IH]; intros s; simpl; [discriminate|].
  specialize (Hbody s x). destruct (body s x) as [[s'|msg]|]; simpl.
  - apply IH.
  - discriminate.
  - congruence.
Qed.

Lemma foldR_ext {A S} (body1 body2 : S -> A -> R S) (xs : list A) :
  (forall s x r, body1 s x = Some r -> body2 s x = Some r) ->
  forall s r, foldR body1 xs s = Some r -> foldR body2 xs s = Some r.
Proof.
  intros Hbody. induction xs as [|x xs IH]; intros s r; simpl; [auto|].
  destruct (body1 s x) as [[s'|msg]|] eqn:H1; simpl; intros Hr.
  - rewrite (Hbody _ _ _ H1). simpl. now apply IH.
  - rewrite (Hbody _ _ _ H1). exact Hr.
  - discriminate.
Qed.

Section Termination.

Variable graph : KnowledgeGraph.
Variable depth : Z.

Lemma visitDependency_total rec taskEntity currentLevel m relation :
  (forall e dir m', rec e (currentLevel + 1)%Z dir m' <> None) ->
  visitDependency graph rec taskEntity currentLevel m relation <> None.
Proof.
  intros Hrec. unfold visitDependency.
  destruct (andb _ _); [|discriminate].
  destruct (findTyped graph _ "task") as [dependencyTask|]; [|discriminate].
  destruct (negb _); [|discriminate].
  specialize (Hrec dependencyTask DependsOn m).
  destruct (rec dependencyTask _ DependsOn m) as [[m1|msg]|]; simpl;
    [|discriminate|congruence].
  destruct (map_get m1 _); [|discriminate].
  destruct (negb _); discriminate.
Qed.

Lemma visitDependent_total rec taskEntity currentLevel m relation :
  (forall e dir m', rec e (currentLevel + 1)%Z dir m' <> None) ->
  visitDependent graph rec taskEntity currentLevel m relation <> None.
Proof.
  intros Hrec. unfold visitDependent.
  destruct (andb _ _); [|discriminate].
  destruct (findTyped graph _ "task") as [dependentTask|]; [|discriminate].
  destruct (negb _); [|discriminate].
  specialize (Hrec dependentTask DependedOnBy m).
  destruct (rec dependentTask _ DependedOnBy m) as [[m1|msg]|]; simpl;
    [|discriminate|congruence].
  destruct (map_get m1 _); [|discriminate].
  destruct (negb _); discriminate.
Qed.

(** The fuel is never the reason [addDependencies] stops: a call at
    level [currentLevel] nests at most [depth + 1 - currentLevel] further
    calls, on any graph, cyclic or not. *)
Lemma addDependencies_total (fuel : nat) :
  forall taskEntity currentLevel direction m,
    (Z.to_nat (depth + 1 - currentLevel) < fuel)%nat ->
    addDependencies graph depth fuel taskEntity currentLevel direction m <> None.
Proof.
  induction fuel as [|fuel IH]; intros taskEntity currentLevel direction m Hfuel;
    [lia|].
  cbn [addDependencies].
  destruct (currentLevel >? depth)%Z eqn:Hstop; [discriminate|].
  assert (Hrec : forall e dir m',
             addDependencies graph depth fuel e (currentLevel + 1)%Z dir m' <> None).
  { intros e dir m'. apply IH. rewrite Z.gtb_ltb in Hstop. apply Z.ltb_ge in Hstop. lia. }
  destruct direction; apply foldR_total; intros s x.
  - now apply visitDependency_total.
  - now apply visitDependent_total.
Qed.

Lemma visitDependency_ext rec1 rec2 taskEntity currentLevel m relation r :
  (forall e l dir m' r', rec1 e l dir m' = Some r' -> rec2 e l dir m' = Some r') ->
  visitDependency graph rec1 taskEntity currentLevel m relation = Some r ->
  visitDependency graph rec2 taskEntity currentLevel m relation = Some r.
Proof.
  intros Hrec. unfold visitDependency.
  destruct (andb _ _); [|auto].
  destruct (findTyped graph _ "task") as [dependencyTask|]; [|auto].
  destruct (negb _); [|auto].
  destruct (rec1 dependencyTask _ DependsOn m) as [r1|] eqn:H1; [|discriminate].
  now rewrite (Hrec _ _ _ _ _ H1).
Qed.

Lemma visitDependent_ext rec1 rec2 taskEntity currentLevel m relation r :
  (forall e l dir m' r', rec1 e l dir m' = Some r' -> rec2 e l dir m' = Some r') ->
  visitDependent graph rec1 taskEntity currentLevel m relation = Some r ->
  visitDependent graph rec2 taskEntity currentLevel m relation = Some r.
Proof.
  intros Hrec. unfold visitDependent.
  destruct (andb _ _); [|auto].
  destruct (findTyped graph _ "task") as [dependentTask|]; [|auto].
  destruct (negb _); [|auto].
  destruct (rec1 dependentTask _ DependedOnBy m) as [r1|] eqn:H1; [|discriminate].
  now rewrite (Hrec _ _ _ _ _ H1).
Qed.

(** A run that was not cut by the fuel is the same under any larger
    fuel. *)
Lemma addDependencies_more_fuel (fuel : nat) :
  forall fuel' taskEntity currentLevel direction m r,
    (fuel <= fuel')%nat ->
    addDependencies graph depth fuel taskEntity currentLevel direction m = Some r ->
    addDependencies graph depth fuel' taskEntity currentLevel direction m = Some r.
Proof.
  induction fuel as [|fuel IH]; intros fuel' taskEntity currentLevel direction m r Hle;
    [discriminate|].
  destruct fuel' as [|fuel']; [lia|].
  cbn [addDependencies].
  destruct (currentLevel >? depth)%Z; [auto|].
  assert (Hrec : forall e l dir m' r',
             addDependencies graph depth fuel e l dir m' = Some r' ->
             addDependencies graph depth fuel' e l dir m' = Some r').
  { intros e l dir m' r'. apply IH. lia. }
  destruct direction; apply foldR_ext; intros s x r0.
  - now apply visitDependency_ext.
  - now apply visitDependent_ext.
Qed.

Lemma buildDependencyMap_more_fuel (fuel fuel' : nat) (task : Entity.t)
    (m : DependencyMap) :
  (fuel <= fuel')%nat ->
  buildDependencyMap graph depth fuel task = Some (Ok m) ->
  buildDependencyMap graph depth fuel' task = Some (Ok m).
Proof.
  intros Hle. unfold buildDependencyMap.
  destruct (addDependencies graph depth fuel task 0 DependsOn []) as [[m1|msg]|] eqn:H1;
    simpl; try discriminate.
  rewrite (addDependencies_more_fuel _ _ _ _ _ _ _ Hle H1). simpl.
  now apply addDependencies_more_fuel.
Qed.

(** With the fuel it is given, [buildDependencyMap] always comes to an
    end: it returns a map or throws. *)
Lemma buildDependencyMap_total (task : Entity.t) :
  buildDependencyMap graph depth (enoughFuel depth) task <> None.
Proof.
  assert (Hfuel : (Z.to_nat (depth + 1 - 0) < enoughFuel depth)%nat)
    by (unfold enoughFuel; lia).
  unfold buildDependencyMap.
  pose proof (addDependencies_total (enoughFuel depth) task 0%Z DependsOn [] Hfuel) as H1.
  destruct (addDependencies graph depth (enoughFuel depth) task 0 DependsOn [])
    as [[m1|msg]|]; simpl; [|discriminate|congruence].
  now apply addDependencies_total.
Qed.

End Termination.

Lemma taskDependenciesOf_report (graph : KnowledgeGraph) (taskName : string) (depth : Z)
    (task : Entity.t) (m : DependencyMap) :
  findTyped graph taskName "task" = Some task ->
  buildDependencyMap graph depth (enoughFuel depth) task = Some (Ok m) ->
  taskDependenciesOf graph taskName depth = reportDependencies graph taskName depth task m.
Proof.
  intros Hfind Hmap. unfold taskDependenciesOf. now rewrite Hfind, Hmap.
Qed.

(* ================================================================== *)
(** * Critical path: termination *)
(* ================================================================== *)

Lemma foldO_total {A S} (body : S -> A -> option S) (xs : list A) :
  (forall s x, In x xs -> body s x <> None) -> forall s, foldO body xs s <> None.
Proof.
  induction xs as [|x xs IH]; intros Hbody s; simpl; [discriminate|].
  pose proof (Hbody s x (or_introl eq_refl)) as Hx.
  destruct (body s x) as [s'|]; [|congruence].
  apply IH. intros s0 y Hy. apply Hbody. now right.
Qed.

Lemma filter_length_lt {A} (p p' : A -> bool) (l : list A) (c : A) :
  (forall x, p' x = true -> p x = true) ->
  In c l -> p c = true -> p' c = false ->
  (List.length (filter p' l) < List.length (filter p l))%nat.
Proof.
  intros Himp. induction l as [|x l IH]; simpl; [tauto|].
  intros [-> | Hin] Hp Hp'.
  - rewrite Hp, Hp'. simpl.
    assert (List.length (filter p' l) <= List.length (filter p l))%nat; [|lia].
    clear IH. induction l as [|y l IHl]; simpl; [lia|].
    destruct (p' y) eqn:Hy; [rewrite (Himp y Hy); simpl; lia|].
    destruct (p y); simpl; lia.
  - specialize (IH Hin Hp Hp').
    destruct (p' x) eqn:Hx; [rewrite (Himp x Hx); simpl; lia|].
    destruct (p x); simpl; lia.
Qed.

Lemma array_includes_app (l : list string) (c x : string) :
  JS.array_includes (l ++ [c]) x = orb (JS.array_includes l x) (String.eqb x c).
Proof.
  unfold JS.array_includes. rewrite existsb_app. simpl. now rewrite orb_false_r.
Qed.

Lemma remaining_revisit (nodes path : list string) (c : string) :
  JS.array_includes path c = true ->
  remaining nodes (path ++ [c]) = remaining nodes path.
Proof.
  intros Hc. unfold remaining. f_equal. apply filter_ext. intros v.
  rewrite array_includes_app.
  destruct (String.eqb v c) eqn:Hv; [|now rewrite orb_false_r].
  apply String.eqb_eq in Hv. subst v. now rewrite Hc.
Qed.

Lemma remaining_visit (nodes path : list string) (c : string) :
  In c nodes ->
  JS.array_includes path c = false ->
  (remaining nodes (path ++ [c]) < remaining nodes path)%nat.
Proof.
  intros Hin Hc. unfold remaining. apply filter_length_lt with (c := c).
  - intros v. rewrite array_includes_app.
    destruct (JS.array_includes path v); simpl; [discriminate | reflexivity].
  - exact Hin.
  - now rewrite Hc.
  - rewrite array_includes_app, String.eqb_refl. now rewrite orb_true_r.
Qed.

(** The nested calls of [findPaths] are bounded by the measure, whatever
    the adjacency lists hold within [nodes] (cycles and self-loops
    included). *)
Lemma findPaths_total (adjacencyList : list (string * list string))
    (endNodes nodes : list string) :
  (forall k n, In n (adjacent adjacencyList k) -> In n nodes) ->
  forall fuel current path allPaths,
    In current nodes ->
    (pathMeasure nodes current path < fuel)%nat ->
    findPaths adjacencyList endNodes fuel current path allPaths <> None.
Proof.
  intros Hadj. induction fuel as [|fuel IH]; intros current path allPaths Hcur Hfuel;
    [lia|].
  cbn [findPaths].
  destruct (JS.array_includes endNodes current); [discriminate|].
  apply foldO_total. intros acc next Hnext.
  destruct (JS.array_includes path next) eqn:Hseen; cbn [negb]; [discriminate|].
  apply IH; [exact (Hadj _ _ Hnext)|].
  unfold pathMeasure in *.
  rewrite array_includes_app, Hseen. cbn [orb].
  destruct (JS.array_includes path current) eqn:Hrev.
  - rewrite remaining_revisit by assumption.
    destruct (String.eqb next current) eqn:Heq; [|lia].
    apply String.eqb_eq in Heq. subst next. congruence.
  - pose proof (remaining_visit nodes path current Hcur Hrev).
    destruct (String.eqb next current); lia.
Qed.

Lemma map_get_set {V} (m : list (string * V)) (k k' : string) (v : V) :
  map_get (map_set m k v) k' = if String.eqb k k' then Some v else map_get m k'.
Proof.
  induction m as [|[k0 v0] m IH]; simpl.
  - reflexivity.
  - destruct (String.eqb k0 k) eqn:H0; simpl.
    + apply String.eqb_eq in H0. subst k0. now destruct (String.eqb k k').
    + destruct (String.eqb k0 k') eqn:H1; [|exact IH].
      apply String.eqb_eq in H1. subst k0. now rewrite String.eqb_sym, H0.
Qed.

Lemma adjacent_set {V} (m : list (string * list V)) (k k' : string) (l : list V) :
  adjacent (map_set m k l) k' = if String.eqb k k' then l else adjacent m k'.
Proof.
  unfold adjacent. rewrite map_get_set. now destruct (String.eqb k k').
Qed.

(** Every successor recorded by [buildAdjacency] is one of the tasks. *)
Lemma buildAdjacency_nodes (dependencies : list Dependency.t) (k n : string) :
  In n (adjacent (buildAdjacency dependencies) k) ->
  In n (map (fun dep => Entity.name (Dependency.task dep)) dependencies).
Proof.
  unfold buildAdjacency.
  set (nodes := map (fun dep => Entity.name (Dependency.task dep)) dependencies).
  set (within := fun adj : list (string * list string) =>
                   forall k n, In n (adjacent adj k) -> In n nodes).
  assert (Hinit : forall deps adj,
             within adj ->
             within (fold_left
                       (fun adj dep => map_set adj (Entity.name (Dependency.task dep)) [])
                       deps adj)).
  { induction deps as [|dep deps IH]; intros adj Hadj; simpl; [exact Hadj|].
    apply IH. intros k0 n0. rewrite adjacent_set.
    destruct (String.eqb _ k0); [contradiction | apply Hadj]. }
  assert (Hinner : forall name, In name nodes ->
             forall ds adj,
               within adj ->
               within (fold_left
                         (fun adj' dependsOn =>
                            map_set adj' dependsOn (adjacent adj' dependsOn ++ [name]))
                         ds adj)).
  { intros name Hname. induction ds as [|d ds IH]; intros adj Hadj; simpl; [exact Hadj|].
    apply IH. intros k0 n0. rewrite adjacent_set.
    destruct (String.eqb d k0); [|apply Hadj].
    intros Hn0. apply in_app_iff in Hn0. destruct Hn0 as [Hn0 | [<- | []]];
      [exact (Hadj _ _ Hn0) | exact Hname]. }
  assert (Houter : forall deps, incl deps dependencies ->
             forall adj,
               within adj ->
               within (fold_left
                         (fun adj dep =>
                            fold_left
                              (fun adj' dependsOn =>
                                 map_set adj' dependsOn
                                   (adjacent adj' dependsOn
                                    ++ [Entity.name (Dependency.task dep)]))
                              (Dependency.dependsOn dep) adj)
                         deps adj)).
  { induction deps as [|dep deps IH]; intros Hincl adj Hadj; simpl; [exact Hadj|].
    apply IH; [intros x Hx; apply Hincl; now right|].
    apply Hinner; [|exact Hadj].
    unfold nodes. apply in_map_iff. exists dep. split; [reflexivity|].
    apply Hincl. now left. }
  intros Hin. revert k n Hin. fold within.
  apply Houter; [apply incl_refl|]. apply Hinit.
  intros k0 n0 [].
Qed.

(** [calculateCriticalPath] always comes to an end. *)
Lemma calculateCriticalPath_total (dependencies : list Dependency.t) :
  calculateCriticalPath dependencies <> None.
Proof.
  unfold calculateCriticalPath.
  set (nodes := map (fun dep => Entity.name (Dependency.task dep)) dependencies).
  match goal with
  | |- context [foldO ?body ?starts []] =>
      assert (Hloop : foldO body starts [] <> None)
  end.
  { apply foldO_total. intros acc start Hstart.
    apply findPaths_total with (nodes := nodes).
    - apply buildAdjacency_nodes.
    - apply in_map_iff in Hstart. destruct Hstart as [dep [<- Hdep]].
      apply filter_In in Hdep. unfold nodes. apply in_map_iff.
      exists dep. split; [reflexivity | tauto].
    - unfold pathMeasure, remaining. cbn [JS.array_includes existsb negb].
      pose proof (filter_length_le (fun _ : string => true) nodes) as Hle.
      unfold nodes in Hle at 2. rewrite length_map in Hle. lia. }
  destruct (foldO _ _ []) as [allPaths|]; [|congruence].
  destruct (sortBy _ allPaths); discriminate.
Qed.

(** [getTaskDependencies] returns or throws on every file content, task
    name and depth: no run is cut by the fuel bounds of the model. *)
Lemma getTaskDependencies_total (taskName : string) (depth : Z) (st : Store) :
  getTaskDependencies taskName depth st <> None.
Proof.
  unfold getTaskDependencies, taskDependenciesOf.
  destruct (findTyped (stored st) taskName "task") as [task|]; [|discriminate].
  pose proof (buildDependencyMap_total (stored st) depth task) as Hmap.
  destruct (buildDependencyMap (stored st) depth (enoughFuel depth) task)
    as [[m|msg]|]; simpl; [|discriminate|congruence].
  unfold reportDependencies.
  pose proof (calculateCriticalPath_total
                (sortBy (fun a b => (Dependency.level a - Dependency.level b)%Z)
                        (map (fun kv => serialize (stored st) (snd kv)) m))) as Hpath.
  destruct (calculateCriticalPath _); [discriminate | congruence].
Qed.

(* ================================================================== *)
(** * Critical path on the diamond *)
(* ================================================================== *)

(** On the diamond no expansion goes below level 2, so from depth 2 on
    the depth bound plays no part in the dependency map. *)
Lemma diamond_map_any_depth (taskName : string) (depth : Z) :
  In taskName ["A"; "B"; "C"; "D"] ->
  (2 <= depth)%Z ->
  buildDependencyMap diamondGraph depth 4 (taskNamed taskName)
  = buildDependencyMap diamondGraph 2 4 (taskNamed taskName).
Proof.
  intros Hname Hdepth.
  destruct depth as [|p|p]; try lia.
  assert (Hp : (2 <= p)%positive) by lia.
  simpl in Hname.
  destruct p as [[q|q|]|[q|q|]|]; try lia;
    repeat (destruct Hname as [Hname | Hname]; [subst taskName; vm_compute; reflexivity|]);
    contradiction.
Qed.

(** C7.  On the diamond (B and C depend on A, D depends on B and on C),
    whichever of the four tasks [getTaskDependencies] is called on and
    whatever the depth from the default 2 upwards, the call returns and
    its critical path has three elements: "A" first, "D" last, and "B"
    or "C" in between. *)
Theorem diamond_critical_path (taskName : string) (depth : Z) :
  In taskName ["A"; "B"; "C"; "D"] ->
  (defaultDepth <= depth)%Z ->
  exists r middle,
    getTaskDependencies taskName depth (Some diamondGraph) = Some (Ok r) /\
    TaskDependencies.criticalPath r = ["A"; middle; "D"] /\
    (middle = "B" \/ middle = "C").
Proof.
  unfold defaultDepth. intros Hname Hdepth.
  pose proof (diamond_map_any_depth taskName depth Hname Hdepth) as Hmap.
  assert (Hfuel : (4 <= enoughFuel depth)%nat) by (unfold enoughFuel; lia).
  unfold getTaskDependencies. cbn [stored].
  simpl in Hname.
  destruct Hname as [Hname | [Hname | [Hname | [Hname | []]]]]; subst taskName;
    match type of Hmap with
    | _ = ?rhs =>
        let v := eval vm_compute in rhs in
        change rhs with v in Hmap
    end;
    apply (buildDependencyMap_more_fuel _ _ _ _ _ _ Hfuel) in Hmap;
    match goal with
    | |- context [taskDependenciesOf _ ?n _] =>
        rewrite (taskDependenciesOf_report diamondGraph n depth (taskNamed n) _
                   eq_refl Hmap)
    end;
    eexists; eexists; (split; [vm_compute; reflexivity|]);
    (split; [reflexivity|]); auto.
Qed.

Lemma diamond_critical_path_witness :
  In "D" ["A"; "B"; "C"; "D"] /\
  (defaultDepth <= 2)%Z /\
  exists r middle,
    getTaskDependencies "D" 2 (Some diamondGraph) = Some (Ok r) /\
    TaskDependencies.criticalPath r = ["A"; middle; "D"] /\
    (middle = "B" \/ middle = "C").
Proof.
  assert (Hname : In "D" ["A"; "B"; "C"; "D"]) by (simpl; tauto).
  assert (Hdepth : (defaultDepth <= 2)%Z) by (unfold defaultDepth; lia).
  split; [exact Hname|]. split; [exact Hdepth|].
  exact (diamond_critical_path "D" 2 Hname Hdepth).
Defined.

(** Below the default depth the expansion can stop short of a task it
    is about to link: from "D" at depth 1, "A" would be entered at level
    2; it is never stored, and reading its [dependedOnBy] throws. *)
Example diamond_depth_one :
  getTaskDependencies "D" 1 (Some diamondGraph)
  = Some (Throw (TypeError_undefined "dependedOnBy")).
Proof. vm_compute. reflexivity. Qed.

(* ================================================================== *)
(** * Dependency resolver on two tasks depending on each other *)
(* ================================================================== *)


Section VisitSteps.

Variable graph : KnowledgeGraph.
Variable rec : Entity.t -> Z -> Direction -> DependencyMap -> R DependencyMap.
Variables (taskEntity : Entity.t) (currentLevel : Z) (m : DependencyMap).
Variable relation : Relation.t.






End VisitSteps.

Section Cyclic.

Variable depth : Z.


End Cyclic.

Lemma filter_nil {A} (p : A -> bool) (l : list A) :
  (forall x, In x l -> p x = false) -> filter p l = [].
Proof.
  induction l as [|x l IH]; simpl; intros H; [reflexivity|].
  rewrite (H x (or_introl eq_refl)). apply IH. intros y Hy. apply H. now right.
Qed.



(** At the default depth the expansion from "A" visits "B" at level 1,
    "A" again at level 2 and stops at level 3; "B" is pushed onto the
    [dependsOn] of "A" once per visit of "A". *)
Example cyclic_default_depth :
  exists r,
    getTaskDependencies "A" defaultDepth (Some cyclicGraph) = Some (Ok r) /\
    map (fun d => (Entity.name (Dependency.task d), Dependency.level d,
                   Dependency.dependsOn d, Dependency.dependedOnBy d))
        (TaskDependencies.dependencies r)
    = [ ("A", 0%Z, ["B"; "B"], ["B"]); ("B", 1%Z, ["A"], ["A"]) ] /\
    TaskDependencies.criticalPath r = [].
Proof. eexists. split; [vm_compute; reflexivity|]. split; reflexivity. Qed.



(* ================================================================== *)
(** * Project health *)
(* ================================================================== *)




(** When both dates parse the ninth factor can be 30: the same empty
    project, read in June 2024 with its dates understood, is behind
    schedule and scores [round(430 / 9) = 48]. *)
Example projectHealth_behind_schedule :
  exists report,
    getProjectHealth twoDates 1718000000000 "P2" plannedStore = (Ok report, plannedStore) /\
    Health.behindSchedule report = true /\
    Health.healthScore report = 48%Z /\
    Health.healthStatus report = "at_risk".
Proof. eexists. split; [vm_compute; reflexivity|]. repeat split. Qed.

(* ================================================================== *)
(** * Resource allocation *)
(* ================================================================== *)

(** The three cases of the usage formula. *)
Lemma usage_with_capacity (capacity : option string) (totalTasks inProgressTasks : nat) :
  JS.truthy capacity = true ->
  usagePercentageOf capacity totalTasks inProgressTasks
  = Num.min (Num.ofQ (inject_Z 100))
      (Num.round
         (Num.mul (Num.div (Num.ofNat inProgressTasks)
                           (Num.parseInt (JS.or_else capacity "")))
                  (Num.ofQ (inject_Z 100)))).
Proof.
  destruct capacity as [[|c s]|]; simpl; intros H; try discriminate. reflexivity.
Qed.

Lemma usage_without_capacity (capacity : option string) (totalTasks inProgressTasks : nat) :
  JS.truthy capacity = false ->
  usagePercentageOf capacity totalTasks inProgressTasks
  = if (0 <? totalTasks)%nat then Num.ofQ (inject_Z 50) else Num.Zero false.
Proof.
  destruct capacity as [[|c s]|]; simpl; intros H; try discriminate; reflexivity.
Qed.

Lemma usage_unparseable_capacity (capacity : option string)
    (totalTasks inProgressTasks : nat) :
  JS.truthy capacity = true ->
  Num.parseInt (JS.or_else capacity "") = Num.NaN ->
  usagePercentageOf capacity totalTasks inProgressTasks = Num.NaN.
Proof.
  intros Htruthy Hnan. rewrite usage_with_capacity by assumption. rewrite Hnan.
  unfold Num.ofNat. now destruct (Num.ofQ (inject_Z (Z.of_nat inProgressTasks))).
Qed.

(** Three of eight is 37.5, reported as 38; five of two is capped. *)
Example usage_rounds_and_caps :
  usagePercentageOf (Some "8") 4 3 = Num.Fin (inject_Z 38) /\
  usagePercentageOf (Some "2") 6 5 = Num.Fin (inject_Z 100) /\
  usagePercentageOf None 6 5 = Num.Fin (inject_Z 50) /\
  usagePercentageOf None 0 0 = Num.Zero false.
Proof. repeat split. Qed.

Lemma Qle_bool_inject_Z (a b : Z) : Qle_bool (inject_Z a) (inject_Z b) = (a <=? b)%Z.
Proof. unfold Qle_bool, inject_Z. simpl. now rewrite !Z.mul_1_r. Qed.

(** With a capacity that [parseInt] reads as a non-zero integer the
    usage is the claimed [min(100, round(inProgress / capacity * 100))],
    computed on exact values. *)
Lemma usage_integer_capacity (capacity : option string) (c : Z)
    (totalTasks inProgressTasks : nat) :
  JS.truthy capacity = true ->
  Num.parseInt (JS.or_else capacity "") = Num.Fin (inject_Z c) ->
  c <> 0%Z ->
  Num.value (usagePercentageOf capacity totalTasks inProgressTasks)
  = inject_Z (Z.min 100 (Math_round ((inject_Z (Z.of_nat inProgressTasks) / inject_Z c * inject_Z 100)%Q))).
Proof.
  intros Htruthy Hparse Hc.
  rewrite usage_with_capacity by assumption. rewrite Hparse.
  unfold Math_round, Num.ofNat, Num.ofQ.
  change (Qeq_bool (inject_Z 100) 0) with false. cbv iota.
  destruct inProgressTasks as [|n].
  - (* nothing in progress: a zero, whose rounded percentage is 0 *)
    change (Qeq_bool (inject_Z (Z.of_nat 0)) 0) with true. cbv iota.
    cbn [Num.div Num.mul Num.round Num.min Num.ltb Num.value].
    change (Qle_bool (inject_Z 100) 0) with false. cbn [negb Num.value].
    replace (Qfloor (inject_Z (Z.of_nat 0) / inject_Z c * inject_Z 100 + (1 # 2)))
      with 0%Z; [reflexivity|].
    destruct c as [|p|p]; [congruence| |]; unfold Qfloor, Qdiv, Qinv, Qmult, Qplus; simpl;
      symmetry; apply Z.div_small; lia.
  - assert (Hn : Qeq_bool (inject_Z (Z.of_nat (S n))) 0 = false).
    { unfold Qeq_bool, inject_Z. simpl. reflexivity. }
    rewrite Hn. cbn [Num.div Num.mul Num.round].
    set (z := Qfloor (inject_Z (Z.of_nat (S n)) / inject_Z c * inject_Z 100 + (1 # 2))).
    destruct (z =? 0)%Z eqn:Hz.
    + apply Z.eqb_eq in Hz. rewrite Hz.
      cbn [Num.min Num.ltb Num.value].
      change (Qle_bool (inject_Z 100) 0) with false. reflexivity.
    + cbn [Num.min Num.ltb Num.value]. rewrite Qle_bool_inject_Z.
      destruct (100 <=? z)%Z eqn:Hcap; cbn [negb Num.value].
      * apply Z.leb_le in Hcap. now rewrite Z.min_l.
      * apply Z.leb_gt in Hcap. rewrite Z.min_r by lia. reflexivity.
Qed.

(** With no task at all the usage is zero, of either sign, whenever the
    capacity is missing or read by [parseInt] as a non-zero number. *)
Lemma usage_idle_zero (capacity : option string) :
  JS.truthy capacity = false \/
  (exists q, Num.parseInt (JS.or_else capacity "") = Num.Fin q) ->
  isZero (usagePercentageOf capacity 0 0) = true.
Proof.
  intros [Hnone | [q Hq]].
  - now rewrite usage_without_capacity.
  - destruct (JS.truthy capacity) eqn:Htruthy.
    + rewrite usage_with_capacity by assumption. rewrite Hq. reflexivity.
    + now rewrite usage_without_capacity.
Qed.

(** C9 (the code departs from it).  Claim: the usage is the capped,
    rounded ratio when the capacity is a parseable integer, else 50 with
    at least one assigned task, else 0.  On the code the fallback is
    taken only when the capacity is missing or empty: the resource
    "Lathe", linked [part_of] "P1" with the observation "Capacity: lots"
    and no assigned task, is reported with usage NaN, not 0. *)
Theorem allocation_of_unparseable_capacity :
  exists report a,
    getResourceAllocation noDates "P1" None workshopStore = (Ok report, workshopStore) /\
    Allocation.resources report = [a] /\
    Entity.name (Allocation.resource a) = "Lathe" /\
    Allocation.capacity (Allocation.info_ a) = Some "lots" /\
    Num.parseInt "lots" = Num.NaN /\
    Allocation.assignedTasks a = [] /\
    Allocation.usagePercentage (Allocation.usage_ a) = Num.NaN.
Proof.
  eexists. eexists. split; [vm_compute; reflexivity|]. repeat split.
Qed.

(** ** Graphs built by the manager *)

Lemma requires_uses_not_valid :
  JS.array_includes VALID_RELATION_TYPES "requires" = false /\
  JS.array_includes VALID_RELATION_TYPES "uses" = false.
Proof. split; reflexivity. Qed.

(** [createRelations] refuses every batch holding a relation of type
    "requires" or "uses". *)
Lemma createRelations_rejects_requires_uses (st : Store) (batch : list Relation.t)
    (relation : Relation.t) :
  In relation batch ->
  Relation.relationType relation = "requires" \/ Relation.relationType relation = "uses" ->
  exists msg, createRelations batch st = (Throw msg, st).
Proof.
  intros Hin Hty. apply (createRelations_throws st batch relation Hin).
  right. right. left. destruct Hty as [-> | ->]; reflexivity.
Qed.

Lemma Forall_filter {A} (P : A -> Prop) (p : A -> bool) (l : list A) :
  Forall P l -> Forall P (filter p l).
Proof.
  intros H. apply Forall_forall. intros x Hx. apply filter_In in Hx.
  rewrite Forall_forall in H. now apply H.
Qed.

(** Every mutating call keeps the relation types within the closed
    set. *)
Lemma perform_validTypes (c : Call) (st : Store) :
  validTypes (stored st) -> validTypes (stored (perform c st)).
Proof.
  intros Hvalid. unfold validTypes in *.
  destruct c; cbn [perform].
  - unfold initializeStatusAndPriority, bind, saveGraph. now rewrite stored_load.
  - destruct (createEntities batch st) as [[g|msg] st'] eqn:Hrun.
    + apply createEntities_accepted in Hrun. destruct Hrun as [-> [-> _]]. exact Hvalid.
    + unfold createEntities, bind, lift in Hrun. rewrite stored_load in Hrun.
      destruct (for_of batch _) as [[]|msg']; inversion Hrun; subst; exact Hvalid.
  - destruct (createRelations batch st) as [[g|msg] st'] eqn:Hrun.
    + apply createRelations_accepted in Hrun. destruct Hrun as [-> [-> Hbatch]].
      cbn [snd stored relations]. apply Forall_app. split; [exact Hvalid|].
      eapply Forall_impl; [|exact Hbatch]. intros r [_ Hr]. exact Hr.
    + unfold createRelations, bind, lift in Hrun. rewrite stored_load in Hrun.
      destruct (for_of batch _) as [[]|msg']; inversion Hrun; subst; exact Hvalid.
  - unfold addObservations, bind. rewrite stored_load.
    destruct (findEntity (stored st) entityName); exact Hvalid.
  - unfold deleteEntities, bind, saveGraph. rewrite stored_load.
    cbn [snd stored relations]. now apply Forall_filter.
  - unfold deleteObservations, bind, saveGraph. now rewrite stored_load.
  - unfold deleteRelations, bind, saveGraph. rewrite stored_load.
    cbn [snd stored relations]. now apply Forall_filter.
  - unfold setEntityStatus.
    destruct (negb _); [exact Hvalid|].
    unfold bind, saveGraph. rewrite stored_load. cbn [snd stored relations].
    apply Forall_app. split; [now apply Forall_filter|].
    constructor; [|constructor]. cbn. tauto.
  - unfold setEntityPriority.
    destruct (negb _); [exact Hvalid|].
    unfold bind, saveGraph. rewrite stored_load. cbn [snd stored relations].
    apply Forall_app. split; [now apply Forall_filter|].
    constructor; [|constructor]. cbn. tauto.
Qed.

Lemma reachable_validTypes (st : Store) : reachable st -> validTypes (stored st).
Proof.
  intros [calls ->]. unfold run.
  assert (Hstart : validTypes (stored None)) by constructor.
  revert Hstart. generalize (@None KnowledgeGraph) as st.
  induction calls as [|c calls IH]; intros st Hst; simpl; [exact Hst|].
  apply IH. now apply perform_validTypes.
Qed.

Lemma sourcesOf_none (graph : KnowledgeGraph) (relationType entityType target : string)
    (rels : list Relation.t) :
  Forall (fun r => In (Relation.relationType r) VALID_RELATION_TYPES) rels ->
  JS.array_includes VALID_RELATION_TYPES relationType = false ->
  sourcesOf graph relationType entityType target rels = [].
Proof.
  intros Hvalid Hty. induction Hvalid as [|r rels Hr _ IH]; simpl; [reflexivity|].
  destruct (String.eqb (Relation.relationType r) relationType) eqn:Heq; simpl;
    [|exact IH].
  apply String.eqb_eq in Heq. subst relationType.
  apply array_includes_In in Hr. congruence.
Qed.

Lemma In_insertSorted {A} (cmp : A -> A -> Z) (x y : A) (l : list A) :
  In y (insertSorted cmp x l) -> y = x \/ In y l.
Proof.
  induction l as [|z l IH]; simpl.
  - intros [H | []]; auto.
  - destruct (cmp x z <? 0)%Z; simpl.
    + intros [H | [H | H]]; auto.
    + intros [H | H]; auto. apply IH in H. tauto.
Qed.

(** Sorting brings in no element. *)
Lemma In_sortBy {A} (cmp : A -> A -> Z) (y : A) (l : list A) :
  In y (sortBy cmp l) -> In y l.
Proof.
  unfold sortBy.
  assert (Hgen : forall acc,
             In y (fold_left (fun sorted x => insertSorted cmp x sorted) l acc) ->
             In y acc \/ In y l).
  { induction l as [|x l IH]; intros acc; simpl; [auto|].
    intros H. apply IH in H. destruct H as [H | H]; [|auto].
    apply In_insertSorted in H. destruct H as [-> | H]; auto. }
  intros H. apply Hgen in H. destruct H as [[] | H]. exact H.
Qed.

Lemma allocationsOf_In (Date_parse : string -> option Z) (graph : KnowledgeGraph)
    (resources : list Entity.t) (l : list Allocation.t) (a : Allocation.t) :
  allocationsOf Date_parse graph resources = Ok l ->
  In a l ->
  exists resource, In resource resources /\ allocationOf Date_parse graph resource = Ok a.
Proof.
  revert l. induction resources as [|resource rest IH]; intros l; simpl.
  - intros H. inversion H; subst. contradiction.
  - destruct (allocationOf Date_parse graph resource) as [a0|msg] eqn:Hone; [|discriminate].
    destruct (allocationsOf Date_parse graph rest) as [l0|msg]; [|discriminate].
    intros H Hin. inversion H; subst. destruct Hin as [<- | Hin].
    + exists resource. auto.
    + destruct (IH l0 eq_refl Hin) as [r [Hr Ha]]. exists r. auto.
Qed.

(** Without relations of type "requires" or "uses" a resource has no
    assigned task and no team member, and its usage is the formula at
    zero tasks. *)
Lemma allocationOf_idle (Date_parse : string -> option Z) (graph : KnowledgeGraph)
    (resource : Entity.t) (a : Allocation.t) :
  validTypes graph ->
  allocationOf Date_parse graph resource = Ok a ->
  Allocation.assignedTasks a = [] /\
  Allocation.teamMembers a = [] /\
  Allocation.totalTasks (Allocation.usage_ a) = 0%nat /\
  Allocation.inProgressTasks (Allocation.usage_ a) = 0%nat /\
  Allocation.usagePercentage (Allocation.usage_ a)
  = usagePercentageOf (Allocation.capacity (Allocation.info_ a)) 0 0.
Proof.
  intros Hvalid. unfold allocationOf.
  rewrite !(sourcesOf_none graph _ _ _ _ Hvalid) by reflexivity.
  cbn. intros H. inversion H; subst. cbn. repeat split.
Qed.

(** What the claim C10 describes, as far as the code goes: in a file
    produced by the manager, every reported resource has no assigned
    task, no team member and no task in progress; its usage is zero when
    it declares no capacity, and is the formula at zero tasks
    otherwise. *)
Lemma allocation_of_reachable (Date_parse : string -> option Z) (st st' : Store)
    (projectName : string) (resourceName : option string)
    (report : Allocation.report) (a : Allocation.t) :
  reachable st ->
  getResourceAllocation Date_parse projectName resourceName st = (Ok report, st') ->
  In a (Allocation.resources report) ->
  Allocation.assignedTasks a = [] /\
  Allocation.teamMembers a = [] /\
  Allocation.inProgressTasks (Allocation.usage_ a) = 0%nat /\
  Allocation.usagePercentage (Allocation.usage_ a)
  = usagePercentageOf (Allocation.capacity (Allocation.info_ a)) 0 0 /\
  (JS.truthy (Allocation.capacity (Allocation.info_ a)) = false ->
   Allocation.usagePercentage (Allocation.usage_ a) = Num.Zero false).
Proof.
  intros Hreach Hrun Hin. apply reachable_validTypes in Hreach.
  unfold getResourceAllocation, bind, lift, ret in Hrun. rewrite stored_load in Hrun.
  destruct (findTyped (stored st) projectName "project"); [|discriminate].
  destruct (andb (JS.truthy resourceName) _); [discriminate|].
  destruct (allocationsOf Date_parse (stored st) _) as [allocations|msg] eqn:Hall;
    [|discriminate].
  inversion Hrun; subst. cbn [Allocation.resources] in Hin.
  apply In_sortBy in Hin.
  destruct (allocationsOf_In _ _ _ _ _ Hall Hin) as [resource [_ Hone]].
  destruct (allocationOf_idle _ _ _ _ Hreach Hone) as [Ht [Hm [_ [Hp Hu]]]].
  repeat split; try assumption.
  intros Hcap. rewrite Hu. now rewrite usage_without_capacity.
Qed.

(** C10 (the code departs from its last part).  "requires" and "uses"
    are outside [VALID_RELATION_TYPES]; in the file built by creating
    the project "P1" and the resource "Press" (observation
    "Capacity: 0") and linking them through [createRelations], the
    resource is reported with no assigned task, no team member and no
    task in progress, as claimed, but with usage NaN (0 / 0), not 0. *)
Theorem idle_resource_usage_not_zero :
  JS.array_includes VALID_RELATION_TYPES "requires" = false /\
  JS.array_includes VALID_RELATION_TYPES "uses" = false /\
  reachable idleStore /\
  exists report a,
    getResourceAllocation noDates "P1" None idleStore = (Ok report, idleStore) /\
    Allocation.resources report = [a] /\
    Allocation.assignedTasks a = [] /\
    Allocation.teamMembers a = [] /\
    Allocation.inProgressTasks (Allocation.usage_ a) = 0%nat /\
    Allocation.usagePercentage (Allocation.usage_ a) = Num.NaN /\
    isZero (Allocation.usagePercentage (Allocation.usage_ a)) = false.
Proof.
  split; [reflexivity|]. split; [reflexivity|].
  split; [exists idleCalls; reflexivity|].
  eexists. eexists. split; [vm_compute; reflexivity|]. repeat split.
Qed.

(* ================================================================== *)
(** * Further properties of the graph store *)
(* ================================================================== *)

(** X1.  [createEntities] rejects a whole batch: if any entity of it
    bears a name the graph already has, or a type outside
    [validEntityTypes], the call throws and the file is left as it was;
    no entity of the batch is saved. *)
Theorem createEntities_rejects_whole_batch (st : Store) (batch : list Entity.t) :
  (exists entity,
      In entity batch /\
      (hasEntity (stored st) (Entity.name entity) = true \/
       isValidEntityType (Entity.entityType entity) = false)) ->
  exists msg, createEntities batch st = (Throw msg, st).
Proof.
  intros [entity [Hin Hbad]].
  unfold createEntities, bind, lift. rewrite stored_load.
  match goal with
  | |- context [for_of batch ?b] =>
      destruct (for_of_Throw batch b entity Hin) as [msg Hmsg]
  end.
  - cbv beta. unfold validateEntityType.
    destruct (hasEntity (stored st) (Entity.name entity)) eqn:Hname; [eauto|].
    destruct (isValidEntityType (Entity.entityType entity)) eqn:Hty; [|eauto].
    destruct Hbad; discriminate.
  - rewrite Hmsg. now exists msg.
Qed.

Lemma createEntities_rejects_whole_batch_witness :
  (exists entity,
      In entity [taskNamed "T1"; Entity.mk "T2" "epic" [] None] /\
      (hasEntity (stored workshopStore) (Entity.name entity) = true \/
       isValidEntityType (Entity.entityType entity) = false)) /\
  exists msg,
    createEntities [taskNamed "T1"; Entity.mk "T2" "epic" [] None] workshopStore
    = (Throw msg, workshopStore).
Proof.
  assert (H : exists entity,
             In entity [taskNamed "T1"; Entity.mk "T2" "epic" [] None] /\
             (hasEntity (stored workshopStore) (Entity.name entity) = true \/
              isValidEntityType (Entity.entityType entity) = false)).
  { exists (Entity.mk "T2" "epic" [] None). split.
    - right. left. reflexivity.
    - right. reflexivity. }
  split; [exact H|].
  exact (createEntities_rejects_whole_batch workshopStore _ H).
Defined.

(** X2.  Name uniqueness is kept by [createEntities] for batches whose
    own names are pairwise distinct: if names are unique in the stored
    graph, so they are in the saved one, each name of the batch
    occurring exactly once; and every saved entity of the batch has a
    valid type. *)
Theorem createEntities_distinct_batch (batch : list Entity.t) (st st' : Store)
    (g : KnowledgeGraph) :
  uniqueNames (stored st) ->
  NoDup (map Entity.name batch) ->
  createEntities batch st = (Ok g, st') ->
  uniqueNames g /\
  (forall e, In e batch -> countNamed g (Entity.name e) = 1%nat) /\
  (forall e, In e batch -> isValidEntityType (Entity.entityType e) = true).
Proof.
  intros Hu Hb Hrun.
  destruct (createEntities_keeps_unique batch st st' g Hu Hb Hrun) as [Hug Hone].
  split; [exact Hug|]. split; [exact Hone|].
  unfold createEntities, bind, lift in Hrun. rewrite stored_load in Hrun.
  destruct (for_of batch _) as [[]|msg] eqn:Hloop; [|discriminate].
  apply for_of_Ok in Hloop. rewrite Forall_forall in Hloop.
  intros e He. specialize (Hloop e He). cbv beta in Hloop.
  destruct (hasEntity (stored st) (Entity.name e)); [discriminate|].
  unfold validateEntityType in Hloop.
  now destruct (isValidEntityType (Entity.entityType e)).
Qed.

Lemma createEntities_distinct_batch_witness :
  uniqueNames (stored None) /\
  NoDup (map Entity.name [taskNamed "A"; taskNamed "B"]) /\
  uniqueNames (mkGraph [taskNamed "A"; taskNamed "B"] []) /\
  (forall e, In e [taskNamed "A"; taskNamed "B"] ->
             countNamed (mkGraph [taskNamed "A"; taskNamed "B"] []) (Entity.name e) = 1%nat) /\
  (forall e, In e [taskNamed "A"; taskNamed "B"] ->
             isValidEntityType (Entity.entityType e) = true).
Proof.
  assert (Hu : uniqueNames (stored None)) by constructor.
  assert (Hb : NoDup (map Entity.name [taskNamed "A"; taskNamed "B"])).
  { cbn. constructor.
    - intros [H | []]. discriminate.
    - constructor; [intros [] | constructor]. }
  split; [exact Hu|]. split; [exact Hb|].
  exact (createEntities_distinct_batch [taskNamed "A"; taskNamed "B"] None _ _
           Hu Hb eq_refl).
Defined.

Lemma sameTriple_refl (r : Relation.t) : sameTriple r r = true.
Proof. unfold sameTriple. now rewrite !String.eqb_refl. Qed.

Lemma filter_all {A} (p : A -> bool) (l : list A) :
  (forall x, In x l -> p x = true) -> filter p l = l.
Proof.
  induction l as [|x l IH]; simpl; intros H; [reflexivity|].
  rewrite (H x (or_introl eq_refl)). f_equal. apply IH. intros y Hy. apply H. now right.
Qed.

(** An accepted batch repeats no triple of the stored graph. *)
Lemma createRelations_accepted_fresh (batch : list Relation.t) (st st' : Store)
    (g : KnowledgeGraph) :
  createRelations batch st = (Ok g, st') ->
  forall relation r,
    In relation batch -> In r (relations (stored st)) -> sameTriple r relation = false.
Proof.
  unfold createRelations, bind, lift. rewrite stored_load.
  destruct (for_of batch _) as [[]|msg] eqn:Hloop; [|discriminate].
  intros _ relation r Hin Hr.
  apply for_of_Ok in Hloop. rewrite Forall_forall in Hloop.
  specialize (Hloop relation Hin). cbv beta in Hloop.
  destruct (negb (hasEntity (stored st) (Relation.from relation))); [discriminate|].
  destruct (negb (hasEntity (stored st) (Relation.to relation))); [discriminate|].
  destruct (negb (JS.array_includes VALID_RELATION_TYPES _)); [discriminate|].
  destruct (existsb (fun r0 => sameTriple r0 relation) (relations (stored st))) eqn:Hdup;
    [discriminate|].
  destruct (sameTriple r relation) eqn:Hsame; [|reflexivity].
  assert (Hex : existsb (fun r0 => sameTriple r0 relation) (relations (stored st)) = true)
    by (apply existsb_exists; now exists r).
  congruence.
Qed.

(** X3.  Creating a batch of relations and then deleting the same batch
    restores the stored graph: [deleteRelations] removes every relation
    of the batch and nothing else, since an accepted batch repeats no
    triple of the graph. *)
Theorem createRelations_then_deleteRelations (batch : list Relation.t) (st st1 : Store)
    (g : KnowledgeGraph) :
  createRelations batch st = (Ok g, st1) ->
  deleteRelations batch st1 = (Ok tt, Some (stored st)).
Proof.
  intros Hrun.
  pose proof (createRelations_accepted_fresh batch st st1 g Hrun) as Hfresh.
  apply createRelations_accepted in Hrun. destruct Hrun as [-> [-> _]].
  unfold deleteRelations, bind, saveGraph. cbn [loadGraph entities relations].
  rewrite filter_app.
  rewrite (filter_all _ (relations (stored st))).
  - rewrite (filter_nil _ batch).
    + rewrite app_nil_r. now destruct (stored st).
    + intros r Hr. apply negb_false_iff. apply existsb_exists. exists r.
      split; [assumption | apply sameTriple_refl].
  - intros r Hr. apply negb_true_iff.
    destruct (existsb (fun rel => sameTriple r rel) batch) eqn:Hex; [|reflexivity].
    apply existsb_exists in Hex. destruct Hex as [rel [Hrel Hsame]].
    rewrite (Hfresh rel r Hrel Hr) in Hsame. discriminate.
Qed.

Lemma createRelations_then_deleteRelations_witness :
  createRelations [Relation.mk "Lathe" "P1" "related_to" None] workshopStore
  = (Ok (mkGraph (entities (stored workshopStore))
           (relations (stored workshopStore)
            ++ [Relation.mk "Lathe" "P1" "related_to" None])),
     Some (mkGraph (entities (stored workshopStore))
             (relations (stored workshopStore)
              ++ [Relation.mk "Lathe" "P1" "related_to" None]))) /\
  deleteRelations [Relation.mk "Lathe" "P1" "related_to" None]
    (Some (mkGraph (entities (stored workshopStore))
             (relations (stored workshopStore)
              ++ [Relation.mk "Lathe" "P1" "related_to" None])))
  = (Ok tt, Some (stored workshopStore)).
Proof.
  assert (Hrun : createRelations [Relation.mk "Lathe" "P1" "related_to" None] workshopStore
                 = (Ok (mkGraph (entities (stored workshopStore))
                          (relations (stored workshopStore)
                           ++ [Relation.mk "Lathe" "P1" "related_to" None])),
                    Some (mkGraph (entities (stored workshopStore))
                            (relations (stored workshopStore)
                             ++ [Relation.mk "Lathe" "P1" "related_to" None]))))
    by reflexivity.
  split; [exact Hrun|].
  exact (createRelations_then_deleteRelations _ _ _ _ Hrun).
Defined.

(** X4.  Creating a batch of entities and then deleting the names of
    the batch restores the stored graph, provided no relation of it
    dangles: the new names were absent, so no old entity and no old
    relation is hit by the cascade. *)
Theorem createEntities_then_deleteEntities (batch : list Entity.t) (st st1 : Store)
    (g : KnowledgeGraph) :
  selfConsistent (stored st) ->
  createEntities batch st = (Ok g, st1) ->
  deleteEntities (map Entity.name batch) st1 = (Ok tt, Some (stored st)).
Proof.
  intros Hcons Hrun.
  apply createEntities_accepted in Hrun. destruct Hrun as [-> [-> Hfresh]].
  rewrite Forall_forall in Hfresh.
  assert (Hnew : forall n, hasEntity (stored st) n = true ->
                           JS.array_includes (map Entity.name batch) n = false).
  { intros n Hn. apply array_includes_false. intros Hin.
    apply in_map_iff in Hin. destruct Hin as [e [<- He]].
    rewrite (Hfresh e He) in Hn. discriminate. }
  unfold deleteEntities, bind, saveGraph. cbn [loadGraph entities relations].
  rewrite filter_app.
  rewrite (filter_all _ (entities (stored st))).
  - rewrite (filter_nil _ batch).
    + rewrite app_nil_r. rewrite (filter_all _ (relations (stored st))).
      * now destruct (stored st).
      * intros r Hr. destruct (Hcons r Hr) as [Hf Ht].
        now rewrite (Hnew _ Hf), (Hnew _ Ht).
    + intros e He. apply negb_false_iff. apply array_includes_In. now apply in_map.
  - intros e He. apply negb_true_iff. apply Hnew. apply hasEntity_In. now apply in_map.
Qed.

Lemma createEntities_then_deleteEntities_witness :
  selfConsistent (stored workshopStore) /\
  deleteEntities (map Entity.name [taskNamed "T1"; taskNamed "T2"])
    (snd (createEntities [taskNamed "T1"; taskNamed "T2"] workshopStore))
  = (Ok tt, Some (stored workshopStore)).
Proof.
  assert (Hcons : selfConsistent (stored workshopStore)).
  { intros relation Hin. vm_compute in Hin.
    destruct Hin as [Hin | []]. subst relation. split; reflexivity. }
  split; [exact Hcons|].
  exact (createEntities_then_deleteEntities [taskNamed "T1"; taskNamed "T2"]
           workshopStore _ _ Hcons eq_refl).
Defined.

(** X5.  [deleteEntities] never throws and leaves no trace of a deleted
    name: no entity bears it, no relation starts or ends at it, and its
    status and priority read as [null]. *)
Theorem deleteEntities_leaves_no_trace (st : Store) (entityNames : list string)
    (n : string) :
  In n entityNames ->
  let st' := snd (deleteEntities entityNames st) in
  fst (deleteEntities entityNames st) = Ok tt /\
  hasEntity (stored st') n = false /\
  (forall r, In r (relations (stored st')) ->
             Relation.from r <> n /\ Relation.to r <> n) /\
  getEntityStatus n st' = (Ok Null, st') /\
  getEntityPriority n st' = (Ok Null, st').
Proof.
  intros Hn. unfold deleteEntities, bind, saveGraph. rewrite stored_load.
  cbn [fst snd stored entities relations].
  apply array_includes_In in Hn.
  assert (Hrels : forall r,
             In r (filter (fun r => andb (negb (JS.array_includes entityNames (Relation.from r)))
                                         (negb (JS.array_includes entityNames (Relation.to r))))
                          (relations (stored st))) ->
             Relation.from r <> n /\ Relation.to r <> n).
  { intros r Hr. apply filter_In in Hr. destruct Hr as [_ Hkeep].
    apply andb_true_iff in Hkeep. destruct Hkeep as [Hf Ht].
    split; intros Heq; rewrite Heq, Hn in *; discriminate. }
  assert (Hfind : forall kind,
             find (isKindOf kind n)
               (filter (fun r => andb (negb (JS.array_includes entityNames (Relation.from r)))
                                      (negb (JS.array_includes entityNames (Relation.to r))))
                       (relations (stored st))) = None).
  { intros kind. destruct (find _ _) as [r|] eqn:Hfind; [|reflexivity].
    apply find_some in Hfind. destruct Hfind as [Hr Hkind].
    destruct (Hrels r Hr) as [Hfrom _].
    unfold isKindOf in Hkind. apply andb_true_iff in Hkind.
    destruct Hkind as [Heq _]. apply String.eqb_eq in Heq. contradiction. }
  split; [reflexivity|]. split; [|split; [exact Hrels|]].
  - unfold hasEntity. cbn [entities].
    destruct (existsb _ _) eqn:Hex; [|reflexivity].
    apply existsb_exists in Hex. destruct Hex as [e [He Heq]].
    apply filter_In in He. destruct He as [_ Hkeep].
    apply String.eqb_eq in Heq. rewrite Heq, Hn in Hkeep. discriminate.
  - unfold getEntityStatus, getEntityPriority, getEntityValue, bind.
    cbn [loadGraph relations]. rewrite !Hfind. split; reflexivity.
Qed.

Lemma deleteEntities_leaves_no_trace_witness :
  In "ghost" ["ghost"; "nobody"] /\
  hasEntity (stored (snd (deleteEntities ["ghost"; "nobody"] ghostStore))) "ghost" = false /\
  getEntityStatus "ghost" (snd (deleteEntities ["ghost"; "nobody"] ghostStore))
  = (Ok Null, snd (deleteEntities ["ghost"; "nobody"] ghostStore)).
Proof.
  assert (Hin : In "ghost" ["ghost"; "nobody"]) by (now left).
  split; [exact Hin|].
  pose proof (deleteEntities_leaves_no_trace ghostStore ["ghost"; "nobody"] "ghost" Hin)
    as H.
  cbv zeta in H. destruct H as [_ [Hno [_ [Hstatus _]]]].
  split; [exact Hno | exact Hstatus].
Defined.

(* ================================================================== *)
(** * Observations *)
(* ================================================================== *)

Lemma find_updateFirst_same {A} (p : A -> bool) (f : A -> A) (l : list A) :
  (forall x, p x = true -> p (f x) = true) ->
  find p (updateFirst p f l) = option_map f (find p l).
Proof.
  intros Hf. induction l as [|x l IH]; simpl; [reflexivity|].
  destruct (p x) eqn:Hp; simpl.
  - now rewrite (Hf x Hp).
  - now rewrite Hp.
Qed.

Lemma find_updateFirst_other {A} (p q : A -> bool) (f : A -> A) (l : list A) :
  (forall x, p x = true -> q x = false /\ q (f x) = false) ->
  find q (updateFirst p f l) = find q l.
Proof.
  intros Hf. induction l as [|x l IH]; simpl; [reflexivity|].
  destruct (p x) eqn:Hp; simpl.
  - destruct (Hf x Hp) as [-> ->]. reflexivity.
  - now rewrite IH.
Qed.

Lemma updateFirst_twice {A} (p : A -> bool) (f g : A -> A) (l : list A) :
  (forall x, p x = true -> p (f x) = true) ->
  updateFirst p g (updateFirst p f l) = updateFirst p (fun x => g (f x)) l.
Proof.
  intros Hf. induction l as [|x l IH]; simpl; [reflexivity|].
  destruct (p x) eqn:Hp; simpl.
  - now rewrite (Hf x Hp).
  - now rewrite Hp, IH.
Qed.

Lemma updateFirst_fixed {A} (p : A -> bool) (f : A -> A) (l : list A) (x : A) :
  find p l = Some x -> f x = x -> updateFirst p f l = l.
Proof.
  induction l as [|y l IH]; simpl; [discriminate|].
  destruct (p y) eqn:Hp.
  - intros Hy Hx. injection Hy as ->. now rewrite Hx.
  - intros Hy Hx. now rewrite IH.
Qed.

Lemma filter_app_disjoint (obs old : list string) :
  (forall o, In o obs -> ~ In o old) ->
  filter (fun o => negb (JS.array_includes obs o)) (old ++ obs) = old.
Proof.
  intros Hdis. rewrite filter_app.
  rewrite (filter_all _ old), (filter_nil _ obs).
  - apply app_nil_r.
  - intros o Ho. apply negb_false_iff. now apply array_includes_In.
  - intros o Ho. apply negb_true_iff. apply array_includes_false.
    intros Hin. exact (Hdis o Hin Ho).
Qed.

(** X6.  [addObservations] on a name some entity bears returns the
    graph it saved, in which the first entity of that name carries its
    old observations followed by the new ones, in order; the lookup of
    every other name, the sequence of entity names and the relations are
    as before. *)
Theorem addObservations_appends (st : Store) (entityName : string) (obs : list string)
    (e : Entity.t) :
  findEntity (stored st) entityName = Some e ->
  exists g,
    addObservations entityName obs st = (Ok g, Some g) /\
    findEntity g entityName
    = Some (Entity.mk (Entity.name e) (Entity.entityType e)
              (Entity.observations e ++ obs) (Entity.embedding e)) /\
    (forall n, n <> entityName -> findEntity g n = findEntity (stored st) n) /\
    map Entity.name (entities g) = map Entity.name (entities (stored st)) /\
    relations g = relations (stored st).
Proof.
  intros Hfind. unfold addObservations, bind. rewrite stored_load, Hfind.
  eexists. split; [reflexivity|].
  unfold findEntity in *. cbn [entities relations].
  split; [|split; [|split; [|reflexivity]]].
  - rewrite find_updateFirst_same by (intros x Hx; exact Hx).
    now rewrite Hfind.
  - intros n Hn. apply find_updateFirst_other.
    intros x Hx. apply String.eqb_eq in Hx. cbn [withObservations Entity.name].
    rewrite Hx. split; apply String.eqb_neq; congruence.
  - now apply updateFirst_names.
Qed.

Lemma addObservations_appends_witness :
  exists g,
    addObservations "Lathe" ["Cost: 12"] workshopStore = (Ok g, Some g) /\
    findEntity g "Lathe"
    = Some (Entity.mk "Lathe" "resource" ["Capacity: lots"; "Cost: 12"] None).
Proof.
  destruct (addObservations_appends workshopStore "Lathe" ["Cost: 12"]
              (Entity.mk "Lathe" "resource" ["Capacity: lots"] None) eq_refl)
    as [g [Hrun [Hfound _]]].
  exists g. split; [exact Hrun | exact Hfound].
Defined.

(** X7.  Observations added to an entity and then deleted again leave
    the file as it was, provided none of them was already among the
    observations of that entity (the deletion removes every equal
    string, old or new). *)
Theorem addObservations_then_deleteObservations (st st1 : Store) (entityName : string)
    (obs : list string) (e : Entity.t) (g : KnowledgeGraph) :
  findEntity (stored st) entityName = Some e ->
  (forall o, In o obs -> ~ In o (Entity.observations e)) ->
  addObservations entityName obs st = (Ok g, st1) ->
  deleteObservations [(entityName, obs)] st1 = (Ok tt, Some (stored st)).
Proof.
  intros Hfind Hdis Hrun. unfold addObservations, bind in Hrun.
  rewrite stored_load, Hfind in Hrun.
  unfold saveGraph, ret in Hrun. injection Hrun as <- <-.
  unfold deleteObservations, bind, saveGraph. cbn [loadGraph fold_left entities relations].
  rewrite updateFirst_twice by (intros x Hx; exact Hx).
  rewrite (updateFirst_fixed _ _ (entities (stored st)) e Hfind).
  - now destruct (stored st).
  - unfold withObservations. cbn [Entity.name Entity.entityType Entity.observations
                                  Entity.embedding].
    rewrite (filter_app_disjoint obs (Entity.observations e) Hdis). now destruct e.
Qed.

Lemma addObservations_then_deleteObservations_witness :
  deleteObservations [("Lathe", ["Cost: 12"; "Type: tool"])]
    (snd (addObservations "Lathe" ["Cost: 12"; "Type: tool"] workshopStore))
  = (Ok tt, Some (stored workshopStore)).
Proof.
  refine (addObservations_then_deleteObservations workshopStore _ "Lathe"
            ["Cost: 12"; "Type: tool"]
            (Entity.mk "Lathe" "resource" ["Capacity: lots"] None) _ eq_refl _ eq_refl).
  intros o Ho Hold. simpl in Ho, Hold.
  destruct Hold as [Hold | []]. subst o.
  destruct Ho as [Ho | [Ho | []]]; discriminate.
Defined.

(* ================================================================== *)
(** * Start-up initialisation *)
(* ================================================================== *)

Lemma find_append {A} (p : A -> bool) (l l' : list A) :
  find p (l ++ l') = match find p l with
                     | Some x => Some x
                     | None => find p l'
                     end.
Proof.
  induction l as [|x l IH]; simpl; [reflexivity|]. now destruct (p x).
Qed.

Lemma ensureValueEntity_present (kind : string) (ents : list Entity.t) (value : string) :
  findTyped (mkGraph (ensureValueEntity kind ents value) []) (kind ++ ":" ++ value) kind
  <> None.
Proof.
  unfold ensureValueEntity, findTyped. cbn [entities].
  destruct (existsb _ ents) eqn:Hex.
  - apply existsb_exists in Hex. destruct Hex as [e [He Hp]].
    destruct (find _ ents) eqn:Hfind; [discriminate|].
    pose proof (find_none _ _ Hfind e He) as Hno. cbv beta in Hno. congruence.
  - rewrite find_append.
    destruct (find _ ents); [discriminate|]. cbn [find Entity.name Entity.entityType].
    now rewrite !String.eqb_refl.
Qed.

Lemma findTyped_app_l (ents more : list Entity.t) (n ty : string) :
  findTyped (mkGraph ents []) n ty <> None ->
  findTyped (mkGraph (ents ++ more) []) n ty <> None.
Proof.
  unfold findTyped. cbn [entities]. rewrite find_append.
  now destruct (find _ ents).
Qed.

Lemma ensureValueEntity_mono (kind : string) (ents : list Entity.t) (value n ty : string) :
  findTyped (mkGraph ents []) n ty <> None ->
  findTyped (mkGraph (ensureValueEntity kind ents value) []) n ty <> None.
Proof.
  intros H. unfold ensureValueEntity. destruct (existsb _ ents); [exact H|].
  now apply findTyped_app_l.
Qed.

Lemma ensure_loop_mono (kind : string) (values : list string) (n ty : string) :
  forall ents,
    findTyped (mkGraph ents []) n ty <> None ->
    findTyped (mkGraph (fold_left (ensureValueEntity kind) values ents) []) n ty <> None.
Proof.
  induction values as [|v values IH]; intros ents H; simpl; [exact H|].
  apply IH. now apply ensureValueEntity_mono.
Qed.

Lemma ensure_loop_present (kind : string) (values : list string) (v : string) :
  forall ents,
    In v values ->
    findTyped (mkGraph (fold_left (ensureValueEntity kind) values ents) [])
      (kind ++ ":" ++ v) kind <> None.
Proof.
  induction values as [|w values IH]; intros ents Hin; simpl; [contradiction|].
  destruct Hin as [-> | Hin].
  - apply ensure_loop_mono. apply ensureValueEntity_present.
  - now apply IH.
Qed.

Lemma ensure_loop_fixed (kind : string) (values : list string) (ents : list Entity.t) :
  (forall v, In v values ->
             findTyped (mkGraph ents []) (kind ++ ":" ++ v) kind <> None) ->
  fold_left (ensureValueEntity kind) values ents = ents.
Proof.
  induction values as [|w values IH]; intros Hall; simpl; [reflexivity|].
  assert (Hw : ensureValueEntity kind ents w = ents).
  { unfold ensureValueEntity.
    destruct (existsb _ ents) eqn:Hex; [reflexivity|].
    exfalso. apply (Hall w (or_introl eq_refl)).
    unfold findTyped. cbn [entities].
    destruct (find _ ents) as [e|] eqn:Hfind; [|reflexivity].
    apply find_some in Hfind. destruct Hfind as [He Hp].
    assert (Htrue : existsb (fun e0 => andb (String.eqb (Entity.name e0) (kind ++ ":" ++ w))
                                            (String.eqb (Entity.entityType e0) kind)) ents
                    = true)
      by (apply existsb_exists; now exists e).
    congruence. }
  rewrite Hw. apply IH. intros v Hv. apply Hall. now right.
Qed.

Lemma ensure_loop_prefix (kind : string) (values : list string) :
  forall ents, exists added,
    fold_left (ensureValueEntity kind) values ents = ents ++ added.
Proof.
  induction values as [|w values IH]; intros ents; simpl.
  - exists []. now rewrite app_nil_r.
  - destruct (IH (ensureValueEntity kind ents w)) as [added Hadded].
    rewrite Hadded. unfold ensureValueEntity.
    destruct (existsb _ ents).
    + now exists added.
    + eexists. now rewrite <- app_assoc.
Qed.

(** X8.  [initializeStatusAndPriority] never throws; afterwards each of
    the five status values and the two priority values has its entity
    ("status:<v>" of type "status", "priority:<v>" of type "priority");
    the entities that were there stay in front, in order, and the
    relations are untouched; and running it again changes nothing. *)
Theorem initializeStatusAndPriority_idempotent (st : Store) :
  let st1 := snd (initializeStatusAndPriority st) in
  fst (initializeStatusAndPriority st) = Ok tt /\
  (forall v, In v VALID_STATUS_VALUES ->
             findTyped (stored st1) ("status:" ++ v) "status" <> None) /\
  (forall v, In v VALID_PRIORITY_VALUES ->
             findTyped (stored st1) ("priority:" ++ v) "priority" <> None) /\
  (exists added, entities (stored st1) = entities (stored st) ++ added) /\
  relations (stored st1) = relations (stored st) /\
  initializeStatusAndPriority st1 = (Ok tt, st1).
Proof.
  unfold initializeStatusAndPriority, bind, saveGraph. rewrite stored_load.
  cbn [fst snd stored loadGraph entities relations].
  set (ents1 := fold_left (ensureValueEntity "status") VALID_STATUS_VALUES
                          (entities (stored st))).
  set (ents2 := fold_left (ensureValueEntity "priority") VALID_PRIORITY_VALUES ents1).
  assert (Hstatus : forall v, In v VALID_STATUS_VALUES ->
             findTyped (mkGraph ents2 []) ("status:" ++ v) "status" <> None).
  { intros v Hv. apply ensure_loop_mono.
    exact (ensure_loop_present "status" VALID_STATUS_VALUES v _ Hv). }
  assert (Hpriority : forall v, In v VALID_PRIORITY_VALUES ->
             findTyped (mkGraph ents2 []) ("priority:" ++ v) "priority" <> None).
  { intros v Hv. exact (ensure_loop_present "priority" VALID_PRIORITY_VALUES v _ Hv). }
  split; [reflexivity|]. split; [exact Hstatus|]. split; [exact Hpriority|].
  split; [|split; [reflexivity|]].
  - destruct (ensure_loop_prefix "status" VALID_STATUS_VALUES (entities (stored st)))
      as [a1 Ha1].
    destruct (ensure_loop_prefix "priority" VALID_PRIORITY_VALUES ents1) as [a2 Ha2].
    exists (a1 ++ a2). unfold ents2. rewrite Ha2. unfold ents1. rewrite Ha1.
    now rewrite app_assoc.
  - rewrite (ensure_loop_fixed "status" VALID_STATUS_VALUES ents2 Hstatus).
    now rewrite (ensure_loop_fixed "priority" VALID_PRIORITY_VALUES ents2 Hpriority).
Qed.

(* ================================================================== *)
(** * What a status or priority write leaves alone *)
(* ================================================================== *)

Lemma find_filter_implied {A} (p q : A -> bool) (l : list A) :
  (forall x, p x = true -> q x = true) ->
  find p (filter q l) = find p l.
Proof.
  intros Hpq. induction l as [|x l IH]; simpl; [reflexivity|].
  destruct (q x) eqn:Hq; simpl.
  - now rewrite IH.
  - destruct (p x) eqn:Hp; [|exact IH].
    rewrite (Hpq x Hp) in Hq. discriminate.
Qed.

Lemma find_app_miss {A} (p : A -> bool) (l : list A) (x : A) :
  p x = false -> find p (l ++ [x]) = find p l.
Proof.
  intros Hx. rewrite find_append. destruct (find p l); [reflexivity|].
  simpl. now rewrite Hx.
Qed.

Lemma replaced_reads (kind entityName target k y : string) (rels : list Relation.t) :
  k <> kind \/ y <> entityName ->
  find (isKindOf k y)
    (filter (fun r => negb (isKindOf kind entityName r)) rels
     ++ [Relation.mk entityName target kind None])
  = find (isKindOf k y) rels.
Proof.
  intros Hne.
  assert (Hoff : forall r, isKindOf k y r = true -> isKindOf kind entityName r = false).
  { intros r Hr. unfold isKindOf in *. apply andb_true_iff in Hr.
    destruct Hr as [Hy Hk]. apply String.eqb_eq in Hy, Hk.
    apply andb_false_iff. rewrite Hy, Hk.
    destruct Hne as [Hne | Hne]; [right | left]; now apply String.eqb_neq. }
  rewrite find_app_miss.
  - apply find_filter_implied. intros r Hr. now rewrite (Hoff r Hr).
  - destruct (isKindOf k y (Relation.mk entityName target kind None)) eqn:Hfresh;
      [|reflexivity].
    apply Hoff in Hfresh. unfold isKindOf in Hfresh. cbn in Hfresh.
    now rewrite !String.eqb_refl in Hfresh.
Qed.

(** X9.  A returning [setEntityStatus] changes no entity, no priority
    reading of any subject and no status reading of any other subject;
    a returning [setEntityPriority] changes no entity, no status
    reading of any subject and no priority reading of any other
    subject. *)
Theorem status_and_priority_writes_are_local (st : Store) (x v : string) :
  (JS.array_includes VALID_STATUS_VALUES v = true ->
   let st' := snd (setEntityStatus x v st) in
   entities (stored st') = entities (stored st) /\
   (forall y, fst (getEntityPriority y st') = fst (getEntityPriority y st)) /\
   (forall y, y <> x -> fst (getEntityStatus y st') = fst (getEntityStatus y st))) /\
  (JS.array_includes VALID_PRIORITY_VALUES v = true ->
   let st' := snd (setEntityPriority x v st) in
   entities (stored st') = entities (stored st) /\
   (forall y, fst (getEntityStatus y st') = fst (getEntityStatus y st)) /\
   (forall y, y <> x -> fst (getEntityPriority y st') = fst (getEntityPriority y st))).
Proof.
  split; intros Hv; cbv zeta.
  - unfold setEntityStatus. rewrite Hv. cbn [negb].
    unfold bind, saveGraph. rewrite stored_load. cbn [snd stored entities].
    split; [reflexivity|].
    unfold getEntityPriority, getEntityStatus, getEntityValue, bind.
    rewrite !stored_load. cbn [stored relations].
    split; intros y; [|intros Hy]; rewrite replaced_reads.
    + now destruct (find _ _) as [r|]; [destruct (nth_error _ _)|].
    + left. discriminate.
    + now destruct (find _ _) as [r|]; [destruct (nth_error _ _)|].
    + now right.
  - unfold setEntityPriority. rewrite Hv. cbn [negb].
    unfold bind, saveGraph. rewrite stored_load. cbn [snd stored entities].
    split; [reflexivity|].
    unfold getEntityPriority, getEntityStatus, getEntityValue, bind.
    rewrite !stored_load. cbn [stored relations].
    split; intros y; [|intros Hy]; rewrite replaced_reads.
    + now destruct (find _ _) as [r|]; [destruct (nth_error _ _)|].
    + left. discriminate.
    + now destruct (find _ _) as [r|]; [destruct (nth_error _ _)|].
    + now right.
Qed.

Lemma status_and_priority_writes_are_local_witness :
  JS.array_includes VALID_STATUS_VALUES "blocked" = true /\
  entities (stored (snd (setEntityStatus "Lathe" "blocked" workshopStore)))
  = entities (stored workshopStore) /\
  fst (getEntityPriority "Lathe" (snd (setEntityStatus "Lathe" "blocked" workshopStore)))
  = fst (getEntityPriority "Lathe" workshopStore).
Proof.
  assert (Hv : JS.array_includes VALID_STATUS_VALUES "blocked" = true) by reflexivity.
  split; [exact Hv|].
  destruct (proj1 (status_and_priority_writes_are_local workshopStore "Lathe" "blocked") Hv)
    as [Hents [Hpriority _]].
  split; [exact Hents | exact (Hpriority "Lathe")].
Defined.

(* ================================================================== *)
(** * What a search returns *)
(* ================================================================== *)

Lemma addEndpoint_entities (graph : KnowledgeGraph) (n : string) (acc : SearchAcc)
    (e : Entity.t) :
  In e (matchingEntities (addEndpoint graph n acc)) <->
  In e (matchingEntities acc) \/
  (JS.array_includes (matchingEntityNames acc) n = false /\ findEntity graph n = Some e).
Proof.
  unfold addEndpoint.
  destruct (JS.array_includes (matchingEntityNames acc) n); cbn [negb].
  - split; [now left | intros [H | [H _]]; [exact H | discriminate]].
  - destruct (findEntity graph n) as [e'|]; cbn [matchingEntities].
    + rewrite in_app_iff. simpl. split.
      * intros [H | [-> | []]]; [now left | now right].
      * intros [H | [_ H]]; [now left|]. injection H as ->. right. now left.
    + split; [now left | intros [H | [_ H]]; [exact H | discriminate]].
Qed.

Lemma mergeRelation_entities (graph : KnowledgeGraph) (acc : SearchAcc)
    (relation : Relation.t) (e : Entity.t) :
  (In e (matchingEntities acc) -> In e (matchingEntities (mergeRelation graph acc relation))) /\
  (In e (matchingEntities (mergeRelation graph acc relation)) ->
   In e (matchingEntities acc) \/ In e (entities graph)).
Proof.
  unfold mergeRelation. destruct (negb _); [|split; auto].
  split.
  - intros H. apply addEndpoint_entities. left. apply addEndpoint_entities. now left.
  - intros H. apply addEndpoint_entities in H. destruct H as [H | [_ H]].
    + apply addEndpoint_entities in H. destruct H as [H | [_ H]]; [now left|].
      right. now apply findEntity_name in H.
    + right. now apply findEntity_name in H.
Qed.

Lemma merge_loop_entities (graph : KnowledgeGraph) (additional : list Relation.t)
    (e : Entity.t) :
  forall acc,
    (In e (matchingEntities acc) ->
     In e (matchingEntities (fold_left (mergeRelation graph) additional acc))) /\
    (In e (matchingEntities (fold_left (mergeRelation graph) additional acc)) ->
     In e (matchingEntities acc) \/ In e (entities graph)).
Proof.
  induction additional as [|relation rest IH]; intros acc; simpl; [split; auto|].
  destruct (IH (mergeRelation graph acc relation)) as [Hkeep Hfrom].
  destruct (mergeRelation_entities graph acc relation e) as [Hkeep1 Hfrom1].
  split; [auto|]. intros H. apply Hfrom in H. destruct H as [H | H]; auto.
Qed.

Lemma mergeRelation_keeps_relation (graph : KnowledgeGraph) (acc : SearchAcc)
    (relation r : Relation.t) :
  In r (allRelations acc) -> In r (allRelations (mergeRelation graph acc relation)).
Proof.
  intros H. unfold mergeRelation. destruct (negb _); [|exact H].
  rewrite !addEndpoint_relations. cbn [allRelations]. apply in_app_iff. now left.
Qed.

Lemma merge_loop_keeps_relation (graph : KnowledgeGraph) (additional : list Relation.t)
    (r : Relation.t) :
  forall acc,
    In r (allRelations acc) ->
    In r (allRelations (fold_left (mergeRelation graph) additional acc)).
Proof.
  induction additional as [|relation rest IH]; intros acc H; simpl; [exact H|].
  apply IH. now apply mergeRelation_keeps_relation.
Qed.

Lemma mergeRelation_covers (graph : KnowledgeGraph) (acc : SearchAcc)
    (relation : Relation.t) :
  exists r', In r' (allRelations (mergeRelation graph acc relation)) /\
             sameTriple r' relation = true.
Proof.
  unfold mergeRelation.
  destruct (existsb (fun r => sameTriple r relation) (allRelations acc)) eqn:Hex;
    cbn [negb].
  - apply existsb_exists in Hex. destruct Hex as [r' [Hin Hsame]]. now exists r'.
  - exists relation. split; [|apply sameTriple_refl].
    rewrite !addEndpoint_relations. cbn [allRelations]. apply in_app_iff.
    right. now left.
Qed.

Lemma merge_loop_covers (graph : KnowledgeGraph) (additional : list Relation.t)
    (relation : Relation.t) :
  forall acc,
    In relation additional ->
    exists r', In r' (allRelations (fold_left (mergeRelation graph) additional acc)) /\
               sameTriple r' relation = true.
Proof.
  induction additional as [|r rest IH]; intros acc Hin; simpl; [contradiction|].
  destruct Hin as [-> | Hin]; [|now apply IH].
  destruct (mergeRelation_covers graph acc relation) as [r' [Hr' Hsame]].
  exists r'. split; [|exact Hsame]. now apply merge_loop_keeps_relation.
Qed.

(** X11.  [searchNodes] never throws and never writes.  What it returns
    is made of entities and relations of the stored graph, and holds
    every entity that matches the query, every relation between two
    matching entities, and, for every relation whose type or
    observations match, a relation with the same endpoints and type. *)
Theorem searchNodes_sound_and_complete (st : Store) (query : string) :
  exists g,
    searchNodes query st = (Ok g, st) /\
    (forall e, In e (entities g) -> In e (entities (stored st))) /\
    (forall r, In r (relations g) -> In r (relations (stored st))) /\
    (forall e, In e (entities (stored st)) ->
               entityMatches (JS.toLowerCase query) e = true ->
               In e (entities g)) /\
    (forall r e1 e2,
        In r (relations (stored st)) ->
        In e1 (entities g) -> entityMatches (JS.toLowerCase query) e1 = true ->
        In e2 (entities g) -> entityMatches (JS.toLowerCase query) e2 = true ->
        Entity.name e1 = Relation.from r -> Entity.name e2 = Relation.to r ->
        In r (relations g)) /\
    (forall r, In r (relations (stored st)) ->
               relationMatches (JS.toLowerCase query) r = true ->
               exists r', In r' (relations g) /\ sameTriple r' r = true).
Proof.
  unfold searchNodes, bind, ret. rewrite stored_load.
  eexists. split; [reflexivity|].
  set (graph := stored st). set (q := JS.toLowerCase query).
  unfold searchGraph. cbn [entities relations].
  set (matching := filter (entityMatches q) (entities graph)).
  set (start := mkAcc _ matching (map Entity.name matching)).
  set (additional := filter (relationMatches q) (relations graph)).
  assert (Hmatching : forall e, In e (entities graph) -> entityMatches q e = true ->
                                In e matching)
    by (intros e He Hm; apply filter_In; now split).
  split; [|split; [|split; [|split]]].
  - intros e He. apply (merge_loop_entities graph additional e start) in He.
    destruct He as [He | He]; [|exact He].
    cbn [matchingEntities start] in He. now apply filter_In in He.
  - intros r Hr. apply merge_loop_relations in Hr. cbn [allRelations start] in Hr.
    destruct Hr as [Hr | Hr]; apply filter_In in Hr; tauto.
  - intros e He Hm. apply (merge_loop_entities graph additional e start).
    cbn [matchingEntities start]. now apply Hmatching.
  - intros r e1 e2 Hr He1 Hm1 He2 Hm2 Hfrom Hto.
    apply merge_loop_keeps_relation. cbn [allRelations start].
    apply filter_In. split; [exact Hr|].
    assert (Hback : forall e, In e (matchingEntities
                                      (fold_left (mergeRelation graph) additional start)) ->
                              entityMatches q e = true -> In e matching).
    { intros e He Hm. apply (merge_loop_entities graph additional e start) in He.
      destruct He as [He | He]; [exact He | now apply Hmatching]. }
    apply andb_true_iff. split; apply array_includes_In.
    + rewrite <- Hfrom. apply in_map. now apply Hback.
    + rewrite <- Hto. apply in_map. now apply Hback.
  - intros r Hr Hm. apply merge_loop_covers. apply filter_In. now split.
Qed.

Lemma includes_empty (s : string) : JS.includes s "" = true.
Proof. now destruct s. Qed.

Lemma merge_loop_nothing_new (graph : KnowledgeGraph) (additional : list Relation.t)
    (acc : SearchAcc) :
  (forall r, In r additional -> In r (allRelations acc)) ->
  fold_left (mergeRelation graph) additional acc = acc.
Proof.
  induction additional as [|relation rest IH]; intros Hall; simpl; [reflexivity|].
  assert (Hsame : mergeRelation graph acc relation = acc).
  { unfold mergeRelation.
    assert (Hex : existsb (fun r => sameTriple r relation) (allRelations acc) = true).
    { apply existsb_exists. exists relation. split; [|apply sameTriple_refl].
      apply Hall. now left. }
    now rewrite Hex. }
  rewrite Hsame. apply IH. intros r Hr. apply Hall. now right.
Qed.

(** X12.  On a graph none of whose relations dangles, the empty query
    returns the whole graph, entities and relations in stored order. *)
Theorem searchNodes_empty_query (st : Store) :
  selfConsistent (stored st) ->
  searchNodes "" st = (Ok (stored st), st).
Proof.
  intros Hcons. unfold searchNodes, bind, ret. rewrite stored_load.
  f_equal. f_equal. cbn [JS.toLowerCase]. unfold searchGraph.
  assert (Hents : filter (entityMatches "") (entities (stored st)) = entities (stored st)).
  { apply filter_all. intros e _. unfold entityMatches. now rewrite includes_empty. }
  assert (Hadd : filter (relationMatches "") (relations (stored st))
                 = relations (stored st)).
  { apply filter_all. intros r _. unfold relationMatches. now rewrite includes_empty. }
  rewrite Hents, Hadd.
  assert (Hrels : filter (fun relation =>
                            andb (JS.array_includes (map Entity.name (entities (stored st)))
                                    (Relation.from relation))
                                 (JS.array_includes (map Entity.name (entities (stored st)))
                                    (Relation.to relation)))
                         (relations (stored st))
                  = relations (stored st)).
  { apply filter_all. intros r Hr. destruct (Hcons r Hr) as [Hf Ht].
    apply hasEntity_In in Hf, Ht. apply andb_true_iff.
    split; now apply array_includes_In. }
  rewrite Hrels. rewrite merge_loop_nothing_new by (intros r Hr; exact Hr).
  cbn [matchingEntities allRelations]. now destruct (stored st).
Qed.

Lemma searchNodes_empty_query_witness :
  searchNodes "" workshopStore = (Ok (stored workshopStore), workshopStore).
Proof.
  apply searchNodes_empty_query.
  intros relation Hin. vm_compute in Hin.
  destruct Hin as [Hin | []]. subst relation. split; reflexivity.
Defined.

(** X10.  [openNodes] never writes and returns the entities whose name
    was asked for and the relations between two names asked for; if no
    relation of the stored graph dangles, none of the returned ones
    does. *)
Theorem openNodes_closed_subgraph (st : Store) (names : list string) :
  selfConsistent (stored st) ->
  exists g,
    openNodes names st = (Ok g, st) /\
    selfConsistent g /\
    (forall e, In e (entities g) <->
               In e (entities (stored st)) /\ In (Entity.name e) names) /\
    (forall r, In r (relations g) <->
               In r (relations (stored st)) /\
               In (Relation.from r) names /\ In (Relation.to r) names).
Proof.
  intros Hcons. unfold openNodes, bind, ret. rewrite stored_load.
  eexists. split; [reflexivity|]. cbn [entities relations].
  assert (Hents : forall e,
             In e (filter (fun e => JS.array_includes names (Entity.name e))
                          (entities (stored st))) <->
             In e (entities (stored st)) /\ In (Entity.name e) names).
  { intros e. rewrite filter_In. now rewrite array_includes_In. }
  assert (Hrels : forall r,
             In r (filter (fun r => andb (JS.array_includes names (Relation.from r))
                                         (JS.array_includes names (Relation.to r)))
                          (relations (stored st))) <->
             In r (relations (stored st)) /\
             In (Relation.from r) names /\ In (Relation.to r) names).
  { intros r. rewrite filter_In, andb_true_iff. now rewrite !array_includes_In. }
  split; [|split; assumption].
  intros r Hr. cbn [relations] in Hr. apply Hrels in Hr.
  destruct Hr as [Hr [Hfrom Hto]]. destruct (Hcons r Hr) as [Hf Ht].
  assert (Hkept : forall n, In n names -> hasEntity (stored st) n = true ->
             hasEntity (mkGraph
                          (filter (fun e => JS.array_includes names (Entity.name e))
                                  (entities (stored st)))
                          (filter (fun r => andb (JS.array_includes names (Relation.from r))
                                                 (JS.array_includes names (Relation.to r)))
                                  (relations (stored st)))) n = true).
  { intros n Hn Hex. apply hasEntity_In in Hex. apply in_map_iff in Hex.
    destruct Hex as [e [Hname He]]. apply hasEntity_In. cbn [entities].
    apply in_map_iff. exists e. split; [exact Hname|].
    apply Hents. split; [exact He | now rewrite Hname]. }
  split; now apply Hkept.
Qed.

Lemma openNodes_closed_subgraph_witness :
  exists g,
    openNodes ["Lathe"; "P1"] workshopStore = (Ok g, workshopStore) /\
    selfConsistent g.
Proof.
  assert (Hcons : selfConsistent (stored workshopStore)).
  { intros relation Hin. vm_compute in Hin.
    destruct Hin as [Hin | []]. subst relation. split; reflexivity. }
  destruct (openNodes_closed_subgraph workshopStore ["Lathe"; "P1"] Hcons)
    as [g [Hrun [Hg _]]].
  exists g. split; [exact Hrun | exact Hg].
Defined.

(* ================================================================== *)
(** * Files written by the manager *)
(* ================================================================== *)

Lemma createEntities_validated (batch : list Entity.t) (st st' : Store) (g : KnowledgeGraph) :
  createEntities batch st = (Ok g, st') ->
  Forall (fun e => isValidEntityType (Entity.entityType e) = true) batch.
Proof.
  unfold createEntities, bind, lift, saveGraph, ret. rewrite stored_load.
  destruct (for_of batch _) as [[]|msg] eqn:Hloop; [|discriminate].
  intros _. apply for_of_Ok in Hloop. eapply Forall_impl; [|exact Hloop].
  intros e He. cbv beta in He.
  destruct (hasEntity (stored st) (Entity.name e)); [discriminate|].
  unfold validateEntityType in He.
  now destruct (isValidEntityType (Entity.entityType e)).
Qed.

Lemma createEntities_refused (batch : list Entity.t) (st st' : Store) (msg : string) :
  createEntities batch st = (Throw msg, st') -> st' = st.
Proof.
  unfold createEntities, bind, lift. rewrite stored_load.
  destruct (for_of batch _) as [[]|msg']; intros H; inversion H; reflexivity.
Qed.

Lemma Forall_updateFirst {A} (P : A -> Prop) (p : A -> bool) (f : A -> A) (l : list A) :
  (forall x, P x -> P (f x)) -> Forall P l -> Forall P (updateFirst p f l).
Proof.
  intros Hf Hl. induction Hl as [|x l Hx Hl IH]; simpl; [constructor|].
  destruct (p x); constructor; auto.
Qed.

Lemma Forall_ensure_loop (P : Entity.t -> Prop) (kind : string) (values : list string) :
  (forall v, P (Entity.mk (kind ++ ":" ++ v) kind
                  [("A " ++ v ++ " " ++ kind ++ " value")%string] None)) ->
  forall ents, Forall P ents -> Forall P (fold_left (ensureValueEntity kind) values ents).
Proof.
  intros Hnew. induction values as [|v values IH]; intros ents Hents; simpl; [exact Hents|].
  apply IH. unfold ensureValueEntity. destruct (existsb _ ents); [exact Hents|].
  apply Forall_app. split; [exact Hents|]. constructor; [apply Hnew | constructor].
Qed.

Lemma perform_entityTypes (c : Call) (st : Store) :
  Forall (fun e => isValidEntityType (Entity.entityType e) = true) (entities (stored st)) ->
  Forall (fun e => isValidEntityType (Entity.entityType e) = true)
         (entities (stored (perform c st))).
Proof.
  intros Hvalid. destruct c; cbn [perform].
  - unfold initializeStatusAndPriority, bind, saveGraph. rewrite stored_load.
    cbn [snd stored entities].
    apply Forall_ensure_loop; [intros v; reflexivity|].
    apply Forall_ensure_loop; [intros v; reflexivity | exact Hvalid].
  - destruct (createEntities batch st) as [[g|msg] st'] eqn:Hrun.
    + pose proof (createEntities_validated _ _ _ _ Hrun) as Hbatch.
      apply createEntities_accepted in Hrun. destruct Hrun as [-> [-> _]].
      cbn [snd stored entities]. apply Forall_app. now split.
    + apply createEntities_refused in Hrun. subst st'. exact Hvalid.
  - destruct (createRelations batch st) as [[g|msg] st'] eqn:Hrun.
    + apply createRelations_accepted in Hrun. destruct Hrun as [-> [-> _]]. exact Hvalid.
    + unfold createRelations, bind, lift in Hrun. rewrite stored_load in Hrun.
      destruct (for_of batch _) as [[]|msg']; inversion Hrun; subst; exact Hvalid.
  - unfold addObservations, bind. rewrite stored_load.
    destruct (findEntity (stored st) entityName); [|exact Hvalid].
    cbn [snd stored entities bind saveGraph ret].
    apply Forall_updateFirst; [|exact Hvalid]. intros e He. exact He.
  - unfold deleteEntities, bind, saveGraph. rewrite stored_load.
    cbn [snd stored entities]. now apply Forall_filter.
  - unfold deleteObservations, bind, saveGraph. rewrite stored_load.
    cbn [snd stored entities].
    generalize dependent (entities (stored st)).
    induction deletions as [|[entityName obs] deletions IH]; intros ents Hents; simpl;
      [exact Hents|].
    apply IH. apply Forall_updateFirst; [|exact Hents]. intros e He. exact He.
  - unfold deleteRelations, bind, saveGraph. now rewrite stored_load.
  - unfold setEntityStatus. destruct (negb _); [exact Hvalid|].
    unfold bind, saveGraph. now rewrite stored_load.
  - unfold setEntityPriority. destruct (negb _); [exact Hvalid|].
    unfold bind, saveGraph. now rewrite stored_load.
Qed.

Lemma reachable_entityTypes (st : Store) :
  reachable st ->
  Forall (fun e => isValidEntityType (Entity.entityType e) = true) (entities (stored st)).
Proof.
  intros [calls ->]. unfold run.
  assert (Hstart : Forall (fun e => isValidEntityType (Entity.entityType e) = true)
                          (entities (stored None))) by constructor.
  revert Hstart. generalize (@None KnowledgeGraph) as st.
  induction calls as [|c calls IH]; intros st Hst; simpl; [exact Hst|].
  apply IH. now apply perform_entityTypes.
Qed.

(** X13.  In a file that only the manager wrote, starting without a
    file, every entity has one of the sixteen entity types and every
    relation one of the twenty-three relation types, whatever calls
    were made and whichever of them threw. *)
Theorem reachable_types_are_valid (st : Store) :
  reachable st ->
  (forall e, In e (entities (stored st)) ->
             In (Entity.entityType e) validEntityTypes) /\
  (forall r, In r (relations (stored st)) ->
             In (Relation.relationType r) VALID_RELATION_TYPES).
Proof.
  intros Hreach. split.
  - pose proof (reachable_entityTypes st Hreach) as Hall.
    rewrite Forall_forall in Hall. intros e He.
    apply array_includes_In. exact (Hall e He).
  - apply reachable_validTypes in Hreach. unfold validTypes in Hreach.
    now rewrite Forall_forall in Hreach.
Qed.

Lemma reachable_types_are_valid_witness :
  reachable workshopStore /\
  (forall e, In e (entities (stored workshopStore)) ->
             In (Entity.entityType e) validEntityTypes).
Proof.
  assert (Hreach : reachable workshopStore) by (exists workshopCalls; reflexivity).
  split; [exact Hreach|].
  exact (proj1 (reachable_types_are_valid workshopStore Hreach)).
Defined.

(** X14.  Calls other than the two setters keep every relation of the
    file attached to entities of the file: from a file without dangling
    relation they lead to one without, on which every search returns a
    graph whose relations all have both endpoints among its
    entities. *)
Theorem relations_stay_attached (calls : list Call) (st : Store) :
  forallb (fun c => negb (isSetter c)) calls = true ->
  selfConsistent (stored st) ->
  selfConsistent (stored (run calls st)) /\
  (forall query g, fst (searchNodes query (run calls st)) = Ok g -> selfConsistent g).
Proof.
  intros Hcalls Hst.
  assert (Hcons : selfConsistent (stored (run calls st)))
    by (now apply run_selfConsistent).
  split; [exact Hcons|].
  intros query g Hrun. unfold searchNodes, bind, ret in Hrun.
  rewrite stored_load in Hrun. injection Hrun as <-.
  intros relation Hin.
  pose proof (searchGraph_relations _ _ _ _ Hin) as Hold.
  destruct (Hcons relation Hold) as [Hfrom Hto].
  split; eapply searchGraph_endpoints; eauto.
Qed.

Lemma relations_stay_attached_witness :
  selfConsistent (stored (run workshopCalls None)).
Proof.
  refine (proj1 (relations_stay_attached workshopCalls None eq_refl _)).
  intros relation [].
Defined.

(* ================================================================== *)
(** * Dependency resolver: what every call gives *)
(* ================================================================== *)

Lemma findTyped_name (graph : KnowledgeGraph) (n ty : string) (e : Entity.t) :
  findTyped graph n ty = Some e ->
  Entity.name e = n /\ Entity.entityType e = ty /\ In e (entities graph).
Proof.
  unfold findTyped. intros Hfind. apply find_some in Hfind.
  destruct Hfind as [Hin Heq]. apply andb_true_iff in Heq. destruct Heq as [Hn Ht].
  apply String.eqb_eq in Hn, Ht. auto.
Qed.

(** X15.  [getTaskDependencies] comes to an end on every file content,
    task name and depth, cyclic dependencies included.  Without a task
    entity of that name it throws "Task '<name>' not found"; when it
    returns, the report is about the first task entity of that name and
    repeats the depth it was given. *)
Theorem getTaskDependencies_always_answers (taskName : string) (depth : Z) (st : Store) :
  exists r,
    getTaskDependencies taskName depth st = Some r /\
    (findTyped (stored st) taskName "task" = None ->
     r = Throw ("Task '" ++ taskName ++ "' not found")) /\
    (forall report,
        r = Ok report ->
        findTyped (stored st) taskName "task" = Some (TaskDependencies.task report) /\
        TaskDependencies.maxDepth (TaskDependencies.summary_ report) = depth /\
        TaskDependencies.totalDependencies (TaskDependencies.summary_ report)
        = (Z.of_nat (List.length (TaskDependencies.dependencies report)) - 1)%Z).
Proof.
  pose proof (getTaskDependencies_total taskName depth st) as Htotal.
  destruct (getTaskDependencies taskName depth st) as [r|] eqn:Hrun; [|congruence].
  exists r. split; [reflexivity|].
  unfold getTaskDependencies, taskDependenciesOf in Hrun.
  destruct (findTyped (stored st) taskName "task") as [task|].
  - split; [discriminate|]. intros report ->.
    destruct (buildDependencyMap _ _ _ _) as [[m|msg]|]; simpl in Hrun; try discriminate.
    unfold reportDependencies in Hrun.
    destruct (calculateCriticalPath _); [|discriminate].
    injection Hrun as <-. repeat split.
  - split.
    + intros _. now injection Hrun as <-.
    + intros report ->. discriminate.
Qed.

(** X17.  With a negative depth nothing is expanded, not even the task
    itself: the call returns a report with no dependency, an empty
    critical path and a count of dependencies of -1. *)
Theorem getTaskDependencies_negative_depth (taskName : string) (depth : Z) (st : Store)
    (task : Entity.t) :
  findTyped (stored st) taskName "task" = Some task ->
  (depth < 0)%Z ->
  getTaskDependencies taskName depth st
  = Some (Ok (TaskDependencies.mk task
                (projectOf (stored st) taskName (relations (stored st)))
                [] []
                (TaskDependencies.mkSummary (-1) depth 0))).
Proof.
  intros Hfind Hdepth. unfold getTaskDependencies, taskDependenciesOf. rewrite Hfind.
  assert (Hfuel : enoughFuel depth = 2%nat).
  { unfold enoughFuel. lia. }
  rewrite Hfuel. unfold buildDependencyMap. cbn [addDependencies].
  assert (Hstop : (0 >? depth)%Z = true) by (rewrite Z.gtb_ltb; now apply Z.ltb_lt).
  rewrite Hstop. reflexivity.
Qed.

Lemma getTaskDependencies_negative_depth_witness :
  exists report,
    getTaskDependencies "D" (-1) (Some diamondGraph) = Some (Ok report) /\
    TaskDependencies.dependencies report = [] /\
    TaskDependencies.totalDependencies (TaskDependencies.summary_ report) = (-1)%Z.
Proof.
  eexists. split.
  - apply (getTaskDependencies_negative_depth "D" (-1) (Some diamondGraph) (taskNamed "D"));
      [reflexivity | lia].
  - split; reflexivity.
Defined.

Lemma foldR_throws {A S} (I : S -> Prop) (body : S -> A -> R S) (msg : string)
    (xs : list A) (x0 : A) :
  (forall s x, I s -> (exists s', body s x = Some (Ok s') /\ I s')
                      \/ body s x = Some (Throw msg)) ->
  (forall s, I s -> body s x0 = Some (Throw msg)) ->
  In x0 xs ->
  forall s, I s -> foldR body xs s = Some (Throw msg).
Proof.
  intros Hstep Hx0. induction xs as [|x xs IH]; intros Hin s Hs; [contradiction|].
  cbn [foldR]. destruct Hin as [-> | Hin].
  - now rewrite (Hx0 s Hs).
  - destruct (Hstep s x Hs) as [[s' [Hbody Hs']] | Hbody]; rewrite Hbody; cbn [bindR].
    + now apply IH.
    + reflexivity.
Qed.

Lemma map_has_update {V} (m : list (string * V)) (k k' : string) (f : V -> V) :
  map_has (map_update m k f) k' = map_has m k'.
Proof.
  unfold map_has. induction m as [|[k0 v0] m IH]; simpl; [reflexivity|].
  destruct (String.eqb k0 k) eqn:H0; simpl.
  - now destruct (String.eqb k0 k').
  - destruct (String.eqb k0 k'); [reflexivity | exact IH].
Qed.

Lemma map_get_update {V} (m : list (string * V)) (k k' : string) (f : V -> V) :
  map_get (map_update m k f) k'
  = if String.eqb k k' then option_map f (map_get m k') else map_get m k'.
Proof.
  induction m as [|[k0 v0] m IH]; simpl.
  - now destruct (String.eqb k k').
  - destruct (String.eqb k0 k) eqn:H0; simpl.
    + apply String.eqb_eq in H0. subst k0.
      now destruct (String.eqb k k').
    + destruct (String.eqb k0 k') eqn:H1; [|exact IH].
      apply String.eqb_eq in H1. subst k0. now rewrite String.eqb_sym, H0.
Qed.

Section DepthZero.

Variable graph : KnowledgeGraph.
Variable taskEntity : Entity.t.

Lemma aloneIn_update_dependedOnBy (m : DependencyMap) (k n : string) :
  aloneIn taskEntity m -> aloneIn taskEntity (map_update m k (pushDependedOnBy n)).
Proof.
  intros [Hkeys Hlist]. split.
  - intros k0. rewrite map_has_update. apply Hkeys.
  - intros n0. unfold listsDependsOn. rewrite map_get_update.
    destruct (String.eqb k (Entity.name taskEntity)); [|apply Hlist].
    specialize (Hlist n0). unfold listsDependsOn in Hlist.
    destruct (map_get m (Entity.name taskEntity)); [exact Hlist | discriminate].
Qed.

Lemma aloneIn_update_dependsOn (m : DependencyMap) :
  aloneIn taskEntity m ->
  aloneIn taskEntity
    (map_update m (Entity.name taskEntity) (pushDependsOn (Entity.name taskEntity))).
Proof.
  intros [Hkeys Hlist]. split.
  - intros k0. rewrite map_has_update. apply Hkeys.
  - intros n0. unfold listsDependsOn. rewrite map_get_update, String.eqb_refl.
    specialize (Hlist n0). unfold listsDependsOn in Hlist.
    destruct (map_get m (Entity.name taskEntity)) as [node|]; [|discriminate].
    cbn [option_map pushDependsOn DependencyNode.dependsOn].
    rewrite existsb_app. intros H. apply orb_true_iff in H.
    destruct H as [H | H]; [now apply Hlist|].
    cbn in H. rewrite orb_false_r in H. now apply String.eqb_eq in H.
Qed.

Lemma visitDependency_depth_zero (fuel : nat) (m : DependencyMap) (relation : Relation.t) :
  aloneIn taskEntity m ->
  (exists m', visitDependency graph (addDependencies graph 0 (S fuel)) taskEntity 0 m
                relation = Some (Ok m') /\ aloneIn taskEntity m')
  \/ visitDependency graph (addDependencies graph 0 (S fuel)) taskEntity 0 m relation
     = Some (Throw (TypeError_undefined "dependedOnBy")).
Proof.
  intros Halone. unfold visitDependency.
  destruct (andb _ _); [|left; now exists m].
  destruct (findTyped graph (Relation.to relation) "task") as [dependencyTask|];
    [|left; now exists m].
  destruct (listsDependsOn m (Entity.name taskEntity) (Entity.name dependencyTask));
    cbn [negb]; [left; now exists m|].
  cbn [addDependencies Z.add Z.gtb Z.compare Pos.compare Pos.compare_cont bindR].
  destruct (map_get m (Entity.name dependencyTask)) as [node|] eqn:Hget; [|now right].
  left.
  assert (Hsame : Entity.name dependencyTask = Entity.name taskEntity).
  { apply (proj1 Halone). unfold map_has. now rewrite Hget. }
  rewrite Hsame.
  destruct (negb _); eexists; (split; [reflexivity|]).
  - apply aloneIn_update_dependedOnBy. now apply aloneIn_update_dependsOn.
  - now apply aloneIn_update_dependsOn.
Qed.

Lemma visitDependency_depth_zero_throws (fuel : nat) (m : DependencyMap)
    (relation : Relation.t) (other : Entity.t) :
  Relation.relationType relation = "depends_on" ->
  Relation.from relation = Entity.name taskEntity ->
  findTyped graph (Relation.to relation) "task" = Some other ->
  Relation.to relation <> Entity.name taskEntity ->
  aloneIn taskEntity m ->
  visitDependency graph (addDependencies graph 0 (S fuel)) taskEntity 0 m relation
  = Some (Throw (TypeError_undefined "dependedOnBy")).
Proof.
  intros Hty Hfrom Hto Hother [Hkeys Hlist]. unfold visitDependency.
  rewrite Hty, Hfrom, !String.eqb_refl, Hto. cbn [andb].
  apply findTyped_name in Hto. destruct Hto as [Hname _].
  destruct (listsDependsOn m (Entity.name taskEntity) (Entity.name other)) eqn:Hl.
  - apply Hlist in Hl. congruence.
  - cbn [negb addDependencies Z.add Z.gtb Z.compare Pos.compare Pos.compare_cont bindR].
    destruct (map_get m (Entity.name other)) as [node|] eqn:Hget; [|reflexivity].
    assert (Hk : Entity.name other = Entity.name taskEntity).
    { apply Hkeys. unfold map_has. now rewrite Hget. }
    congruence.
Qed.

End DepthZero.

(** X16.  At depth 0 a task with a [depends_on] relation to a task
    entity other than itself cannot be reported: the dependency is never
    stored in the map, and the call throws the [TypeError] of reading
    [dependedOnBy] on [undefined]. *)
Theorem getTaskDependencies_depth_zero (st : Store) (taskName : string)
    (task other : Entity.t) (relation : Relation.t) :
  findTyped (stored st) taskName "task" = Some task ->
  In relation (relations (stored st)) ->
  Relation.relationType relation = "depends_on" ->
  Relation.from relation = taskName ->
  Relation.to relation <> taskName ->
  findTyped (stored st) (Relation.to relation) "task" = Some other ->
  getTaskDependencies taskName 0 st
  = Some (Throw (TypeError_undefined "dependedOnBy")).
Proof.
  intros Hfind Hin Hty Hfrom Hne Hto.
  unfold getTaskDependencies, taskDependenciesOf. rewrite Hfind.
  pose proof (findTyped_name _ _ _ _ Hfind) as [Hname _].
  change (enoughFuel 0) with 2%nat. unfold buildDependencyMap.
  assert (Hfirst : addDependencies (stored st) 0 2 task 0 DependsOn []
                   = Some (Throw (TypeError_undefined "dependedOnBy"))).
  { assert (Hgen : forall fuel1 fuel,
               fuel1 = S fuel ->
               addDependencies (stored st) 0 (S fuel1) task 0 DependsOn []
               = Some (Throw (TypeError_undefined "dependedOnBy")));
      [|exact (Hgen 1%nat 0%nat eq_refl)].
    intros fuel1 fuel Hfuel. cbn [addDependencies Z.gtb Z.compare]. subst fuel1.
    apply (foldR_throws (aloneIn task)) with (x0 := relation).
    - intros s x Hs. now apply visitDependency_depth_zero.
    - intros s Hs. apply visitDependency_depth_zero_throws with (other := other);
        congruence.
    - exact Hin.
    - unfold enterNode. cbn [map_has map_get negb map_set].
      rewrite String.eqb_refl. cbn [DependencyNode.level Z.ltb Z.compare].
      split.
      + intros k. unfold map_has. cbn [map_get].
        destruct (String.eqb (Entity.name task) k) eqn:Hk; [|discriminate].
        intros _. apply String.eqb_eq in Hk. now symmetry.
      + intros n. unfold listsDependsOn. cbn [map_get].
        rewrite String.eqb_refl. cbn. discriminate. }
  rewrite Hfirst. reflexivity.
Qed.

Lemma getTaskDependencies_depth_zero_witness :
  getTaskDependencies "D" 0 (Some diamondGraph)
  = Some (Throw (TypeError_undefined "dependedOnBy")).
Proof.
  apply (getTaskDependencies_depth_zero (Some diamondGraph) "D" (taskNamed "D")
           (taskNamed "B") (dependsOn_ "D" "B")).
  - reflexivity.
  - simpl. tauto.
  - reflexivity.
  - reflexivity.
  - discriminate.
  - reflexivity.
Defined.

(* ================================================================== *)
(** * Dependency resolver: levels *)
(* ================================================================== *)

Lemma map_update_keys {V} (m : list (string * V)) (k : string) (f : V -> V) :
  map fst (map_update m k f) = map fst m.
Proof.
  induction m as [|[k0 v0] m IH]; simpl; [reflexivity|].
  destruct (String.eqb k0 k); simpl; [reflexivity | now rewrite IH].
Qed.

Lemma In_map_update {V} (m : list (string * V)) (k : string) (f : V -> V)
    (k0 : string) (v0 : V) :
  In (k0, v0) (map_update m k f) ->
  In (k0, v0) m \/ (k0 = k /\ exists v, In (k, v) m /\ v0 = f v).
Proof.
  induction m as [|[k1 v1] m IH]; simpl; [tauto|].
  destruct (String.eqb k1 k) eqn:H1; simpl.
  - apply String.eqb_eq in H1. subst k1.
    intros [H | H]; [|auto]. injection H as <- <-.
    right. split; [reflexivity|]. exists v1. auto.
  - intros [H | H]; [auto|]. apply IH in H.
    destruct H as [H | [Hk [v [Hv Hf]]]]; [auto|].
    right. split; [exact Hk|]. exists v. auto.
Qed.

Lemma map_set_absent {V} (m : list (string * V)) (k : string) (v : V) :
  map_has m k = false -> map_set m k v = m ++ [(k, v)] /\ ~ In k (map fst m).
Proof.
  unfold map_has. induction m as [|[k0 v0] m IH]; simpl; [auto|].
  destruct (String.eqb k0 k) eqn:H0; [discriminate|].
  intros H. destruct (IH H) as [Hset Hnot]. rewrite Hset. split; [reflexivity|].
  intros [Heq | Hin]; [|contradiction].
  apply String.eqb_neq in H0. contradiction.
Qed.

Lemma map_get_In {V} (m : list (string * V)) (k : string) (v : V) :
  map_get m k = Some v -> In (k, v) m.
Proof.
  induction m as [|[k0 v0] m IH]; simpl; [discriminate|].
  destruct (String.eqb k0 k) eqn:H0.
  - apply String.eqb_eq in H0. subst k0. intros H. injection H as ->. now left.
  - intros H. right. now apply IH.
Qed.

Section Levels.

Variable graph : KnowledgeGraph.
Variable depth : Z.
Variable root : string.

Lemma wellLevelled_push (m : DependencyMap) (k : string)
    (f : DependencyNode.t -> DependencyNode.t) :
  (forall node, DependencyNode.task (f node) = DependencyNode.task node /\
                DependencyNode.level (f node) = DependencyNode.level node) ->
  wellLevelled depth root m -> wellLevelled depth root (map_update m k f).
Proof.
  intros Hf [Hnodes [Hroot Hkeys]]. split; [|split].
  - intros k0 node Hin. apply In_map_update in Hin.
    destruct Hin as [Hin | [-> [v [Hv ->]]]]; [now apply Hnodes|].
    destruct (Hf v) as [-> ->]. now apply Hnodes.
  - now rewrite map_has_update.
  - now rewrite map_update_keys.
Qed.

Lemma wellLevelled_setLevel (m : DependencyMap) (k : string) (l : Z)
    (node : DependencyNode.t) :
  (0 <= l)%Z ->
  map_get m k = Some node ->
  (l < DependencyNode.level node)%Z ->
  wellLevelled depth root m -> wellLevelled depth root (map_update m k (setLevel l)).
Proof.
  intros Hl Hget Hlt [Hnodes [Hroot Hkeys]].
  pose proof (Hnodes k node (map_get_In _ _ _ Hget)) as [_ [Hrange Hzero]].
  split; [|split].
  - intros k0 node0 Hin. apply In_map_update in Hin.
    destruct Hin as [Hin | [-> [v [Hv ->]]]]; [now apply Hnodes|].
    destruct (Hnodes k v Hv) as [Hname _].
    cbn [setLevel DependencyNode.task DependencyNode.level].
    split; [exact Hname|]. split; [lia|].
    intros Hk. specialize (Hzero Hk). lia.
  - now rewrite map_has_update.
  - now rewrite map_update_keys.
Qed.

Lemma wellLevelled_enterNode (taskEntity : Entity.t) (l : Z) (direction : Direction)
    (m : DependencyMap) :
  (0 <= l <= depth)%Z ->
  wellLevelled depth root m ->
  wellLevelled depth root (enterNode taskEntity l direction m).
Proof.
  intros Hl Hm. unfold enterNode.
  set (fresh := DependencyNode.mk taskEntity [] []
                  (match direction with DependsOn => l | DependedOnBy => 0%Z end)).
  assert (Hm0 : wellLevelled depth root
                  (if negb (map_has m (Entity.name taskEntity))
                   then map_set m (Entity.name taskEntity) fresh else m)).
  { destruct (map_has m (Entity.name taskEntity)) eqn:Hhas; cbn [negb]; [exact Hm|].
    destruct (map_set_absent m _ fresh Hhas) as [-> Hnot].
    destruct Hm as [Hnodes [Hroot Hkeys]]. split; [|split].
    - intros k node Hin. apply in_app_iff in Hin.
      destruct Hin as [Hin | [Hin | []]]; [now apply Hnodes|].
      injection Hin as <- <-. cbn [fresh DependencyNode.task DependencyNode.level].
      split; [reflexivity|]. split; [destruct direction; lia|].
      intros Hk. rewrite Hk in Hhas. congruence.
    - unfold map_has in *. clear - Hroot.
      induction m as [|[k0 v0] m IH]; simpl in *; [discriminate|].
      destruct (String.eqb k0 root); [reflexivity | now apply IH].
    - rewrite map_app. cbn [map fst]. apply NoDup_app; [exact Hkeys| |].
      + constructor; [intros [] | constructor].
      + intros k Hk [<- | []]. contradiction. }
  destruct direction; [|exact Hm0].
  destruct (map_get _ (Entity.name taskEntity)) as [node|] eqn:Hget; [|exact Hm0].
  destruct (l <? DependencyNode.level node)%Z eqn:Hlt; [|exact Hm0].
  apply Z.ltb_lt in Hlt. apply (wellLevelled_setLevel _ _ _ node); try assumption. lia.
Qed.

Lemma foldR_invariant {A S} (I : S -> Prop) (body : S -> A -> R S) (xs : list A) :
  (forall s x s', I s -> body s x = Some (Ok s') -> I s') ->
  forall s s', I s -> foldR body xs s = Some (Ok s') -> I s'.
Proof.
  intros Hbody. induction xs as [|x xs IH]; intros s s' Hs; cbn [foldR].
  - intros H. injection H as <-. exact Hs.
  - destruct (body s x) as [[s1|msg]|] eqn:Hx; cbn [bindR]; try discriminate.
    apply IH. exact (Hbody _ _ _ Hs Hx).
Qed.

Lemma visitDependency_levels rec taskEntity l m relation m' :
  (forall e dir s s', wellLevelled depth root s ->
                      rec e (l + 1)%Z dir s = Some (Ok s') -> wellLevelled depth root s') ->
  wellLevelled depth root m ->
  visitDependency graph rec taskEntity l m relation = Some (Ok m') ->
  wellLevelled depth root m'.
Proof.
  intros Hrec Hm. unfold visitDependency.
  destruct (andb _ _); [|intros H; now injection H as <-].
  destruct (findTyped graph _ "task") as [dependencyTask|];
    [|intros H; now injection H as <-].
  destruct (negb (listsDependsOn _ _ _)); [|intros H; now injection H as <-].
  destruct (rec dependencyTask _ DependsOn m) as [[m1|msg]|] eqn:H1; cbn [bindR];
    try discriminate.
  pose proof (Hrec _ _ _ _ Hm H1) as Hm1.
  destruct (map_get m1 _); [|discriminate].
  assert (Hm2 : wellLevelled depth root
                  (map_update m1 (Entity.name taskEntity)
                     (pushDependsOn (Entity.name dependencyTask))))
    by (apply wellLevelled_push; [intros node; split; reflexivity | exact Hm1]).
  destruct (negb _); intros H; injection H as <-; [|exact Hm2].
  apply wellLevelled_push; [intros node; split; reflexivity | exact Hm2].
Qed.

Lemma visitDependent_levels rec taskEntity l m relation m' :
  (forall e dir s s', wellLevelled depth root s ->
                      rec e (l + 1)%Z dir s = Some (Ok s') -> wellLevelled depth root s') ->
  wellLevelled depth root m ->
  visitDependent graph rec taskEntity l m relation = Some (Ok m') ->
  wellLevelled depth root m'.
Proof.
  intros Hrec Hm. unfold visitDependent.
  destruct (andb _ _); [|intros H; now injection H as <-].
  destruct (findTyped graph _ "task") as [dependentTask|];
    [|intros H; now injection H as <-].
  destruct (negb (listsDependedOnBy _ _ _)); [|intros H; now injection H as <-].
  destruct (rec dependentTask _ DependedOnBy m) as [[m1|msg]|] eqn:H1; cbn [bindR];
    try discriminate.
  pose proof (Hrec _ _ _ _ Hm H1) as Hm1.
  destruct (map_get m1 _); [|discriminate].
  assert (Hm2 : wellLevelled depth root
                  (map_update m1 (Entity.name taskEntity)
                     (pushDependedOnBy (Entity.name dependentTask))))
    by (apply wellLevelled_push; [intros node; split; reflexivity | exact Hm1]).
  destruct (negb _); intros H; injection H as <-; [|exact Hm2].
  apply wellLevelled_push; [intros node; split; reflexivity | exact Hm2].
Qed.

Lemma addDependencies_levels (fuel : nat) :
  forall taskEntity l direction m m',
    (0 <= l)%Z ->
    wellLevelled depth root m ->
    addDependencies graph depth fuel taskEntity l direction m = Some (Ok m') ->
    wellLevelled depth root m'.
Proof.
  induction fuel as [|fuel IH]; intros taskEntity l direction m m' Hl Hm;
    [discriminate|].
  cbn [addDependencies].
  destruct (l >? depth)%Z eqn:Hstop; [intros H; now injection H as <-|].
  rewrite Z.gtb_ltb in Hstop. apply Z.ltb_ge in Hstop.
  assert (Hrec : forall e dir s s',
             wellLevelled depth root s ->
             addDependencies graph depth fuel e (l + 1)%Z dir s = Some (Ok s') ->
             wellLevelled depth root s').
  { intros e dir s s'. apply IH. lia. }
  assert (Hentered : wellLevelled depth root (enterNode taskEntity l direction m))
    by (apply wellLevelled_enterNode; [lia | exact Hm]).
  destruct direction; apply foldR_invariant with (I := wellLevelled depth root); auto;
    intros s x s' Hs.
  - now apply visitDependency_levels.
  - now apply visitDependent_levels.
Qed.

(** The map of a returning expansion from a task named [root]. *)
Lemma buildDependencyMap_levels (fuel : nat) (task : Entity.t) (m : DependencyMap) :
  (0 <= depth)%Z ->
  Entity.name task = root ->
  buildDependencyMap graph depth fuel task = Some (Ok m) ->
  wellLevelled depth root m.
Proof.
  intros Hdepth Hname. unfold buildDependencyMap.
  destruct (addDependencies graph depth fuel task 0 DependsOn []) as [[m1|msg]|] eqn:H1;
    cbn [bindR]; try discriminate.
  apply addDependencies_levels; [lia|].
  destruct fuel as [|fuel]; [discriminate|].
  remember fuel as fuel1 eqn:Hfuel. cbn [addDependencies] in H1.
  assert (Hgo : (0 >? depth)%Z = false)
    by (rewrite Z.gtb_ltb; apply Z.ltb_ge; lia).
  rewrite Hgo in H1.
  revert H1. apply foldR_invariant with (I := wellLevelled depth root).
  - intros s x s' Hs. apply visitDependency_levels; [|exact Hs].
    intros e dir s0 s0'. apply addDependencies_levels. lia.
  - unfold enterNode. cbn [map_has map_get negb map_set]. rewrite String.eqb_refl.
    cbn [DependencyNode.level]. rewrite Z.ltb_irrefl.
    split; [|split].
    + intros k node [Hin | []]. injection Hin as <- <-.
      cbn [DependencyNode.task DependencyNode.level]. split; [reflexivity|].
      split; [lia | reflexivity].
    + unfold map_has. cbn [map_get]. now rewrite Hname, String.eqb_refl.
    + cbn. constructor; [intros [] | constructor].
Qed.

End Levels.

Lemma sortBy_In {A} (cmp : A -> A -> Z) (y : A) (l : list A) :
  In y l -> In y (sortBy cmp l).
Proof.
  unfold sortBy.
  assert (Hins : forall x s, In y s \/ y = x -> In y (insertSorted cmp x s)).
  { intros x s. induction s as [|z s IH]; simpl.
    - intros [[] | ->]. now left.
    - destruct (cmp x z <? 0)%Z; simpl.
      + intros [[H | H] | H]; auto.
      + intros [[H | H] | H]; auto. }
  assert (Hgen : forall acc, In y acc \/ In y l ->
             In y (fold_left (fun sorted x => insertSorted cmp x sorted) l acc)).
  { induction l as [|x l IH]; intros acc; simpl; [intros [H | []]; exact H|].
    intros [H | [H | H]]; apply IH; auto. }
  intros H. apply Hgen. now right.
Qed.

Lemma insertSorted_ascending {A} (key : A -> Z) (x : A) (l : list A) :
  ascending (map key l) ->
  ascending (map key (insertSorted (fun a b => (key a - key b)%Z) x l)).
Proof.
  induction l as [|y l IH]; simpl; [auto|].
  intros [Hy Hl]. destruct (key x - key y <? 0)%Z eqn:Hlt; simpl.
  - apply Z.ltb_lt in Hlt. split; [|split; assumption].
    constructor; [lia|]. eapply Forall_impl; [|exact Hy]. intros b Hb. cbv beta in Hb. lia.
  - apply Z.ltb_ge in Hlt. split; [|now apply IH].
    rewrite Forall_forall in *. intros b Hb. apply in_map_iff in Hb.
    destruct Hb as [z [<- Hz]]. apply In_insertSorted in Hz.
    destruct Hz as [-> | Hz]; [lia|]. apply Hy. now apply in_map.
Qed.

Lemma sortBy_ascending {A} (key : A -> Z) (l : list A) :
  ascending (map key (sortBy (fun a b => (key a - key b)%Z) l)).
Proof.
  unfold sortBy.
  assert (Hgen : forall acc, ascending (map key acc) ->
             ascending (map key (fold_left
                                   (fun sorted x =>
                                      insertSorted (fun a b => (key a - key b)%Z) x sorted)
                                   l acc))).
  { induction l as [|x l IH]; intros acc Hacc; simpl; [exact Hacc|].
    apply IH. now apply insertSorted_ascending. }
  apply Hgen. exact I.
Qed.

Lemma insertSorted_count {A} (cmp : A -> A -> Z) (p : A -> bool) (x : A) (l : list A) :
  List.length (filter p (insertSorted cmp x l)) = List.length (filter p (x :: l)).
Proof.
  induction l as [|y l IH]; [reflexivity|].
  cbn [insertSorted]. destruct (cmp x y <? 0)%Z; [reflexivity|].
  cbn [filter] in *. destruct (p y), (p x); cbn [List.length] in *; lia.
Qed.

Lemma sortBy_count {A} (cmp : A -> A -> Z) (p : A -> bool) (l : list A) :
  List.length (filter p (sortBy cmp l)) = List.length (filter p l).
Proof.
  unfold sortBy.
  assert (Hgen : forall acc,
             List.length (filter p (fold_left (fun sorted x => insertSorted cmp x sorted)
                                              l acc))
             = (List.length (filter p acc) + List.length (filter p l))%nat).
  { induction l as [|x l IH]; intros acc; simpl; [lia|].
    rewrite IH, insertSorted_count. cbn [filter].
    destruct (p x); cbn [List.length]; lia. }
  now rewrite Hgen.
Qed.

Lemma NoDup_count_keys (m : DependencyMap) (graph : KnowledgeGraph) (n : string) :
  (forall k node, In (k, node) m -> Entity.name (DependencyNode.task node) = k) ->
  NoDup (map fst m) ->
  (List.length
     (filter (fun d => String.eqb (Entity.name (Dependency.task d)) n)
             (map (fun kv => serialize graph (snd kv)) m)) <= 1)%nat.
Proof.
  induction m as [|[k node] m IH]; intros Hnames Hkeys; simpl; [lia|].
  inversion Hkeys as [|? ? Hnot Hrest]; subst.
  assert (IHm : (List.length
                   (filter (fun d => String.eqb (Entity.name (Dependency.task d)) n)
                           (map (fun kv => serialize graph (snd kv)) m)) <= 1)%nat).
  { apply IH; [|exact Hrest]. intros k0 node0 Hin. apply Hnames. now right. }
  destruct (String.eqb (Entity.name (DependencyNode.task node)) n) eqn:Heq;
    [|exact IHm].
  apply String.eqb_eq in Heq.
  rewrite (filter_nil _ (map _ m)); [simpl; lia|].
  intros d Hd. apply in_map_iff in Hd. destruct Hd as [[k1 node1] [<- Hin]].
  cbn [snd serialize Dependency.task]. apply String.eqb_neq. intros Hsame.
  apply Hnot. cbn [fst] in *.
  assert (Hk1 : Entity.name (DependencyNode.task node1) = k1)
    by (apply Hnames; now right).
  assert (Hk : Entity.name (DependencyNode.task node) = k)
    by (apply Hnames; now left).
  apply in_map_iff. exists (k1, node1). split; [cbn; congruence | exact Hin].
Qed.

(** X18.  In every report of [getTaskDependencies] the levels lie
    between 0 and the depth asked for, the dependencies are listed by
    non-decreasing level, no task name is listed twice, and the task
    asked for is listed, at level 0 (for a depth of 0 or more). *)
Theorem getTaskDependencies_levels (taskName : string) (depth : Z) (st : Store)
    (report : TaskDependencies.t) :
  getTaskDependencies taskName depth st = Some (Ok report) ->
  let deps := TaskDependencies.dependencies report in
  (forall d, In d deps -> (0 <= Dependency.level d <= depth)%Z) /\
  ascending (map Dependency.level deps) /\
  (forall n, (List.length
                (filter (fun d => String.eqb (Entity.name (Dependency.task d)) n) deps)
              <= 1)%nat) /\
  ((0 <= depth)%Z ->
   exists d, In d deps /\ Entity.name (Dependency.task d) = taskName /\
             Dependency.level d = 0%Z).
Proof.
  unfold getTaskDependencies, taskDependenciesOf.
  destruct (findTyped (stored st) taskName "task") as [task|] eqn:Hfind; [|discriminate].
  apply findTyped_name in Hfind. destruct Hfind as [Hname _].
  destruct (buildDependencyMap (stored st) depth (enoughFuel depth) task)
    as [[m|msg]|] eqn:Hmap; cbn [bindR]; try discriminate.
  unfold reportDependencies.
  destruct (calculateCriticalPath _); [|discriminate].
  intros H. injection H as <-. cbn [TaskDependencies.dependencies]. cbv zeta.
  assert (Hlevel : forall kv : string * DependencyNode.t,
             Dependency.level (serialize (stored st) (snd kv))
             = DependencyNode.level (snd kv)) by reflexivity.
  destruct (Z.le_gt_cases 0 depth) as [Hdepth | Hdepth].
  - pose proof (buildDependencyMap_levels _ _ _ _ _ _ Hdepth Hname Hmap)
      as [Hnodes [Hroot Hkeys]].
    split; [|split; [|split]].
    + intros d Hd. apply In_sortBy in Hd. apply in_map_iff in Hd.
      destruct Hd as [[k node] [<- Hin]]. rewrite Hlevel.
      now destruct (Hnodes k node Hin) as [_ [Hrange _]].
    + apply sortBy_ascending.
    + intros n. rewrite sortBy_count. apply NoDup_count_keys; [|exact Hkeys].
      intros k node Hin. now destruct (Hnodes k node Hin).
    + intros _. unfold map_has in Hroot.
      destruct (map_get m taskName) as [node|] eqn:Hget; [|discriminate].
      apply map_get_In in Hget. destruct (Hnodes _ _ Hget) as [Htask [_ Hzero]].
      exists (serialize (stored st) node). split; [|split].
      * apply sortBy_In. apply in_map_iff. now exists (taskName, node).
      * exact Htask.
      * now apply Hzero.
  - assert (Hm : m = []).
    { unfold buildDependencyMap in Hmap.
      assert (Hfuel : enoughFuel depth = 2%nat) by (unfold enoughFuel; lia).
      rewrite Hfuel in Hmap. cbn [addDependencies] in Hmap.
      assert (Hstop : (0 >? depth)%Z = true)
        by (rewrite Z.gtb_ltb; apply Z.ltb_lt; lia).
      rewrite Hstop in Hmap. cbn [bindR] in Hmap. now injection Hmap as <-. }
    subst m. cbn. split; [intros d []|]. split; [exact I|].
    split; [intros n; lia | lia].
Qed.

Lemma getTaskDependencies_levels_witness :
  exists report,
    getTaskDependencies "D" 2 (Some diamondGraph) = Some (Ok report) /\
    forall d, In d (TaskDependencies.dependencies report) ->
              (0 <= Dependency.level d <= 2)%Z.
Proof.
  destruct (getTaskDependencies "D" 2 (Some diamondGraph)) as [[report|msg]|] eqn:Hrun;
    try (vm_compute in Hrun; discriminate).
  exists report. split; [reflexivity|].
  exact (proj1 (getTaskDependencies_levels "D" 2 (Some diamondGraph) report Hrun)).
Defined.

(* ================================================================== *)
(** * Critical path: what is returned *)
(* ================================================================== *)

Lemma foldO_invariant {A S} (I : S -> Prop) (body : S -> A -> option S) (xs : list A) :
  (forall s x s', In x xs -> I s -> body s x = Some s' -> I s') ->
  forall s s', I s -> foldO body xs s = Some s' -> I s'.
Proof.
  induction xs as [|x xs IH]; intros Hbody s s' Hs; cbn [foldO].
  - intros H. injection H as <-. exact Hs.
  - destruct (body s x) as [s1|] eqn:Hx; [|discriminate].
    apply IH.
    + intros s0 y s0' Hy. apply Hbody. now right.
    + exact (Hbody _ _ _ (or_introl eq_refl) Hs Hx).
Qed.

Lemma linkedBy_snoc (edge : string -> string -> Prop) (path : list string)
    (current next : string) :
  linkedBy edge (path ++ [current]) -> edge current next ->
  linkedBy edge ((path ++ [current]) ++ [next]).
Proof.
  intros Hlinked Hedge. induction path as [|a path IH].
  - simpl. auto.
  - destruct path as [|b path].
    + simpl in *. tauto.
    + change (linkedBy edge (a :: (b :: path ++ [current]) ++ [next])).
      change (linkedBy edge (a :: b :: path ++ [current])) in Hlinked.
      cbn [linkedBy app] in *. destruct Hlinked as [Hab Hrest].
      split; [exact Hab|]. apply IH. exact Hrest.
Qed.

Lemma linkedBy_impl (edge edge' : string -> string -> Prop) (path : list string) :
  (forall a b, edge a b -> edge' a b) -> linkedBy edge path -> linkedBy edge' path.
Proof.
  intros Himpl. induction path as [|a [|b path] IH]; simpl; auto.
  intros [Hab Hrest]. split; [now apply Himpl | now apply IH].
Qed.

Lemma hd_error_snoc (path : list string) (current next : string) :
  hd_error ((path ++ [current]) ++ [next]) = hd_error (path ++ [current]).
Proof. now destruct path. Qed.

(** Every path [findPaths] records runs from the head of the path it
    was entered with to an end node, along the adjacency lists. *)
Lemma findPaths_runs (adjacencyList : list (string * list string))
    (endNodes starts : list string) (fuel : nat) :
  forall current path allPaths found,
    linkedBy (fun a b => In b (adjacent adjacencyList a)) (path ++ [current]) ->
    (exists s, hd_error (path ++ [current]) = Some s /\ In s starts) ->
    Forall (runsBetween (fun a b => In b (adjacent adjacencyList a)) starts endNodes)
           allPaths ->
    findPaths adjacencyList endNodes fuel current path allPaths = Some found ->
    Forall (runsBetween (fun a b => In b (adjacent adjacencyList a)) starts endNodes)
           found.
Proof.
  induction fuel as [|fuel IH]; intros current path allPaths found Hlinked Hhead Hall;
    [discriminate|].
  cbn [findPaths].
  destruct (JS.array_includes endNodes current) eqn:Hend.
  - intros H. injection H as <-. apply Forall_app. split; [exact Hall|].
    constructor; [|constructor]. split; [exact Hlinked|]. split; [exact Hhead|].
    exists path, current. split; [reflexivity | now apply array_includes_In].
  - apply foldO_invariant; [|exact Hall].
    intros acc next acc' Hnext Hacc.
    destruct (negb (JS.array_includes path next)).
    + apply IH; [| |exact Hacc].
      * now apply linkedBy_snoc.
      * now rewrite hd_error_snoc.
    + intros H. injection H as <-. exact Hacc.
Qed.

(** A successor recorded by [buildAdjacency] lists its predecessor among
    what it depends on. *)
Lemma buildAdjacency_edges (dependencies : list Dependency.t) (k n : string) :
  In n (adjacent (buildAdjacency dependencies) k) ->
  dependsDirectly dependencies n k.
Proof.
  unfold buildAdjacency.
  set (within := fun adj : list (string * list string) =>
                   forall k n, In n (adjacent adj k) -> dependsDirectly dependencies n k).
  assert (Hinit : forall deps adj,
             within adj ->
             within (fold_left
                       (fun adj dep => map_set adj (Entity.name (Dependency.task dep)) [])
                       deps adj)).
  { induction deps as [|dep deps IH]; intros adj Hadj; simpl; [exact Hadj|].
    apply IH. intros k0 n0. rewrite adjacent_set.
    destruct (String.eqb _ k0); [contradiction | apply Hadj]. }
  assert (Hinner : forall dep, In dep dependencies ->
             forall ds, incl ds (Dependency.dependsOn dep) ->
             forall adj,
               within adj ->
               within (fold_left
                         (fun adj' dependsOn =>
                            map_set adj' dependsOn
                              (adjacent adj' dependsOn
                               ++ [Entity.name (Dependency.task dep)]))
                         ds adj)).
  { intros dep Hdep. induction ds as [|d ds IH]; intros Hincl adj Hadj; simpl;
      [exact Hadj|].
    apply IH; [intros x Hx; apply Hincl; now right|].
    intros k0 n0. rewrite adjacent_set.
    destruct (String.eqb d k0) eqn:Hd; [|apply Hadj].
    apply String.eqb_eq in Hd. subst k0.
    intros Hn0. apply in_app_iff in Hn0. destruct Hn0 as [Hn0 | [<- | []]];
      [exact (Hadj _ _ Hn0)|].
    exists dep. split; [exact Hdep|]. split; [reflexivity|]. apply Hincl. now left. }
  assert (Houter : forall deps, incl deps dependencies ->
             forall adj,
               within adj ->
               within (fold_left
                         (fun adj dep =>
                            fold_left
                              (fun adj' dependsOn =>
                                 map_set adj' dependsOn
                                   (adjacent adj' dependsOn
                                    ++ [Entity.name (Dependency.task dep)]))
                              (Dependency.dependsOn dep) adj)
                         deps adj)).
  { induction deps as [|dep deps IH]; intros Hincl adj Hadj; simpl; [exact Hadj|].
    apply IH; [intros x Hx; apply Hincl; now right|].
    apply Hinner; [apply Hincl; now left | apply incl_refl | exact Hadj]. }
  intros Hin. revert k n Hin. fold within.
  apply Houter; [apply incl_refl|]. apply Hinit.
  intros k0 n0 [].
Qed.

Lemma length_zero_nil {A} (l : list A) : (List.length l =? 0)%nat = true -> l = [].
Proof. now destruct l. Qed.

(** X19.  The critical path of a report, when it is not empty, is a
    chain of listed tasks in which each depends directly on the one
    before it; it starts at a task that depends on nothing and ends at
    a task nothing depends on. *)
Theorem critical_path_is_a_chain (taskName : string) (depth : Z) (st : Store)
    (report : TaskDependencies.t) :
  getTaskDependencies taskName depth st = Some (Ok report) ->
  let deps := TaskDependencies.dependencies report in
  let path := TaskDependencies.criticalPath report in
  path = [] \/
  (chained deps path /\
   (exists d, In d deps /\ hd_error path = Some (Entity.name (Dependency.task d)) /\
              Dependency.dependsOn d = []) /\
   (exists d q, In d deps /\ path = q ++ [Entity.name (Dependency.task d)] /\
                Dependency.dependedOnBy d = [])).
Proof.
  unfold getTaskDependencies, taskDependenciesOf.
  destruct (findTyped (stored st) taskName "task") as [task|]; [|discriminate].
  destruct (buildDependencyMap _ _ _ _) as [[m|msg]|]; cbn [bindR]; try discriminate.
  unfold reportDependencies.
  set (deps := sortBy _ (map _ m)).
  destruct (calculateCriticalPath deps) as [path|] eqn:Hpath; [|discriminate].
  intros H. injection H as <-.
  cbn [TaskDependencies.dependencies TaskDependencies.criticalPath]. cbv zeta.
  unfold calculateCriticalPath in Hpath.
  set (adj := buildAdjacency deps) in Hpath.
  set (starts := map (fun dep => Entity.name (Dependency.task dep))
                     (filter (fun dep => (List.length (Dependency.dependsOn dep) =? 0)%nat)
                             deps)) in Hpath.
  set (ends := map (fun dep => Entity.name (Dependency.task dep))
                   (filter (fun dep => (List.length (Dependency.dependedOnBy dep) =? 0)%nat)
                           deps)) in Hpath.
  destruct (foldO _ starts []) as [allPaths|] eqn:Hloop; [|discriminate].
  assert (Hall : Forall (runsBetween (fun a b => In b (adjacent adj a)) starts ends)
                        allPaths).
  { revert Hloop. apply foldO_invariant; [|constructor].
    intros acc start acc' Hstart Hacc. apply findPaths_runs with (starts := starts).
    - exact I.
    - exists start. split; [reflexivity | exact Hstart].
    - exact Hacc. }
  destruct (sortBy _ allPaths) as [|longest rest] eqn:Hsorted;
    injection Hpath as <-; [now left|].
  right.
  assert (Hin : In longest allPaths)
    by (eapply In_sortBy; rewrite Hsorted; now left).
  rewrite Forall_forall in Hall.
  destruct (Hall longest Hin) as [Hlinked [[s [Hhd Hs]] [q [e [Hq He]]]]].
  split; [|split].
  - unfold chained. eapply linkedBy_impl; [|exact Hlinked].
    intros a b Hab. now apply buildAdjacency_edges.
  - apply in_map_iff in Hs. destruct Hs as [d [<- Hd]].
    apply filter_In in Hd. destruct Hd as [Hd Hnone].
    exists d. split; [exact Hd|]. split; [exact Hhd | now apply length_zero_nil].
  - apply in_map_iff in He. destruct He as [d [<- Hd]].
    apply filter_In in Hd. destruct Hd as [Hd Hnone].
    exists d, q. split; [exact Hd|]. split; [exact Hq | now apply length_zero_nil].
Qed.

Lemma critical_path_is_a_chain_witness :
  exists report,
    getTaskDependencies "D" 2 (Some diamondGraph) = Some (Ok report) /\
    (TaskDependencies.criticalPath report = [] \/
     chained (TaskDependencies.dependencies report)
             (TaskDependencies.criticalPath report)).
Proof.
  destruct (getTaskDependencies "D" 2 (Some diamondGraph)) as [[report|msg]|] eqn:Hrun;
    try (vm_compute in Hrun; discriminate).
  exists report. split; [reflexivity|].
  destruct (critical_path_is_a_chain "D" 2 (Some diamondGraph) report Hrun)
    as [Hempty | [Hchain _]]; [now left | now right].
Defined.

(* ================================================================== *)
(** * Project health: ranges *)
(* ================================================================== *)

Lemma Qmin_range (a b : Q) : (0 <= a)%Q -> (0 <= b)%Q -> (0 <= Qmin a b <= a)%Q.
Proof.
  intros Ha Hb. unfold Qmin. destruct (Qle_bool a b) eqn:Hle.
  - split; [exact Ha | apply Qle_refl].
  - split; [exact Hb|]. apply Qlt_le_weak. apply Qnot_le_lt. intros H.
    apply Qle_bool_iff in H. congruence.
Qed.

Lemma Qmax_range (b c : Q) : (0 <= c)%Q -> (b <= c)%Q -> (0 <= Qmax 0 b <= c)%Q.
Proof.
  intros Hc Hb. unfold Qmax. destruct (Qle_bool 0 b) eqn:Hle.
  - apply Qle_bool_iff in Hle. now split.
  - split; [apply Qle_refl | exact Hc].
Qed.

Lemma ratio_nonneg (a b : nat) (c : Z) :
  (0 <= c)%Z -> (0 <= inject_Z (Z.of_nat a) / inject_Z (Z.of_nat b) * inject_Z c)%Q.
Proof.
  intros Hc. apply Qmult_le_0_compat.
  - apply Qmult_le_0_compat.
    + change 0%Q with (inject_Z 0). rewrite <- Zle_Qle. lia.
    + apply Qinv_le_0_compat. change 0%Q with (inject_Z 0). rewrite <- Zle_Qle. lia.
  - change 0%Q with (inject_Z 0). now rewrite <- Zle_Qle.
Qed.

Lemma percent_range (a b : nat) : (a <= b)%nat -> (0 <= percent a b <= inject_Z 100)%Q.
Proof.
  intros Hab. unfold percent. split; [apply ratio_nonneg; lia|].
  destruct b as [|b].
  - assert (a = 0%nat) by lia. subst a. vm_compute. discriminate.
  - unfold Qle, Qdiv, Qmult, Qinv, inject_Z. cbn [Qnum Qden Z.of_nat].
    destruct a as [|a]; [cbn; lia|]. cbn [Z.of_nat Qnum Qden]. simpl. lia.
Qed.

Lemma minus_ratio_range (a b : nat) (c : Z) :
  (0 <= c)%Z ->
  (inject_Z 100 - inject_Z (Z.of_nat a) / inject_Z (Z.of_nat b) * inject_Z c
   <= inject_Z 100)%Q.
Proof.
  intros Hc. pose proof (ratio_nonneg a b c Hc) as H.
  setoid_replace (inject_Z 100) with (inject_Z 100 - 0)%Q at 2 by ring.
  apply Qplus_le_r. now apply Qopp_le_compat.
Qed.

Lemma Math_round_range (q : Q) :
  (0 <= q <= inject_Z 100)%Q -> (0 <= Math_round q <= 100)%Z.
Proof.
  intros [Hlo Hhi]. unfold Math_round. split.
  - change 0%Z with (Qfloor (0 + (1 # 2))). apply Qfloor_resp_le.
    now apply Qplus_le_l.
  - change 100%Z with (Qfloor (inject_Z 100 + (1 # 2))). apply Qfloor_resp_le.
    now apply Qplus_le_l.
Qed.

Lemma sum_range (factors : list Q) :
  Forall (fun f => (0 <= f <= inject_Z 100)%Q) factors ->
  forall acc,
    (acc <= fold_left Qplus factors acc
     <= acc + inject_Z 100 * inject_Z (Z.of_nat (List.length factors)))%Q.
Proof.
  induction 1 as [|f factors [Hlo Hhi] _ IH]; intros acc.
  - cbn [fold_left List.length Z.of_nat]. split; [apply Qle_refl|].
    setoid_replace (acc + inject_Z 100 * inject_Z 0)%Q with acc by ring. apply Qle_refl.
  - cbn [fold_left List.length]. destruct (IH (acc + f)%Q) as [IHlo IHhi]. split.
    + eapply Qle_trans; [|exact IHlo].
      setoid_replace acc with (acc + 0)%Q at 1 by ring. now apply Qplus_le_r.
    + eapply Qle_trans; [exact IHhi|].
      rewrite Nat2Z.inj_succ. unfold Z.succ. rewrite inject_Z_plus.
      setoid_replace (acc + inject_Z 100
                            * (inject_Z (Z.of_nat (List.length factors)) + inject_Z 1))%Q
        with (acc + inject_Z 100
              + inject_Z 100 * inject_Z (Z.of_nat (List.length factors)))%Q by ring.
      apply Qplus_le_l. now apply Qplus_le_r.
Qed.

Lemma healthScoreOf_range (factors : list Q) :
  Forall (fun f => (0 <= f <= inject_Z 100)%Q) factors ->
  (0 <= healthScoreOf factors <= 100)%Z.
Proof.
  intros Hall. unfold healthScoreOf. apply Math_round_range.
  destruct (sum_range factors Hall 0%Q) as [Hlo Hhi].
  destruct factors as [|f factors].
  - vm_compute. split; discriminate.
  - set (n := inject_Z (Z.of_nat (List.length (f :: factors)))) in *.
    assert (Hn : (0 < n)%Q).
    { unfold n. change 0%Q with (inject_Z 0). rewrite <- Zlt_Qlt. cbn [List.length]. lia. }
    split.
    + apply Qle_shift_div_l; [exact Hn|].
      setoid_replace (0 * n)%Q with 0%Q by ring. exact Hlo.
    + apply Qle_shift_div_r; [exact Hn|].
      setoid_replace (0 + inject_Z 100 * n)%Q with (inject_Z 100 * n)%Q in Hhi by ring.
      exact Hhi.
Qed.

Lemma healthFactors_range (tasks milestones issues risks : list Entity.t)
    (behindSchedule : bool) :
  Forall (fun f => (0 <= f <= inject_Z 100)%Q)
         (healthFactors tasks milestones issues risks behindSchedule).
Proof.
  assert (H100 : (0 <= inject_Z 100)%Q) by (vm_compute; discriminate).
  assert (H50 : (0 <= inject_Z 50 <= inject_Z 100)%Q)
    by (split; vm_compute; discriminate).
  assert (Hmin : forall a b, (0 <= Qmin (inject_Z 100) (percent a b) <= inject_Z 100)%Q).
  { intros a b. apply Qmin_range; [exact H100|]. unfold percent.
    apply ratio_nonneg. lia. }
  assert (Hmax : forall a b c, (0 <= c)%Z ->
             (0 <= Qmax 0 (inject_Z 100 - inject_Z (Z.of_nat a) / inject_Z (Z.of_nat b)
                                          * inject_Z c) <= inject_Z 100)%Q).
  { intros a b c Hc. apply Qmax_range; [exact H100 | now apply minus_ratio_range]. }
  unfold healthFactors.
  repeat constructor;
    try (destruct (0 <? _)%nat; [|exact (proj1 H50) || exact (proj2 H50)]);
    try apply Hmin; try (apply Hmax; lia); try (unfold percent; apply Hmax; lia);
    try (destruct behindSchedule; vm_compute; discriminate).
Qed.

Lemma healthStatusOf_cases (healthScore : Z) :
  In (healthStatusOf healthScore) ["healthy"; "attention_needed"; "at_risk"; "critical"].
Proof.
  unfold healthStatusOf.
  destruct (healthScore >=? 80)%Z; [simpl; tauto|].
  destruct (healthScore >=? 60)%Z; [simpl; tauto|].
  destruct (healthScore >=? 40)%Z; simpl; tauto.
Qed.

Lemma schedule_range (Date_parse : string -> option Z) (now : Z) (project : Entity.t)
    (rate : Q) :
  (0 <= fst (schedule Date_parse now project rate) <= 100)%Z.
Proof.
  unfold schedule.
  destruct (andb _ _); [|simpl; lia].
  destruct (Date_parse _) as [start|]; [|simpl; lia].
  destruct (Date_parse _) as [end_|]; [|simpl; lia].
  destruct (end_ >? start)%Z; [|simpl; lia].
  cbn [fst]. apply Math_round_range.
  assert (H100 : (0 <= inject_Z 100)%Q) by (vm_compute; discriminate).
  destruct (Qmin_range (inject_Z 100)
              (Qmax 0 (inject_Z (now - start) / inject_Z (end_ - start) * inject_Z 100))
              H100) as [Hlo Hhi]; [|now split].
  unfold Qmax. destruct (Qle_bool 0 _) eqn:Hle; [now apply Qle_bool_iff | apply Qle_refl].
Qed.

(** X20.  Whatever the project holds and whatever the clock and the
    date parser say, a health report leaves the file untouched, its
    score, its task completion rate and its timeline progress lie
    between 0 and 100, and its status is one of "healthy",
    "attention_needed", "at_risk" and "critical", as the thresholds 80,
    60 and 40 on the score say. *)
Theorem projectHealth_ranges (Date_parse : string -> option Z) (now : Z)
    (projectName : string) (st st' : Store) (report : Health.report) :
  getProjectHealth Date_parse now projectName st = (Ok report, st') ->
  st' = st /\
  (0 <= Health.healthScore report <= 100)%Z /\
  (0 <= Health.rate (Health.tasks report) <= 100)%Z /\
  (0 <= Health.timelineProgress report <= 100)%Z /\
  Health.healthStatus report = healthStatusOf (Health.healthScore report) /\
  In (Health.healthStatus report) ["healthy"; "attention_needed"; "at_risk"; "critical"].
Proof.
  unfold getProjectHealth, bind, ret. rewrite stored_load.
  destruct (findTyped (stored st) projectName "project") as [project|]; [|discriminate].
  set (tasks := getProjectEntities (stored st) projectName "task").
  set (rate := if (0 <? List.length tasks)%nat
               then percent (countOf (fieldIs "Status:" "completed") tasks)
                            (List.length tasks)
               else 0%Q).
  pose proof (schedule_range Date_parse now project rate) as Hprogress.
  destruct (schedule Date_parse now project rate) as [timelineProgress behindSchedule].
  intros H. injection H as <- <-.
  cbn [Health.healthScore Health.rate Health.tasks Health.timelineProgress
       Health.healthStatus].
  split; [reflexivity|]. split; [|split; [|split; [|split]]].
  - apply healthScoreOf_range. apply healthFactors_range.
  - apply Math_round_range. unfold rate.
    destruct (0 <? List.length tasks)%nat.
    + apply percent_range. unfold countOf. apply filter_length_le.
    + split; vm_compute; discriminate.
  - exact Hprogress.
  - reflexivity.
  - apply healthStatusOf_cases.
Qed.

Lemma projectHealth_ranges_witness :
  exists report,
    getProjectHealth twoDates 1719792000000 "P2" plannedStore = (Ok report, plannedStore) /\
    (0 <= Health.healthScore report <= 100)%Z.
Proof.
  destruct (getProjectHealth twoDates 1719792000000 "P2" plannedStore)
    as [[report|msg] st'] eqn:Hrun; [|vm_compute in Hrun; discriminate].
  destruct (projectHealth_ranges twoDates 1719792000000 "P2" plannedStore st' report Hrun)
    as [-> [Hscore _]].
  exists report. split; [reflexivity | exact Hscore].
Defined.

(* ================================================================== *)
(** * Resource allocation: what a report holds *)
(* ================================================================== *)

Lemma min_hundred_capped (x : Num.number) :
  Num.ltb (Num.Fin (inject_Z 100)) (Num.min (Num.Fin (inject_Z 100)) x) = false.
Proof.
  destruct x as [|s|s|q]; try reflexivity.
  - now destruct s.
  - cbn [Num.min Num.ltb Num.value].
    destruct (Qle_bool (inject_Z 100) q) eqn:Hle; cbn [negb Num.ltb Num.value].
    + reflexivity.
    + apply negb_false_iff. apply Qle_bool_iff. apply Qlt_le_weak. apply Qnot_le_lt.
      intros H. apply Qle_bool_iff in H. congruence.
Qed.

Lemma usagePercentageOf_capped (capacity : option string) (totalTasks inProgressTasks : nat) :
  Num.ltb (Num.ofQ (inject_Z 100)) (usagePercentageOf capacity totalTasks inProgressTasks)
  = false.
Proof.
  change (Num.ofQ (inject_Z 100)) with (Num.Fin (inject_Z 100)).
  unfold usagePercentageOf. destruct capacity as [[|c s]|].
  - now destruct (0 <? totalTasks)%nat.
  - change (Num.ofQ (inject_Z 100)) with (Num.Fin (inject_Z 100)).
    apply min_hundred_capped.
  - now destruct (0 <? totalTasks)%nat.
Qed.

Lemma allocationsOf_length (Date_parse : string -> option Z) (graph : KnowledgeGraph)
    (resources : list Entity.t) (l : list Allocation.t) :
  allocationsOf Date_parse graph resources = Ok l ->
  List.length l = List.length resources.
Proof.
  revert l. induction resources as [|resource rest IH]; intros l; simpl.
  - intros H. now injection H as <-.
  - destruct (allocationOf Date_parse graph resource); [|discriminate].
    destruct (allocationsOf Date_parse graph rest) as [l0|]; [|discriminate].
    intros H. injection H as <-. simpl. now rewrite (IH l0).
Qed.

Lemma sortBy_length {A} (cmp : A -> A -> Z) (l : list A) :
  List.length (sortBy cmp l) = List.length l.
Proof.
  pose proof (sortBy_count cmp (fun _ => true) l) as H.
  now rewrite !filter_all in H by reflexivity.
Qed.

(** X21.  A resource report leaves the file untouched and lists, once
    per entity, the resource entities linked [part_of] to the project
    (those of the given name, when one is given); no usage it reports
    is above 100. *)
Theorem resourceAllocation_report (Date_parse : string -> option Z) (st st' : Store)
    (projectName : string) (resourceName : option string) (report : Allocation.report) :
  getResourceAllocation Date_parse projectName resourceName st = (Ok report, st') ->
  st' = st /\
  List.length (Allocation.resources report)
  = Allocation.totalResources (Allocation.summary_ report) /\
  forall a,
    In a (Allocation.resources report) ->
    In (Allocation.resource a) (entities (stored st)) /\
    Entity.entityType (Allocation.resource a) = "resource" /\
    partOfProject (stored st) projectName (Allocation.resource a) = true /\
    Num.ltb (Num.ofQ (inject_Z 100)) (Allocation.usagePercentage (Allocation.usage_ a))
    = false.
Proof.
  unfold getResourceAllocation, bind, lift, ret. rewrite stored_load.
  destruct (findTyped (stored st) projectName "project"); [|discriminate].
  set (resources := if JS.truthy resourceName then _ else _).
  destruct (andb (JS.truthy resourceName) _); [discriminate|].
  destruct (allocationsOf Date_parse (stored st) resources) as [allocations|msg] eqn:Hall;
    [|discriminate].
  intros H. injection H as <- <-.
  cbn [Allocation.resources Allocation.summary_ Allocation.totalResources].
  split; [reflexivity|]. split.
  - rewrite sortBy_length. now apply allocationsOf_length in Hall.
  - intros a Hin. apply In_sortBy in Hin.
    destruct (allocationsOf_In _ _ _ _ _ Hall Hin) as [resource [Hres Hone]].
    assert (Hlisted : In resource (entities (stored st)) /\
                      Entity.entityType resource = "resource" /\
                      partOfProject (stored st) projectName resource = true).
    { unfold resources, getProjectEntities in Hres.
      destruct (JS.truthy resourceName); apply filter_In in Hres;
        destruct Hres as [Hin' Hp]; repeat (apply andb_true_iff in Hp; destruct Hp as [? Hp]).
      - split; [exact Hin'|]. split; [now apply String.eqb_eq | exact Hp].
      - split; [exact Hin'|]. split; [now apply String.eqb_eq | exact Hp]. }
    unfold allocationOf in Hone.
    destruct (groupByStatus _) as [groups|]; [|discriminate].
    injection Hone as <-.
    cbn [Allocation.resource Allocation.usage_ Allocation.usagePercentage].
    destruct Hlisted as [H1 [H2 H3]]. repeat split; try assumption.
    apply usagePercentageOf_capped.
Qed.

Lemma resourceAllocation_report_witness :
  exists report,
    getResourceAllocation noDates "P1" None workshopStore = (Ok report, workshopStore) /\
    List.length (Allocation.resources report)
    = Allocation.totalResources (Allocation.summary_ report).
Proof.
  destruct (getResourceAllocation noDates "P1" None workshopStore)
    as [[report|msg] st'] eqn:Hrun; [|vm_compute in Hrun; discriminate].
  destruct (resourceAllocation_report noDates workshopStore st' "P1" None report Hrun)
    as [-> [Hlen _]].
  exists report. split; [reflexivity | exact Hlen].
Defined.

(* ================================================================== *)
(** * Project overview and project health *)
(* ================================================================== *)

Lemma sourcesOf_In (graph : KnowledgeGraph) (relationType entityType target : string)
    (rels : list Relation.t) (e : Entity.t) :
  In e (sourcesOf graph relationType entityType target rels) <->
  exists r, In r rels /\ Relation.relationType r = relationType /\
            Relation.to r = target /\
            findTyped graph (Relation.from r) entityType = Some e.
Proof.
  induction rels as [|r rels IH]; simpl.
  - split; [contradiction | intros [r [[] _]]].
  - destruct (andb _ _) eqn:Hmatch.
    + apply andb_true_iff in Hmatch. destruct Hmatch as [Hty Hto].
      apply String.eqb_eq in Hty, Hto.
      destruct (findTyped graph (Relation.from r) entityType) as [e0|] eqn:Hfind.
      * simpl. rewrite IH. split.
        -- intros [<- | [r' [Hin H]]]; [exists r; auto | exists r'; tauto].
        -- intros [r' [[<- | Hin] [H1 [H2 H3]]]].
           ++ left. congruence.
           ++ right. exists r'. auto.
      * rewrite IH. split.
        -- intros [r' [Hin H]]. exists r'. tauto.
        -- intros [r' [[<- | Hin] [H1 [H2 H3]]]]; [congruence | exists r'; auto].
    + rewrite IH. split.
      * intros [r' [Hin H]]. exists r'. tauto.
      * intros [r' [[<- | Hin] [H1 [H2 H3]]]]; [|exists r'; auto].
        subst. rewrite !String.eqb_refl in Hmatch. discriminate.
Qed.

Lemma NoDup_map_injective {A B} (f : A -> B) (l : list A) (a b : A) :
  NoDup (map f l) -> In a l -> In b l -> f a = f b -> a = b.
Proof.
  induction l as [|x l IH]; simpl; [contradiction|].
  intros Hnd Ha Hb Hf. inversion Hnd as [|? ? Hnot Hrest]; subst.
  destruct Ha as [-> | Ha], Hb as [-> | Hb]; auto.
  - exfalso. apply Hnot. rewrite Hf. now apply in_map.
  - exfalso. apply Hnot. rewrite <- Hf. now apply in_map.
Qed.

Lemma findTyped_unique (graph : KnowledgeGraph) (e : Entity.t) :
  uniqueNames graph -> In e (entities graph) ->
  findTyped graph (Entity.name e) (Entity.entityType e) = Some e.
Proof.
  intros Hunique Hin. unfold findTyped.
  destruct (find _ (entities graph)) as [e'|] eqn:Hfind.
  - apply find_some in Hfind. destruct Hfind as [Hin' Hp].
    apply andb_true_iff in Hp. destruct Hp as [Hname _]. apply String.eqb_eq in Hname.
    f_equal. exact (NoDup_map_injective Entity.name _ _ _ Hunique Hin' Hin Hname).
  - pose proof (find_none _ _ Hfind e Hin) as Hno. cbv beta in Hno.
    now rewrite !String.eqb_refl in Hno.
Qed.

Lemma sourcesOf_NoDup (graph : KnowledgeGraph) (relationType entityType target : string)
    (rels : list Relation.t) :
  NoDup (map (fun r => (Relation.from r, Relation.to r, Relation.relationType r)) rels) ->
  NoDup (sourcesOf graph relationType entityType target rels).
Proof.
  induction rels as [|r rels IH]; simpl; intros Hnd; [constructor|].
  inversion Hnd as [|? ? Hnot Hrest]; subst. specialize (IH Hrest).
  destruct (andb _ _) eqn:Hmatch; [|exact IH].
  destruct (findTyped graph (Relation.from r) entityType) as [e|] eqn:Hfind; [|exact IH].
  constructor; [|exact IH].
  intros Hin. apply sourcesOf_In in Hin. destruct Hin as [r' [Hr' [Hty [Hto Hfind']]]].
  apply andb_true_iff in Hmatch. destruct Hmatch as [Hty0 Hto0].
  apply String.eqb_eq in Hty0, Hto0.
  apply findTyped_name in Hfind, Hfind'.
  destruct Hfind as [Hn _], Hfind' as [Hn' _].
  apply Hnot. apply in_map_iff. exists r'. split; [|exact Hr']. congruence.
Qed.

Lemma same_members_count {A} (l1 l2 : list A) (p : A -> bool) :
  NoDup l1 -> NoDup l2 -> (forall x, In x l1 <-> In x l2) ->
  List.length (filter p l1) = List.length (filter p l2).
Proof.
  intros H1 H2 Hsame. apply Nat.le_antisymm; apply NoDup_incl_length;
    try (now apply NoDup_filter);
    intros x Hx; apply filter_In in Hx; apply filter_In; split; try tauto;
    now apply Hsame.
Qed.

(** With unique entity names and no repeated relation, the entities of
    one type that the overview reaches through the relations are the
    ones the health report picks among the entities. *)
Lemma project_entities_agree (graph : KnowledgeGraph) (projectName entityType : string)
    (p : Entity.t -> bool) :
  uniqueNames graph -> noRepeatedRelation graph ->
  List.length (filter p (sourcesOf graph "part_of" entityType projectName (relations graph)))
  = List.length (filter p (getProjectEntities graph projectName entityType)).
Proof.
  intros Hunique Hrels. apply same_members_count.
  - now apply sourcesOf_NoDup.
  - unfold getProjectEntities. apply NoDup_filter.
    exact (NoDup_map_inv _ _ Hunique).
  - intros e. rewrite sourcesOf_In. unfold getProjectEntities. rewrite filter_In.
    split.
    + intros [r [Hr [Hty [Hto Hfind]]]].
      apply findTyped_name in Hfind. destruct Hfind as [Hname [Htype Hin]].
      split; [exact Hin|]. apply andb_true_iff. split; [now apply String.eqb_eq|].
      unfold partOfProject. apply existsb_exists. exists r. split; [exact Hr|].
      now rewrite Hname, Hto, Hty, !String.eqb_refl.
    + intros [Hin Hp]. apply andb_true_iff in Hp. destruct Hp as [Htype Hpart].
      apply String.eqb_eq in Htype. unfold partOfProject in Hpart.
      apply existsb_exists in Hpart. destruct Hpart as [r [Hr Hmatch]].
      apply andb_true_iff in Hmatch. destruct Hmatch as [Hfrom Hmatch].
      apply andb_true_iff in Hmatch. destruct Hmatch as [Hto Hty].
      apply String.eqb_eq in Hfrom, Hto, Hty.
      exists r. split; [exact Hr|]. split; [exact Hty|]. split; [exact Hto|].
      rewrite Hfrom, <- Htype. now apply findTyped_unique.
Qed.

(** X22.  On a file with unique entity names and no repeated relation,
    the project overview and the project health report, which count the
    tasks, milestones, issues and risks of a project in two different
    ways, agree on every count they share and on the task completion
    rate. *)
Theorem overview_agrees_with_health (Date_parse : string -> option Z) (now : Z)
    (projectName : string) (st st1 st2 : Store)
    (overview : Overview.t) (health : Health.report) :
  uniqueNames (stored st) ->
  noRepeatedRelation (stored st) ->
  getProjectOverview Date_parse now projectName st = (Ok overview, st1) ->
  getProjectHealth Date_parse now projectName st = (Ok health, st2) ->
  let summary := Overview.summary_ overview in
  Overview.taskCount summary = Health.total (Health.tasks health) /\
  Overview.completedTasks summary = Health.achieved (Health.tasks health) /\
  Overview.taskCompletionRate summary = Health.rate (Health.tasks health) /\
  Overview.milestoneCount summary = Health.total (Health.milestones health) /\
  Overview.issueCount summary = Health.total (Health.issues health) /\
  Overview.riskCount summary = Health.total (Health.risks health).
Proof.
  intros Hunique Hrels.
  assert (Hlen : forall entityType,
             List.length (sourcesOf (stored st) "part_of" entityType projectName
                            (relations (stored st)))
             = List.length (getProjectEntities (stored st) projectName entityType)).
  { intros entityType.
    pose proof (project_entities_agree (stored st) projectName entityType
                  (fun _ => true) Hunique Hrels) as H.
    now rewrite !filter_all in H by reflexivity. }
  pose proof (project_entities_agree (stored st) projectName "task"
                (fieldIs "Status:" "completed") Hunique Hrels) as Hdone.
  unfold getProjectOverview, getProjectHealth, bind, lift, ret. rewrite stored_load.
  destruct (findTyped (stored st) projectName "project") as [project|]; [|discriminate].
  destruct (groupByStatusOr "not_started" _ _) as [tasksByStatus|]; [|discriminate].
  destruct (groupByStatusOr "identified" _ _) as [issuesByStatus|]; [|discriminate].
  intros Ho. injection Ho as <- _.
  destruct (schedule Date_parse now project _) as [timelineProgress behindSchedule].
  intros Hh. injection Hh as <- _.
  cbn [Overview.summary_ Overview.taskCount Overview.completedTasks
       Overview.taskCompletionRate Overview.milestoneCount Overview.issueCount
       Overview.riskCount Health.tasks Health.milestones Health.issues Health.risks
       Health.total Health.achieved Health.rate].
  cbv zeta. unfold countOf. rewrite sortBy_length, !Hlen, Hdone. repeat split.
Qed.

Lemma overview_agrees_with_health_witness :
  exists overview health,
    getProjectOverview noDates 0 "P4" twoTasksStore = (Ok overview, twoTasksStore) /\
    getProjectHealth noDates 0 "P4" twoTasksStore = (Ok health, twoTasksStore) /\
    Overview.taskCount (Overview.summary_ overview) = Health.total (Health.tasks health).
Proof.
  destruct (getProjectOverview noDates 0 "P4" twoTasksStore)
    as [[overview|msg] st1] eqn:Ho; [|vm_compute in Ho; discriminate].
  destruct (getProjectHealth noDates 0 "P4" twoTasksStore)
    as [[health|msg] st2] eqn:Hh; [|vm_compute in Hh; discriminate].
  assert (Hunique : uniqueNames (stored twoTasksStore)).
  { unfold uniqueNames. vm_compute.
    repeat (constructor; [simpl; intuition discriminate|]). constructor. }
  assert (Hrels : noRepeatedRelation (stored twoTasksStore)).
  { unfold noRepeatedRelation. vm_compute.
    repeat (constructor; [simpl; intuition discriminate|]). constructor. }
  destruct (overview_agrees_with_health noDates 0 "P4" twoTasksStore st1 st2
              overview health Hunique Hrels Ho Hh) as [Hcount _].
  exists overview, health.
  assert (H1 : st1 = twoTasksStore) by (vm_compute in Ho; now inversion Ho).
  assert (H2 : st2 = twoTasksStore) by (vm_compute in Hh; now inversion Hh).
  subst st1 st2. repeat split. exact Hcount.
Defined.

(** A relation accepted twice in one batch is followed twice by the
    overview and seen once by the health report. *)
Example overview_counts_a_repeated_relation_twice :
  exists overview health,
    getProjectOverview noDates 0 "P3" twiceLinkedStore = (Ok overview, twiceLinkedStore) /\
    getProjectHealth noDates 0 "P3" twiceLinkedStore = (Ok health, twiceLinkedStore) /\
    Overview.taskCount (Overview.summary_ overview) = 2%nat /\
    Health.total (Health.tasks health) = 1%nat.
Proof.
  eexists. eexists. split; [vm_compute; reflexivity|].
  split; [vm_compute; reflexivity|]. split; reflexivity.
Qed.

(* ================================================================== *)
(** * Related projects: what is reported *)
(* ================================================================== *)

Lemma set_add_In (s : list string) (x y : string) :
  In y s -> In y (set_add s x).
Proof.
  intros H. unfold set_add. destruct (JS.array_includes s x); [exact H|].
  apply in_app_iff. now left.
Qed.

Section RelatedProjects.

Variable graph : KnowledgeGraph.
Variable seed : Entity.t.
Variable depth : Z.

(** The fuel is never the reason the search stops. *)
Lemma findConnections_total (fuel : nat) :
  forall current currentDepth s,
    (Z.to_nat (depth + 1 - currentDepth) < fuel)%nat ->
    findConnections graph seed depth fuel current currentDepth s <> None.
Proof.
  induction fuel as [|fuel IH]; intros current currentDepth s Hfuel; [lia|].
  cbn [findConnections].
  destruct (currentDepth >? depth)%Z eqn:Hstop; [discriminate|].
  rewrite Z.gtb_ltb in Hstop. apply Z.ltb_ge in Hstop.
  apply foldO_total. intros s0 other _.
  destruct (Qltb 0 _); [|discriminate].
  apply IH. lia.
Qed.

(** Whatever is recorded is a proper connection, as long as the name
    asked about stays in the set. *)
Lemma findConnections_proper (projectName : string) (fuel : nat) :
  forall current currentDepth s s',
    In projectName (processedProjects s) ->
    Forall (properConnection graph projectName) (related s) ->
    findConnections graph seed depth fuel current currentDepth s = Some s' ->
    In projectName (processedProjects s') /\
    Forall (properConnection graph projectName) (related s').
Proof.
  induction fuel as [|fuel IH]; intros current currentDepth s s' Hseed Hall;
    [discriminate|].
  cbn [findConnections].
  destruct (currentDepth >? depth)%Z; [intros H; injection H as <-; now split|].
  set (others := filter _ (entities graph)).
  assert (Hothers : forall other, In other others ->
             In other (entities graph) /\ Entity.entityType other = "project" /\
             Entity.name other <> projectName).
  { intros other Hin. apply filter_In in Hin. destruct Hin as [Hin Hp].
    apply andb_true_iff in Hp. destruct Hp as [Hty Hp].
    apply andb_true_iff in Hp. destruct Hp as [_ Hnew].
    apply String.eqb_eq in Hty. apply negb_true_iff in Hnew.
    apply array_includes_false in Hnew.
    split; [exact Hin|]. split; [exact Hty|]. intros Heq. apply Hnew. now rewrite Heq. }
  intros Hrun.
  refine (foldO_invariant
            (fun s0 => In projectName (processedProjects s0) /\
                       Forall (properConnection graph projectName) (related s0))
            _ others _ s s' (conj Hseed Hall) Hrun).
  intros s0 other s0' Hin [Hseed0 Hall0].
  set (c := connectionOf graph seed other current).
  assert (Hproject : Connection.project c = other) by reflexivity.
  destruct (Qltb 0 (Connection.connectionStrength c)) eqn:Hpos.
  - apply IH; cbn [processedProjects related].
    + now apply set_add_In.
    + apply Forall_app. split; [exact Hall0|]. constructor; [|constructor].
      destruct (Hothers other Hin) as [H1 [H2 H3]].
      unfold properConnection. rewrite Hproject.
      split; [exact H1|]. split; [exact H2|]. split; [exact H3|].
      unfold Qltb in Hpos. apply negb_true_iff in Hpos.
      apply Qnot_le_lt. intros Hle. apply Qle_bool_iff in Hle. congruence.
  - intros H. injection H as <-. cbn [processedProjects related].
    split; [now apply set_add_In | exact Hall0].
Qed.

End RelatedProjects.

Lemma Forall_sortBy {A} (P : A -> Prop) (cmp : A -> A -> Z) (l : list A) :
  Forall P l -> Forall P (sortBy cmp l).
Proof.
  intros H. rewrite Forall_forall in *. intros x Hx. apply H. now apply In_sortBy in Hx.
Qed.

(** X23.  [findRelatedProjects] comes to an end on every file content,
    project name and depth.  Without a project entity of that name it
    throws "Project '<name>' not found"; otherwise every connection
    it reports leads to a project entity of the file other than the one
    asked about and has a positive strength, and the total it gives is
    the number of connections listed. *)
Theorem findRelatedProjects_always_answers (projectName : string) (depth : Z)
    (st : Store) :
  exists r,
    findRelatedProjects projectName depth st = Some r /\
    (findTyped (stored st) projectName "project" = None ->
     r = Throw ("Project '" ++ projectName ++ "' not found")) /\
    (forall report,
        r = Ok report ->
        findTyped (stored st) projectName "project" = Some (Connection.seed report) /\
        Forall (properConnection (stored st) projectName)
               (Connection.relatedProjects report) /\
        Connection.totalRelated report
        = List.length (Connection.relatedProjects report)).
Proof.
  unfold findRelatedProjects.
  destruct (findTyped (stored st) projectName "project") as [project|].
  - pose proof (findConnections_total (stored st) project depth (Z.to_nat depth + 2)
                  projectName 1%Z (mkState [projectName] [])) as Htotal.
    destruct (findConnections _ _ _ _ _ _ _) as [s|] eqn:Hrun;
      [|exfalso; apply Htotal; [lia | reflexivity]].
    eexists. split; [reflexivity|]. split; [discriminate|].
    intros report H. injection H as <-.
    cbn [Connection.seed Connection.relatedProjects Connection.totalRelated].
    split; [reflexivity|]. split; [|reflexivity].
    apply Forall_sortBy.
    apply (findConnections_proper (stored st) project depth projectName
             (Z.to_nat depth + 2) projectName 1%Z (mkState [projectName] []) s);
      [now left | constructor | exact Hrun].
  - eexists. split; [reflexivity|]. split; [reflexivity | discriminate].
Qed.

Lemma countNamed_at_most_one (graph : KnowledgeGraph) (n : string) :
  uniqueNames graph -> (countNamed graph n <= 1)%nat.
Proof.
  intros Hunique. destruct (hasEntity graph n) eqn:Hhas.
  - now rewrite countNamed_NoDup.
  - unfold countNamed. rewrite (filter_nil _ (entities graph)); [simpl; lia|].
    intros e He. destruct (String.eqb (Entity.name e) n) eqn:Heq; [|reflexivity].
    apply String.eqb_eq in Heq. exfalso.
    assert (hasEntity graph n = true); [|congruence].
    apply hasEntity_In. rewrite <- Heq. now apply in_map.
Qed.

(** At a depth of 1 nothing is explored beyond the projects picked at
    the start: each of them adds at most one connection. *)
Lemma findConnections_depth_one (graph : KnowledgeGraph) (seed : Entity.t)
    (current n : string) (fuel : nat) (s s' : SearchState) :
  findConnections graph seed 1 (S (S fuel)) current 1 s = Some s' ->
  (timesReported n (related s')
   <= timesReported n (related s) + countNamed graph n)%nat.
Proof.
  remember (S fuel) as fuel1 eqn:Hfuel.
  cbn [findConnections Z.gtb Z.compare Pos.compare Pos.compare_cont].
  set (others := filter _ (entities graph)).
  assert (Hle : (List.length (filter (fun e => String.eqb (Entity.name e) n) others)
                 <= countNamed graph n)%nat) by apply filter_filter_length.
  intros Hrun.
  assert (Hgen : (timesReported n (related s')
                  <= timesReported n (related s)
                     + List.length (filter (fun e => String.eqb (Entity.name e) n) others))%nat);
    [|lia].
  clear Hle. clearbody others. revert s Hrun.
  induction others as [|other others IH]; intros s; cbn [foldO].
  - intros H. injection H as <-. lia.
  - assert (Hback : forall x, findConnections graph seed 1 fuel1 (Entity.name other)
                                (1 + 1) x = Some x)
      by (intros x; subst fuel1; reflexivity).
    rewrite Hback.
    set (c := connectionOf graph seed other current).
    assert (Hproject : Connection.project c = other) by reflexivity.
    cbn [filter].
    destruct (Qltb 0 (Connection.connectionStrength c)); intros Hrun;
      apply IH in Hrun; unfold timesReported in *; cbn [related] in Hrun.
    + rewrite filter_app, length_app in Hrun. cbn [filter] in Hrun.
      rewrite Hproject in Hrun.
      destruct (String.eqb (Entity.name other) n); cbn [List.length] in *; lia.
    + destruct (String.eqb (Entity.name other) n); cbn [List.length] in *; lia.
Qed.

(** X24.  At the default depth of 1, on a file with unique entity names,
    no project is reported twice. *)
Theorem findRelatedProjects_depth_one (projectName : string) (st : Store)
    (report : Connection.report) (n : string) :
  uniqueNames (stored st) ->
  findRelatedProjects projectName defaultRelatedDepth st = Some (Ok report) ->
  (timesReported n (Connection.relatedProjects report) <= 1)%nat.
Proof.
  intros Hunique. unfold findRelatedProjects, defaultRelatedDepth.
  destruct (findTyped (stored st) projectName "project") as [project|]; [|discriminate].
  change (Z.to_nat 1 + 2)%nat with (S (S 1)).
  destruct (findConnections _ _ _ _ _ _ _) as [s|] eqn:Hrun; [|discriminate].
  intros H. injection H as <-. cbn [Connection.relatedProjects].
  unfold timesReported. rewrite sortBy_count.
  apply (findConnections_depth_one _ _ _ n) in Hrun.
  pose proof (countNamed_at_most_one (stored st) n Hunique).
  unfold timesReported in Hrun. cbn [related filter List.length] in Hrun. lia.
Qed.

Lemma findRelatedProjects_depth_one_witness :
  exists report,
    findRelatedProjects "P" defaultRelatedDepth (Some threeProjects) = Some (Ok report) /\
    (timesReported "B" (Connection.relatedProjects report) <= 1)%nat.
Proof.
  destruct (findRelatedProjects "P" defaultRelatedDepth (Some threeProjects))
    as [[report|msg]|] eqn:Hrun; try (vm_compute in Hrun; discriminate).
  exists report. split; [reflexivity|].
  apply (findRelatedProjects_depth_one "P" (Some threeProjects) report "B");
    [|exact Hrun].
  unfold uniqueNames. vm_compute.
  repeat (constructor; [simpl; intuition discriminate|]). constructor.
Defined.

(** From a depth of 2 on a project can be reported twice: "B" is reached
    from "A" and then again from the list picked at the start. *)
Example findRelatedProjects_reports_twice :
  exists report,
    findRelatedProjects "P" 2 (Some threeProjects) = Some (Ok report) /\
    timesReported "B" (Connection.relatedProjects report) = 2%nat.
Proof. eexists. split; [vm_compute; reflexivity | reflexivity]. Qed.

(* ================================================================== *)
(** * Project overview: statuses named like inherited properties *)
(* ================================================================== *)

Lemma groupByStatusOr_throws (fallback message : string) (items : list Entity.t)
    (item : Entity.t) :
  In item items ->
  In (JS.or_else (field "Status:" (Entity.observations item)) fallback) inheritedKeys ->
  groupByStatusOr fallback message items = Throw message.
Proof.
  intros Hin Hkey. unfold groupByStatusOr.
  set (step := fun (acc : result (list (string * list Entity.t))) (x : Entity.t) => _).
  assert (Hthrown : forall l, fold_left step l (Throw message) = Throw message)
    by (induction l as [|x l IH]; [reflexivity | exact IH]).
  assert (Hgen : forall acc, acc = Throw message \/ (exists groups, acc = Ok groups) ->
                             fold_left step items acc = Throw message).
  { induction items as [|x items IH]; intros acc Hacc; [contradiction|].
    cbn [fold_left]. destruct Hin as [-> | Hin].
    - destruct Hacc as [-> | [groups ->]]; [apply Hthrown|].
      unfold step at 2. apply array_includes_In in Hkey. rewrite Hkey. apply Hthrown.
    - apply IH; [exact Hin|].
      destruct Hacc as [-> | [groups ->]]; [now left|].
      unfold step. destruct (JS.array_includes inheritedKeys _); [now left|].
      right. eexists. reflexivity. }
  apply Hgen. right. now exists [].
Qed.

(** X28.  A task of the project whose status is the name of a property
    that every object inherits ("constructor", "toString", ...) makes
    the project overview throw a [TypeError]; the file is untouched. *)
Theorem getProjectOverview_inherited_status (Date_parse : string -> option Z) (now : Z)
    (projectName : string) (st : Store) (project task : Entity.t) :
  findTyped (stored st) projectName "project" = Some project ->
  In task (sourcesOf (stored st) "part_of" "task" projectName (relations (stored st))) ->
  In (JS.or_else (field "Status:" (Entity.observations task)) "not_started")
     inheritedKeys ->
  getProjectOverview Date_parse now projectName st
  = (Throw "tasksByStatus[taskStatus].push is not a function", st).
Proof.
  intros Hfind Htask Hkey. unfold getProjectOverview, bind, lift. rewrite stored_load, Hfind.
  now rewrite (groupByStatusOr_throws _ _ _ task Htask Hkey).
Qed.

Lemma getProjectOverview_inherited_status_witness :
  getProjectOverview noDates 0 "P5" inheritedStatusStore
  = (Throw "tasksByStatus[taskStatus].push is not a function", inheritedStatusStore).
Proof.
  apply (getProjectOverview_inherited_status noDates 0 "P5" inheritedStatusStore
           (Entity.mk "P5" "project" [] None)
           (Entity.mk "T1" "task" ["Status: constructor"] None)).
  - reflexivity.
  - vm_compute. now left.
  - vm_compute. tauto.
Defined.

(* ================================================================== *)
(** * Session tools: what the listings and the callbacks do *)
(* ================================================================== *)

Lemma try_catch_returns (body : M unit) (st : Store) :
  fst (try_catch body tt st) = Ok tt.
Proof. unfold try_catch. now destruct (body st) as [[[]|msg] st']. Qed.

Lemma setEntityStatus_valid (st : Store) (x v : string) :
  JS.array_includes VALID_STATUS_VALUES v = true ->
  setEntityStatus x v st = (Ok tt, snd (setEntityStatus x v st)).
Proof.
  intros Hv. unfold setEntityStatus. rewrite Hv. cbn [negb].
  unfold bind. now rewrite stored_load.
Qed.

(** X25.  The callback [endsession] runs on a task update never throws.
    For a status "completed", "done" or "finished" it sets the status
    and then stops at the "resolves" relation, which no graph accepts:
    the progress note is never recorded.  For "not_started", "planned"
    or "upcoming" the mapped status "inactive" is refused, and the file
    is left as it was. *)
Theorem updateTask_outcomes (sessionId : string) (taskUpdate : TaskUpdate.t) (st : Store) :
  fst (updateTask sessionId taskUpdate st) = Ok tt /\
  (In (TaskUpdate.status taskUpdate) ["completed"; "done"; "finished"] ->
   snd (updateTask sessionId taskUpdate st)
   = snd (setEntityStatus (TaskUpdate.name taskUpdate) "completed" st)) /\
  (In (TaskUpdate.status taskUpdate) ["not_started"; "planned"; "upcoming"] ->
   snd (updateTask sessionId taskUpdate st) = st).
Proof.
  split; [apply try_catch_returns|]. split.
  - intros Hstatus.
    assert (Hstd : standardTaskStatus (TaskUpdate.status taskUpdate) = "completed").
    { simpl in Hstatus. destruct Hstatus as [<- | [<- | [<- | []]]]; reflexivity. }
    unfold updateTask, try_catch. rewrite Hstd. cbn [String.eqb Ascii.eqb Bool.eqb].
    unfold bind at 1.
    rewrite (setEntityStatus_valid st (TaskUpdate.name taskUpdate) "completed" eq_refl).
    set (st1 := snd (setEntityStatus (TaskUpdate.name taskUpdate) "completed" st)).
    destruct (createRelations_throws st1
                [Relation.mk sessionId (TaskUpdate.name taskUpdate) "resolves" (Some [])]
                (Relation.mk sessionId (TaskUpdate.name taskUpdate) "resolves" (Some []))
                (or_introl eq_refl)) as [msg Hthrow].
    { right. right. left. reflexivity. }
    unfold bind, await_, bind. rewrite Hthrow. reflexivity.
  - intros Hstatus.
    assert (Hstd : standardTaskStatus (TaskUpdate.status taskUpdate) = "inactive").
    { simpl in Hstatus. destruct Hstatus as [<- | [<- | [<- | []]]]; reflexivity. }
    unfold updateTask, try_catch. rewrite Hstd. reflexivity.
Qed.

Lemma updateTask_outcomes_witness :
  In "done" ["completed"; "done"; "finished"] /\
  snd (updateTask "session_1" (TaskUpdate.mk "Lathe" "done" (Some "half way")) workshopStore)
  = snd (setEntityStatus "Lathe" "completed" workshopStore).
Proof.
  assert (Hstatus : In "done" ["completed"; "done"; "finished"]) by (simpl; tauto).
  split; [exact Hstatus|].
  exact (proj1 (proj2 (updateTask_outcomes "session_1"
                         (TaskUpdate.mk "Lathe" "done" (Some "half way")) workshopStore))
           Hstatus).
Defined.

(** X26.  The callback [endsession] runs on a new task of a fresh name
    whose priority is neither "high" nor "low" (none given included)
    creates the task entity and stops at the priority: the task gets no
    priority, no status and no link to the project, and the callback
    reports [null]. *)
Theorem createNewTask_without_valid_priority (project : string) (task : NewTask.t)
    (st : Store) :
  hasEntity (stored st) (NewTask.name task) = false ->
  JS.array_includes VALID_PRIORITY_VALUES (JS.or_else (NewTask.priority task) "N/A")
  = false ->
  createNewTask project task st
  = (Ok None,
     Some (mkGraph (entities (stored st) ++ [newTaskEntity task]) (relations (stored st)))).
Proof.
  intros Hfresh Hpriority. unfold createNewTask, try_catch.
  unfold bind at 1. unfold createEntities, bind, lift, saveGraph, ret.
  rewrite stored_load. cbn [for_of newTaskEntity Entity.name Entity.entityType].
  rewrite Hfresh. cbn [validateEntityType].
  change (isValidEntityType "task") with true. cbv iota.
  unfold setEntityPriority. rewrite Hpriority. reflexivity.
Qed.

Lemma createNewTask_without_valid_priority_witness :
  createNewTask "P1" (NewTask.mk "Sharpen" (Some "Sharpen the tools") (Some "medium")
                        None None) workshopStore
  = (Ok None,
     Some (mkGraph (entities (stored workshopStore)
                    ++ [Entity.mk "Sharpen" "task" ["Description: Sharpen the tools"] None])
                   (relations (stored workshopStore)))).
Proof.
  apply (createNewTask_without_valid_priority "P1"
           (NewTask.mk "Sharpen" (Some "Sharpen the tools") (Some "medium") None None)
           workshopStore); reflexivity.
Defined.

Lemma prefix_app_l (p q s : string) :
  String.prefix (p ++ q) s = true -> String.prefix p s = true.
Proof.
  revert s. induction p as [|c p IH]; intros s; [now destruct s|].
  destruct s as [|d s]; simpl; [discriminate|].
  destruct (Ascii.ascii_dec c d); [apply IH | discriminate].
Qed.

Lemma includes_app_l (s p q : string) :
  JS.includes s (p ++ q) = true -> JS.includes s p = true.
Proof.
  induction s as [|c s IH]; cbn [JS.includes]; intros H; apply orb_true_iff in H;
    apply orb_true_iff; destruct H as [H | H].
  - left. now apply prefix_app_l in H.
  - discriminate.
  - left. now apply prefix_app_l in H.
  - right. now apply IH.
Qed.

Lemma search_for_entityType (graph : KnowledgeGraph) (kind : string) :
  Forall (fun e => isValidEntityType (Entity.entityType e) = true) (entities graph) ->
  validTypes graph ->
  mentions "entitytype:" graph = false ->
  searchGraph (entityMatches ("entitytype:" ++ kind)) (relationMatches ("entitytype:" ++ kind))
    graph
  = mkGraph [] [].
Proof.
  intros Hents Hrels Hno. unfold mentions in Hno.
  apply orb_false_iff in Hno. destruct Hno as [Hnames Hobs].
  assert (Hclean : forall s, JS.includes (JS.toLowerCase s) "entitytype:" = false ->
                             JS.includes (JS.toLowerCase s) ("entitytype:" ++ kind) = false).
  { intros s Hs. destruct (JS.includes _ ("entitytype:" ++ kind)) eqn:H; [|reflexivity].
    apply includes_app_l in H. congruence. }
  assert (Hany : forall obs,
             existsb (fun o => JS.includes (JS.toLowerCase o) "entitytype:") obs = false ->
             existsb (fun o => JS.includes (JS.toLowerCase o) ("entitytype:" ++ kind)) obs
             = false).
  { induction obs as [|o obs IH]; cbn [existsb]; [reflexivity|].
    intros H. apply orb_false_iff in H. destruct H as [Ho Hrest].
    now rewrite (Hclean o Ho), (IH Hrest). }
  assert (HE : filter (entityMatches ("entitytype:" ++ kind)) (entities graph) = []).
  { apply filter_nil. intros e He. unfold entityMatches.
    rewrite Forall_forall in Hents. specialize (Hents e He).
    assert (He' : orb (JS.includes (JS.toLowerCase (Entity.name e)) "entitytype:")
                      (existsb (fun o => JS.includes (JS.toLowerCase o) "entitytype:")
                               (Entity.observations e)) = false).
    { destruct (orb _ _) eqn:H; [|reflexivity].
      assert (Hex : existsb (fun e => orb (JS.includes (JS.toLowerCase (Entity.name e))
                                             "entitytype:")
                                          (existsb (fun o => JS.includes (JS.toLowerCase o)
                                                               "entitytype:")
                                                   (Entity.observations e)))
                            (entities graph) = true)
        by (apply existsb_exists; now exists e).
      congruence. }
    apply orb_false_iff in He'. destruct He' as [Hn Ho].
    rewrite (Hclean _ Hn), (Hany _ Ho). cbn [orb]. rewrite orb_false_r.
    apply Hclean. apply array_includes_In in Hents.
    simpl in Hents. repeat (destruct Hents as [<- | Hents]; [reflexivity|]). contradiction. }
  assert (HR : filter (relationMatches ("entitytype:" ++ kind)) (relations graph) = []).
  { apply filter_nil. intros r Hr. unfold relationMatches.
    unfold validTypes in Hrels. rewrite Forall_forall in Hrels. specialize (Hrels r Hr).
    assert (Hr' : match Relation.observations r with
                  | Some obs => existsb (fun o => JS.includes (JS.toLowerCase o) "entitytype:")
                                        obs
                  | None => false
                  end = false).
    { destruct (match Relation.observations r with Some _ => _ | None => _ end) eqn:H;
        [|reflexivity].
      assert (Hex : existsb (fun r => match Relation.observations r with
                                      | Some obs =>
                                          existsb (fun o => JS.includes (JS.toLowerCase o)
                                                              "entitytype:") obs
                                      | None => false
                                      end) (relations graph) = true)
        by (apply existsb_exists; now exists r).
      congruence. }
    apply orb_false_iff. split.
    - apply Hclean. simpl in Hrels.
      repeat (destruct Hrels as [<- | Hrels]; [reflexivity|]). contradiction.
    - destruct (Relation.observations r) as [obs|]; [now apply Hany | reflexivity]. }
  unfold searchGraph. rewrite HE, HR. cbn [map fold_left matchingEntities allRelations].
  f_equal. apply filter_nil. reflexivity.
Qed.

(** X27.  In a file that only the manager wrote, [startsession] lists
    no active project and no high-priority task, whatever the types,
    statuses and priorities of the entities, unless the text
    "entityType:" occurs (letter case aside) in an entity name or in an
    observation: its queries "entityType:project" and "entityType:task"
    are matched against names, types and observations as plain text. *)
Theorem startsession_lists_by_text (st : Store) :
  reachable st ->
  mentions "entitytype:" (stored st) = false ->
  sessionActiveProjects st = (Ok [], st) /\
  sessionHighPriorityTasks st = (Ok [], st).
Proof.
  intros Hreach Hno.
  pose proof (reachable_entityTypes st Hreach) as Hents.
  pose proof (reachable_validTypes st Hreach) as Hrels.
  unfold sessionActiveProjects, sessionHighPriorityTasks, searchNodes, bind, ret.
  rewrite stored_load.
  change (JS.toLowerCase "entityType:project") with ("entitytype:" ++ "project")%string.
  change (JS.toLowerCase "entityType:task") with ("entitytype:" ++ "task")%string.
  rewrite !search_for_entityType by assumption.
  split; reflexivity.
Qed.

Lemma startsession_lists_by_text_witness :
  sessionActiveProjects
    (run (workshopCalls ++ [SetEntityStatus "P1" "active"]) None)
  = (Ok [], run (workshopCalls ++ [SetEntityStatus "P1" "active"]) None).
Proof.
  refine (proj1 (startsession_lists_by_text
                   (run (workshopCalls ++ [SetEntityStatus "P1" "active"]) None) _ _)).
  - eexists. reflexivity.
  - reflexivity.
Defined.
